(** * Attention detector: evidence fusion, temporal trackers, calibration
      and alarm escalation

    A shallow embedding of the drowsiness detector of the repository
    (the [useAttentionDetector] hook and the trackers it drives) and the
    properties established about it.

    Conventions of the embedding.
    - JavaScript numbers are rationals ([Q]): every constant of the code is
      a finite decimal and the code only adds, subtracts, multiplies,
      divides and compares, so the embedding is the exact-arithmetic
      reading of the floating-point program.  Timestamps ([Date.now()])
      are integers ([Z], milliseconds); counters are [nat].
    - The geometric extractors (square roots, arc sines) are not embedded:
      a frame carries the metrics they return.
    - [Math.random()] is an explicit stream of draws consumed in program
      order (the [Rand] monad below).  The trackers read [Date.now()]
      themselves; the clock is taken not to advance within a frame.
    - A ref and the React state mirroring it ([updateActiveAlarms] and its
      siblings write both) are one field of the [Session] record.  State
      that the frame handler reads through its closure is read from the
      session when it is a dependency of the detector effect ([baselines],
      [isAbsenceAlarmArmed]: the effect rebuilds the handler as soon as
      they change) and from the [Closure] record otherwise.
    - State that is only displayed ([ear], [eyesClosedSec] and the metrics
      batched by [queueStateUpdate]) is left out; calls to the speech and
      tone effectors and to the attention bridge are logged in
      [effects]. *)

From Stdlib Require Import QArith Qminmax Qround Qabs Lqa.
From Stdlib Require Import ZArith Lia Bool List Ascii String.
From Stdlib Require Import Sorting Permutation.
From Stdlib Require DecimalString.
Import ListNotations.

Open Scope Q_scope.

(** ** JavaScript comparisons on numbers *)

Module JS.

Definition ge (a b : Q) : bool := Qle_bool b a.
Definition le (a b : Q) : bool := Qle_bool a b.
Definition gt (a b : Q) : bool := negb (Qle_bool a b).
Definition lt (a b : Q) : bool := negb (Qle_bool b a).

(** [Math.abs] *)
Definition abs (a : Q) : Q := Qabs a.

(** [n / d] for integer counters and durations. *)
Definition ofZ (z : Z) : Q := inject_Z z.
Definition ofNat (n : nat) : Q := inject_Z (Z.of_nat n).

(** [x ?? d] *)
Definition orElse {A : Type} (x : option A) (d : A) : A :=
  match x with Some v => v | None => d end.

(** Truthiness of a [number | null] holding an integer. *)
Definition truthy (x : option Z) : bool :=
  match x with
  | Some v => negb (v =? 0)%Z
  | None => false
  end.

End JS.

Infix ">=?" := JS.ge (at level 70, no associativity) : Q_scope.
Infix "<=?" := JS.le (at level 70, no associativity) : Q_scope.
Infix ">?" := JS.gt (at level 70, no associativity) : Q_scope.
Infix "<?" := JS.lt (at level 70, no associativity) : Q_scope.

(** ** Types of [types/attention.ts] and of the hook *)

Inductive AttentionState := awake | noddingOff | sleeping.

Inductive ChallengeType := phrase | math | trivia.

Inductive AlarmLevel := warning | critical.

Inductive LeanDirection := forward | backward | neutral.

Definition AttentionState_eqb (a b : AttentionState) : bool :=
  match a, b with
  | awake, awake | noddingOff, noddingOff | sleeping, sleeping => true
  | _, _ => false
  end.

Definition LeanDirection_eqb (a b : LeanDirection) : bool :=
  match a, b with
  | forward, forward | backward, backward | neutral, neutral => true
  | _, _ => false
  end.

(** Tunable thresholds of the hook. *)
Definition BASE_EAR_THRESHOLD : Q := 0.20.
Definition EYES_CLOSED_NOD_SEC : Q := 3.5.
Definition EYES_CLOSED_SLEEP_SEC : Q := 5.
Definition HEAD_TILT_THRESHOLD : Q := 30.
Definition HEAD_PITCH_THRESHOLD : Q := 10.
Definition HEAD_PITCH_BACK_THRESHOLD : Q := 12.
Definition FPS : Q := 30.
Definition CALIBRATION_DURATION_MS : Z := 4000.
Definition MIN_CALIBRATION_FRAMES : nat := 90.
Definition MIN_CLOSED_FRAMES : nat := 15.

(** ** Tracker outputs consumed by the fusion engine *)

(** Result of [HeadNodDetector.update]. *)
Record NodState := mkNodState {
  isForwardNodding : bool;
  isBackwardTilting : bool;
  nodCount : nat;
  avgPitch : Q;
  instantaneousPitch : Q;
  windowMax : Q;
  windowMin : Q
}.

(** Result of [PostureTracker.update]. *)
Record PostureState := mkPostureState {
  isPresent : bool;
  isSlouchingNow : bool;
  isSlouched : bool;
  slouchDuration : Z;
  awayDuration : Z;
  leanAngle : Q;
  isLeaning : bool;
  leanDirection : LeanDirection;
  leanDuration : Z;
  postureVertical : Q;
  bodyPresence : Q
}.

(** ** Calibration statistics *)

(** [[...values].sort((a, b) => a - b)]: ascending and stable. *)
Fixpoint insertAscending (x : Q) (l : list Q) : list Q :=
  match l with
  | [] => [x]
  | y :: r => if x <? y then x :: y :: r else y :: insertAscending x r
  end.

Definition sortAscending (values : list Q) : list Q :=
  fold_left (fun acc x => insertAscending x acc) values [].

Definition median (values : list Q) : Q :=
  match values with
  | [] => 0
  | _ =>
      let sorted := sortAscending values in
      let mid := (List.length sorted / 2)%nat in
      if (List.length sorted mod 2 =? 0)%nat
      then (nth (mid - 1) sorted 0 + nth mid sorted 0) / 2
      else nth mid sorted 0
  end.

(** [values.reduce((acc, val) => acc + val, 0)] *)
Definition sum (values : list Q) : Q :=
  fold_left (fun acc val => acc + val) values 0.

Definition average (values : list Q) : Q :=
  match values with
  | [] => 0
  | _ => sum values / JS.ofNat (List.length values)
  end.

(** [history.push(x); if (history.length > size) history.shift()] *)
Definition pushBounded {A : Type} (size : nat) (history : list A) (x : A)
    : list A :=
  let history := history ++ [x] in
  if (size <? List.length history)%nat then tl history else history.

(** [Math.max(...xs)] and [Math.min(...xs)] on a non-empty window (the
    trackers push before they read, so the window is never empty
    there). *)
Definition maxOf (xs : list Q) : Q :=
  match xs with
  | [] => 0
  | x :: r => fold_left Qmax r x
  end.

Definition minOf (xs : list Q) : Q :=
  match xs with
  | [] => 0
  | x :: r => fold_left Qmin r x
  end.

(** ** Temporal trackers *)

Module HeadNodDetector.

Definition HISTORY_SIZE : nat := 18.
Definition FORWARD_HYSTERESIS : Q := 3.
Definition BACKWARD_HYSTERESIS : Q := 3.

Record t := mk {
  pitchHistory : list Q;
  nodCount : nat;
  wasForward : bool;
  wasBackward : bool
}.

Definition init : t := mk [] 0 false false.

Definition update (d : t) (adjustedPitch forwardThreshold backwardThreshold : Q)
    : t * NodState :=
  let pitchHistory := pushBounded HISTORY_SIZE (pitchHistory d) adjustedPitch in
  let avgPitch := sum pitchHistory / JS.ofNat (List.length pitchHistory) in
  let windowMax := maxOf pitchHistory in
  let windowMin := minOf pitchHistory in
  let isForward := windowMax >? forwardThreshold in
  let isBackward := windowMin <? - backwardThreshold in
  let '(nodCount, wasForward) :=
    if isForward && negb (wasForward d) then (S (nodCount d), true)
    else if negb isForward
            && (windowMax <? forwardThreshold - FORWARD_HYSTERESIS)
    then (nodCount d, false)
    else (nodCount d, wasForward d) in
  let wasBackward :=
    if isBackward && negb (wasBackward d) then true
    else if negb isBackward
            && (windowMin >? - (backwardThreshold - BACKWARD_HYSTERESIS))
    then false
    else wasBackward d in
  (mk pitchHistory nodCount wasForward wasBackward,
   mkNodState isForward isBackward nodCount avgPitch adjustedPitch
     windowMax windowMin).

Definition reset (_ : t) : t := init.

End HeadNodDetector.

Module YawnDetector.

Definition HISTORY_SIZE : nat := 10.
Definition MAR_THRESHOLD : Q := 0.6.
Definition MIN_YAWN_DURATION_MS : Z := 500.
Definition MAX_YAWN_DURATION_MS : Z := 3000.
Definition YAWN_WINDOW_MS : Z := 60000.

Record t := mk {
  marHistory : list Q;
  yawnCount : nat;
  yawnTimes : list Z;
  isCurrentlyYawning : bool;
  yawnStartTime : option Z
}.

(** The object [update] returns ([yawnCountOut] is its [yawnCount]
    field). *)
Record YawnState := mkYawnState {
  isYawning : bool;
  avgMAR : Q;
  yawnCountOut : nat
}.

Definition init : t := mk [] 0 [] false None.

(** [update(mar)]; [now] is the value of [Date.now()] read by the call. *)
Definition update (d : t) (mar : Q) (now : Z) : t * YawnState :=
  let marHistory := pushBounded HISTORY_SIZE (marHistory d) mar in
  let avgMAR := sum marHistory / JS.ofNat (List.length marHistory) in
  let isMouthWideOpen := avgMAR >? MAR_THRESHOLD in
  let '(yawnCount, yawnTimes, isCurrentlyYawning, yawnStartTime) :=
    if isMouthWideOpen && negb (isCurrentlyYawning d) then
      (yawnCount d, yawnTimes d, true, Some now)
    else if negb isMouthWideOpen && isCurrentlyYawning d
            && JS.truthy (yawnStartTime d) then
      let yawnDuration :=
        (now - match yawnStartTime d with Some v => v | None => 0 end)%Z in
      if (MIN_YAWN_DURATION_MS <=? yawnDuration)%Z
         && (yawnDuration <=? MAX_YAWN_DURATION_MS)%Z
      then (S (yawnCount d), yawnTimes d ++ [now], false, None)
      else (yawnCount d, yawnTimes d, false, None)
    else (yawnCount d, yawnTimes d, isCurrentlyYawning d, yawnStartTime d) in
  let yawnTimes :=
    filter (fun time => (now - time <=? YAWN_WINDOW_MS)%Z) yawnTimes in
  (mk marHistory yawnCount yawnTimes isCurrentlyYawning yawnStartTime,
   mkYawnState isCurrentlyYawning avgMAR yawnCount).

End YawnDetector.

(** [isDrowsyYawnRate] of the yawning module. *)
Definition isDrowsyYawnRate (yawnCount : nat) : bool := (2 <=? yawnCount)%nat.

Module GazeTracker.

Definition HISTORY_SIZE : nat := 10.
Definition LOOK_AWAY_THRESHOLD : Q := 0.4.
Definition DROWSY_LOOK_AWAY_SEC : Q := 5.

Record t := mk {
  gazeHistory : list Q;
  lookAwayStartTime : option Z;
  lookAwayDurationMs : Z
}.

Record GazeState := mkGazeState {
  horizontalGaze : Q;
  isLookingAway : bool;
  lookAwayDuration : Q
}.

Definition init : t := mk [] None 0.

Definition update (d : t) (gaze : Q) (now : Z) : t * GazeState :=
  let gazeHistory := pushBounded HISTORY_SIZE (gazeHistory d) gaze in
  let avgGaze := sum gazeHistory / JS.ofNat (List.length gazeHistory) in
  let isLookingAway := JS.abs avgGaze >? LOOK_AWAY_THRESHOLD in
  let '(lookAwayStartTime, lookAwayDurationMs) :=
    if isLookingAway then
      let start :=
        match lookAwayStartTime d with Some v => v | None => now end in
      (Some start, (now - start)%Z)
    else (None, 0%Z) in
  (mk gazeHistory lookAwayStartTime lookAwayDurationMs,
   mkGazeState avgGaze isLookingAway (JS.ofZ lookAwayDurationMs / 1000)).

Definition isDrowsyGaze (lookAwayDuration : Q) : bool :=
  lookAwayDuration >? DROWSY_LOOK_AWAY_SEC.

End GazeTracker.

Module FaceDistanceTracker.

Definition HISTORY_SIZE : nat := 10.
Definition TOO_CLOSE_THRESHOLD : Q := 0.35.
Definition TOO_FAR_THRESHOLD : Q := 0.15.
Definition DROWSY_WARNING_SEC : Q := 5.

Record t := mk {
  widthHistory : list Q;
  warningStartTime : option Z;
  warningDurationMs : Z
}.

Record DistanceState := mkDistanceState {
  faceWidth : Q;
  isTooClose : bool;
  isTooFar : bool;
  distanceWarningDuration : Q
}.

Definition init : t := mk [] None 0.

Definition update (d : t) (width : Q) (now : Z) : t * DistanceState :=
  let widthHistory := pushBounded HISTORY_SIZE (widthHistory d) width in
  let avgWidth := sum widthHistory / JS.ofNat (List.length widthHistory) in
  let isTooClose := avgWidth >? TOO_CLOSE_THRESHOLD in
  let isTooFar := avgWidth <? TOO_FAR_THRESHOLD in
  let isAbnormalDistance := isTooClose || isTooFar in
  let '(warningStartTime, warningDurationMs) :=
    if isAbnormalDistance then
      let start :=
        match warningStartTime d with Some v => v | None => now end in
      (Some start, (now - start)%Z)
    else (None, 0%Z) in
  (mk widthHistory warningStartTime warningDurationMs,
   mkDistanceState avgWidth isTooClose isTooFar
     (JS.ofZ warningDurationMs / 1000)).

Definition isDrowsyDistance (warningDuration : Q) : bool :=
  warningDuration >? DROWSY_WARNING_SEC.

End FaceDistanceTracker.

Module PostureTracker.

(** The readings the posture extractors ([computePostureVertical],
    [computeLeanAngle], [computeBodyPresence]) return for a pose frame. *)
Record PoseLandmarks := mkPose {
  poseVertical : Q;
  poseLeanAngle : Q;
  posePresence : Q
}.

Record t := mk {
  baselineVertical : option Q;
  baselineLeanAngle : option Q;
  slouchStartTime : option Z;
  awayStartTime : option Z;
  leanStartTime : option Z;
  currentLeanDirection : LeanDirection
}.

Definition init : t := mk None None None None None neutral.

Definition setBaseline (d : t) (verticalDistance leanAngle : Q) : t :=
  mk (Some verticalDistance) (Some leanAngle) (slouchStartTime d)
     (awayStartTime d) (leanStartTime d) (currentLeanDirection d).

Definition isSlouchedPosture (verticalDistance baseline : Q) : bool :=
  let slouchThreshold := baseline * 0.75 in
  verticalDistance <? slouchThreshold.

Definition hasLeftSeat (presenceScore : Q) : bool := presenceScore <? 0.4.

Definition isAbnormalLean (leanAngle : Q) : bool * LeanDirection :=
  if leanAngle >? 15 then (true, forward)
  else if leanAngle <? -10 then (true, backward)
  else (false, neutral).

(** [start ? timestamp - start : 0] on a [number | null] start time. *)
Definition since (start : option Z) (timestamp : Z) : Z :=
  match start with
  | Some v => if (v =? 0)%Z then 0%Z else (timestamp - v)%Z
  | None => 0%Z
  end.

Definition update (d : t) (landmarks : option PoseLandmarks) (timestamp : Z)
    : t * PostureState :=
  match landmarks with
  | None =>
      let awayStartTime := Some (JS.orElse (awayStartTime d) timestamp) in
      (mk (baselineVertical d) (baselineLeanAngle d) (slouchStartTime d)
          awayStartTime (leanStartTime d) (currentLeanDirection d),
       mkPostureState false false false 0
         (timestamp - JS.orElse awayStartTime timestamp)%Z
         0 false neutral 0 0 0)
  | Some lm =>
      let postureVertical := poseVertical lm in
      let leanAngleRaw := poseLeanAngle lm in
      let bodyPresence := posePresence lm in
      let isPresent := negb (hasLeftSeat bodyPresence) in
      let baselineLeanAngle := JS.orElse (baselineLeanAngle d) leanAngleRaw in
      let leanAngle := leanAngleRaw - baselineLeanAngle in
      let baseline := JS.orElse (baselineVertical d) postureVertical in
      let isSlouchingNow := isSlouchedPosture postureVertical baseline in
      let slouchStartTime :=
        if isSlouchingNow
        then Some (JS.orElse (slouchStartTime d) timestamp)
        else None in
      let slouchDuration := since slouchStartTime timestamp in
      let leanState := isAbnormalLean leanAngle in
      let '(leanStartTime, currentLeanDirection) :=
        if fst leanState then
          match leanStartTime d with
          | Some v =>
              if LeanDirection_eqb (currentLeanDirection d) (snd leanState)
              then (Some v, currentLeanDirection d)
              else (Some timestamp, snd leanState)
          | None => (Some timestamp, snd leanState)
          end
        else (None, neutral) in
      let leanDuration := since leanStartTime timestamp in
      (mk (baselineVertical d) (Some baselineLeanAngle) slouchStartTime None
          leanStartTime currentLeanDirection,
       mkPostureState isPresent isSlouchingNow (3000 <? slouchDuration)%Z
         slouchDuration 0 leanAngle (fst leanState) (snd leanState)
         leanDuration postureVertical bodyPresence)
  end.

End PostureTracker.

(** ** Evidence fusion ([handleLandmarks], "Aggregate evidence for each
       attention state" to the confidence computation) *)

Module Fusion.

(** The three accumulators. *)
Record Evidence := mkEvidence {
  sleepingEvidence : Q;
  noddingEvidence : Q;
  awakeEvidence : Q
}.

(** Everything the rule table reads on one frame. [landmarksSeen] is the
    test [landmarks !== null] on the hook's [landmarks] state. *)
Record Signals := mkSignals {
  nodState : NodState;
  currentIsYawning : bool;
  currentYawCount : nat;
  currentIsLookingAway : bool;
  currentLookAwayDuration : Q;
  isAbnormalDistance : bool;
  isTilted : bool;
  postureState : option PostureState;
  landmarksSeen : bool
}.

(** "Convert frames to seconds (but only if past minimum threshold)". *)
Definition closedSecOf (closedFrames : nat) : Q :=
  if (MIN_CLOSED_FRAMES <=? closedFrames)%nat
  then JS.ofNat (closedFrames - MIN_CLOSED_FRAMES) / FPS
  else 0.

(** Eye, head, yawn, gaze and distance rules: from the seeding of the
    accumulators to "Reduce awake evidence significantly when eyes are
    closed". *)
Definition signalEvidence (eyesClosedDuration : Q) (g : Signals) : Evidence :=
  let nod := nodState g in
  let forwardPeak := windowMax nod in
  let backwardPeak := windowMin nod in
  let sleepingEvidence := 0 in
  let noddingEvidence := 0 in
  let awakeEvidence := 0.3 in
  let '(sleepingEvidence, noddingEvidence) :=
    if eyesClosedDuration >=? EYES_CLOSED_SLEEP_SEC then
      let over := eyesClosedDuration - EYES_CLOSED_SLEEP_SEC in
      (sleepingEvidence + (2.0 + Qmin (over / 2) 1.0), noddingEvidence)
    else if eyesClosedDuration >=? EYES_CLOSED_NOD_SEC then
      (sleepingEvidence, noddingEvidence + 1.5)
    else if eyesClosedDuration >=? 2.0 then
      (sleepingEvidence, noddingEvidence + 0.8)
    else if eyesClosedDuration >=? 1.0 then
      (sleepingEvidence, noddingEvidence + 0.3)
    else (sleepingEvidence, noddingEvidence) in
  let noddingEvidence :=
    if isForwardNodding nod then noddingEvidence + 0.3 else noddingEvidence in
  let noddingEvidence :=
    if forwardPeak >? HEAD_PITCH_THRESHOLD + 4
    then noddingEvidence + 0.25 else noddingEvidence in
  let '(sleepingEvidence, noddingEvidence) :=
    if isBackwardTilting nod then
      (if eyesClosedDuration >=? 4 then sleepingEvidence + 0.2
       else sleepingEvidence,
       noddingEvidence + 0.2)
    else (sleepingEvidence, noddingEvidence) in
  let noddingEvidence :=
    if currentIsYawning g then noddingEvidence + 0.15 else noddingEvidence in
  let noddingEvidence :=
    if isDrowsyYawnRate (currentYawCount g)
    then noddingEvidence + 0.1 else noddingEvidence in
  let '(noddingEvidence, awakeEvidence) :=
    if currentIsLookingAway g && (currentLookAwayDuration g >? 5)
    then (noddingEvidence + 0.15, awakeEvidence)
    else (noddingEvidence, awakeEvidence + 0.05) in
  let noddingEvidence :=
    if isAbnormalDistance g then noddingEvidence + 0.1 else noddingEvidence in
  let awakeEvidence :=
    if negb (isTilted g) then awakeEvidence + 0.1 else awakeEvidence in
  let awakeEvidence :=
    if negb (isForwardNodding nod) && negb (isBackwardTilting nod)
    then awakeEvidence + 0.2 else awakeEvidence in
  let awakeEvidence :=
    if (JS.abs forwardPeak <? HEAD_PITCH_THRESHOLD)
       && (JS.abs backwardPeak <? HEAD_PITCH_BACK_THRESHOLD)
    then awakeEvidence + 0.05 else awakeEvidence in
  let awakeEvidence :=
    if negb (currentIsYawning g) && (currentYawCount g <? 2)%nat
    then awakeEvidence + 0.05 else awakeEvidence in
  let awakeEvidence :=
    if eyesClosedDuration <? 1 then awakeEvidence + 0.3
    else if eyesClosedDuration <? 2.0 then awakeEvidence + 0.05
    else if eyesClosedDuration <? EYES_CLOSED_NOD_SEC then 0
    else 0 in
  mkEvidence sleepingEvidence noddingEvidence awakeEvidence.

(** "POSTURE EVIDENCE INTEGRATION", applied when a posture reading
    exists. *)
Definition postureRules (eyesClosedDuration : Q) (yawning landmarksSeen : bool)
    (p : PostureState) (e : Evidence) : Evidence :=
  let sleepingEvidence := sleepingEvidence e in
  let noddingEvidence := noddingEvidence e in
  let awakeEvidence := awakeEvidence e in
  let isBack := LeanDirection_eqb (leanDirection p) backward in
  let sleepingEvidence :=
    if isBack && (5000 <? leanDuration p)%Z && (eyesClosedDuration >? 3)
    then sleepingEvidence + 0.4 else sleepingEvidence in
  let sleepingEvidence :=
    if negb (isPresent p) && (10000 <? awayDuration p)%Z
    then sleepingEvidence + 0.5 else sleepingEvidence in
  let sleepingEvidence :=
    if isSlouched p && isBack && (eyesClosedDuration >? 4)
    then sleepingEvidence + 0.3 else sleepingEvidence in
  let noddingEvidence :=
    if isSlouched p then
      if (10000 <? slouchDuration p)%Z then noddingEvidence + 0.3
      else if (5000 <? slouchDuration p)%Z then noddingEvidence + 0.2
      else noddingEvidence
    else noddingEvidence in
  let noddingEvidence :=
    if LeanDirection_eqb (leanDirection p) forward
       && (3000 <? leanDuration p)%Z && (eyesClosedDuration >? 1.5)
    then noddingEvidence + 0.25 else noddingEvidence in
  let noddingEvidence :=
    if isBack && (5000 <? leanDuration p)%Z && (leanDuration p <? 15000)%Z
    then noddingEvidence + 0.15 else noddingEvidence in
  let noddingEvidence :=
    if isLeaning p && yawning then noddingEvidence + 0.1
    else noddingEvidence in
  let awakeEvidence :=
    if negb (isSlouched p) && negb (isLeaning p) && isPresent p
    then awakeEvidence + 0.25 else awakeEvidence in
  let awakeEvidence :=
    if isPresent p && (bodyPresence p >? 0.7) && negb (isSlouched p)
    then awakeEvidence + 0.15 else awakeEvidence in
  let awakeEvidence :=
    if negb (isSlouchingNow p) && (slouchDuration p =? 0)%Z
       && LeanDirection_eqb (leanDirection p) neutral
    then awakeEvidence + 0.1 else awakeEvidence in
  if (bodyPresence p <? 0.5) && landmarksSeen
  then mkEvidence (sleepingEvidence * 0.8) (noddingEvidence * 0.8)
                  (awakeEvidence * 0.8)
  else mkEvidence sleepingEvidence noddingEvidence awakeEvidence.

Definition postureEvidence (eyesClosedDuration : Q) (g : Signals)
    (e : Evidence) : Evidence :=
  match postureState g with
  | Some p =>
      postureRules eyesClosedDuration (currentIsYawning g) (landmarksSeen g) p e
  | None => e
  end.

(** The three clamps ending the rule table (awake floor 0.05). *)
Definition clampEvidence (e : Evidence) : Evidence :=
  mkEvidence (Qmin 1 (Qmax 0 (sleepingEvidence e)))
             (Qmin 1 (Qmax 0 (noddingEvidence e)))
             (Qmin 1 (Qmax 0.05 (awakeEvidence e))).

(** The evidence scores of a frame, given the closed-eye duration. *)
Definition evidenceAt (eyesClosedDuration : Q) (g : Signals) : Evidence :=
  clampEvidence
    (postureEvidence eyesClosedDuration g
       (signalEvidence eyesClosedDuration g)).

(** The evidence scores of a frame whose consecutive closed-frame counter
    stands at [closedFrames]. *)
Definition fuseEvidence (closedFrames : nat) (g : Signals) : Evidence :=
  evidenceAt (closedSecOf closedFrames) g.

(** Normalised probabilities. *)
Record Probabilities := mkProbabilities {
  sleepingProb : Q;
  noddingProb : Q;
  awakeProb : Q
}.

Definition normalize (e : Evidence) : Probabilities :=
  let totalEvidence := sleepingEvidence e + noddingEvidence e + awakeEvidence e in
  mkProbabilities
    (if totalEvidence >? 0 then sleepingEvidence e / totalEvidence else 0)
    (if totalEvidence >? 0 then noddingEvidence e / totalEvidence else 0)
    (if totalEvidence >? 0 then awakeEvidence e / totalEvidence else 1).

(** [ranked]: the three candidates sorted by decreasing probability.
    [Array.prototype.sort] is stable, so ties keep the order awake,
    noddingOff, sleeping; an insertion sort with a strict test does the
    same. *)
Definition insertRanked (x : AttentionState * Q)
    (l : list (AttentionState * Q)) : list (AttentionState * Q) :=
  (fix ins (l : list (AttentionState * Q)) :=
     match l with
     | [] => [x]
     | y :: r => if snd x >? snd y then x :: y :: r else y :: ins r
     end) l.

Definition rank (p : Probabilities) : list (AttentionState * Q) :=
  fold_left (fun acc x => insertRanked x acc)
    [(awake, awakeProb p); (noddingOff, noddingProb p);
     (sleeping, sleepingProb p)] [].

(** The classification of a frame: best state and confidence. *)
Definition classify (p : Probabilities) : AttentionState * Q :=
  match rank p with
  | best :: second :: _ =>
      let confidenceMargin := snd best - snd second in
      (fst best, Qmin 0.99 (Qmax 0.05 (snd best + confidenceMargin * 0.5)))
  | _ => (awake, 0.05)
  end.

End Fusion.

(** ** JavaScript string methods used by the hook (on ASCII text) *)

Module Str.

Open Scope string_scope.

Definition ofNat (n : nat) : string :=
  DecimalString.NilZero.string_of_uint (Nat.to_uint n).

(** [String(z)] and [z.toString()] for an integer. *)
Definition ofZ (z : Z) : string :=
  DecimalString.NilZero.string_of_int (Z.to_int z).

(** [String(n).padStart(2, "0")] *)
Definition padStart2 (str : string) : string :=
  match String.length str with
  | O => "00"
  | S O => "0" ++ str
  | _ => str
  end.

Definition between (lo hi : nat) (c : ascii) : bool :=
  let n := nat_of_ascii c in ((lo <=? n) && (n <=? hi))%nat.

Definition upcase (c : ascii) : ascii :=
  if between 97 122 c then ascii_of_nat (nat_of_ascii c - 32) else c.

(** [s.toUpperCase()] *)
Fixpoint toUpperCase (str : string) : string :=
  match str with
  | EmptyString => EmptyString
  | String c r => String (upcase c) (toUpperCase r)
  end.

(** White space removed by [trim]: tab, line feed, vertical tab, form
    feed, carriage return and space. *)
Definition isSpace (c : ascii) : bool :=
  between 9 13 c || (nat_of_ascii c =? 32)%nat.

Fixpoint trimStart (str : string) : string :=
  match str with
  | EmptyString => EmptyString
  | String c r => if isSpace c then trimStart r else str
  end.

Fixpoint trimEnd (str : string) : string :=
  match str with
  | EmptyString => EmptyString
  | String c r =>
      match trimEnd r with
      | EmptyString => if isSpace c then EmptyString else String c EmptyString
      | r' => String c r'
      end
  end.

(** [s.trim()] *)
Definition trim (str : string) : string := trimEnd (trimStart str).

(** [s.includes(sub)] *)
Fixpoint includes (str sub : string) : bool :=
  String.prefix sub str
  || match str with
     | EmptyString => false
     | String _ r => includes r sub
     end.

(** [s.split(' ')[0]] *)
Fixpoint firstWord (str : string) : string :=
  match str with
  | EmptyString => EmptyString
  | String c r =>
      if (nat_of_ascii c =? 32)%nat then EmptyString
      else String c (firstWord r)
  end.

(** [words.join(sep)] *)
Definition join (sep : string) (words : list string) : string :=
  String.concat sep words.

(** Truthiness of a [string | null]. *)
Definition truthy (x : option string) : bool :=
  match x with
  | Some v => negb (v =? "")
  | None => false
  end.

End Str.

(** ** Alarm library *)

Record AlarmDefinition := mkAlarmDefinition {
  defId : string;
  defMessage : string;
  defLevel : AlarmLevel
}.

Record AttentionAlarm := mkAlarm {
  id : string;
  message : string;
  level : AlarmLevel;
  triggeredAt : Z
}.

(** The tier argument of [getAlarmBatch]: ["nodding"] or ["sleeping"]. *)
Inductive AlarmTier := nodding | sleepingTier.

Module AlarmLibrary.

Open Scope string_scope.

Definition BASE_NODDING_MESSAGES : list string :=
  [ "Time to stretch your neck"; "Give your eyes a quick reset";
    "Take a deep breath and refocus"; "Roll your shoulders back";
    "Straighten posture and re-engage"; "Blink hard three times";
    "Sip some water now"; "Shift your gaze to the horizon";
    "Stand up for a brief walk"; "Adjust your seat position" ].

Definition BASE_SLEEPING_MESSAGES : list string :=
  [ "Wake up immediately"; "Stand up and move now";
    "Splash water on your face"; "Take a 10-minute break";
    "Call a friend for a reset"; "Do a quick physical check-in";
    "Walk around the room"; "Step outside for fresh air";
    "Play energizing music"; "Review your task list aloud" ].

(** One iteration of a loop of [createAlarmLibrary]. *)
Definition entry (idPrefix label : string) (base : list string)
    (lvl : AlarmLevel) (i : nat) : AlarmDefinition :=
  let baseMsg := nth (i mod List.length base) base "" in
  mkAlarmDefinition
    (idPrefix ++ Str.ofNat (i + 1))
    (label ++ Str.padStart2 (Str.ofNat (i + 1)) ++ ": " ++ baseMsg
       ++ " (" ++ Str.ofNat (i + 1) ++ ")")
    lvl.

Definition noddingLibrary : list AlarmDefinition :=
  Eval vm_compute in
    map (entry "nodding-" "Nodding Alarm " BASE_NODDING_MESSAGES warning)
        (seq 0 40).

Definition sleepingLibrary : list AlarmDefinition :=
  Eval vm_compute in
    map (entry "sleeping-" "Sleep Alarm " BASE_SLEEPING_MESSAGES critical)
        (seq 0 40).

Definition source (type : AlarmTier) : list AlarmDefinition :=
  match type with
  | nodding => noddingLibrary
  | sleepingTier => sleepingLibrary
  end.

End AlarmLibrary.

(** [alarmCursorRef] *)
Record AlarmCursor := mkCursor {
  noddingCursor : nat;
  sleepingCursor : nat
}.

Definition cursorOf (c : AlarmCursor) (type : AlarmTier) : nat :=
  match type with
  | nodding => noddingCursor c
  | sleepingTier => sleepingCursor c
  end.

Definition setCursor (c : AlarmCursor) (type : AlarmTier) (v : nat)
    : AlarmCursor :=
  match type with
  | nodding => mkCursor v (sleepingCursor c)
  | sleepingTier => mkCursor (noddingCursor c) v
  end.

(** [getAlarmBatch(type, count, timestamp)]: the batch and the advanced
    cursor.  An index is always below the library length, so the default
    of [nth] is never returned. *)
Definition getAlarmBatch (c : AlarmCursor) (type : AlarmTier) (count : nat)
    (timestamp : Z) : list AttentionAlarm * AlarmCursor :=
  let source := AlarmLibrary.source type in
  let cursor := cursorOf c type in
  let batch :=
    map (fun i =>
           let idx := ((cursor + i) mod List.length source)%nat in
           let def :=
             nth idx source (mkAlarmDefinition "" "" warning) in
           mkAlarm (defId def) (defMessage def) (defLevel def) timestamp)
        (seq 0 count) in
  (batch, setCursor c type ((cursor + count) mod List.length source)%nat).

(** ** Random draws and challenges *)

(** A computation that reads [Math.random()] values from a stream of
    draws; [None] when the stream is exhausted or the code would throw. *)
Definition Rand (A : Type) : Type := list Q -> option (A * list Q).

Definition ret {A : Type} (a : A) : Rand A := fun draws => Some (a, draws).

Definition bind {A B : Type} (m : Rand A) (k : A -> Rand B) : Rand B :=
  fun draws =>
    match m draws with
    | Some (a, rest) => k a rest
    | None => None
    end.

Notation "x <- m ;; k" := (bind m (fun x => k))
  (at level 61, m at next level, right associativity).

(** [Math.random()] *)
Definition random : Rand Q :=
  fun draws =>
    match draws with
    | r :: rest => Some (r, rest)
    | [] => None
    end.

(** A property access on [undefined] throws. *)
Definition defined {A : Type} (x : option A) : Rand A :=
  fun draws =>
    match x with
    | Some a => Some (a, draws)
    | None => None
    end.

(** [Math.floor(x)] used as an array index. *)
Definition floorIndex (x : Q) : nat := Z.to_nat (Qfloor x).

Module Challenge.

Open Scope string_scope.

Definition WORD_BANK : list string :=
  [ "focus"; "alert"; "energy"; "hydrate"; "stretch"; "breathe"; "wake";
    "active"; "bright"; "sharp"; "drive"; "spark"; "tempo"; "pivot";
    "laser"; "glow"; "bounce"; "charge"; "ignite"; "thrive"; "reset";
    "revive"; "steady"; "focus"; "clarity"; "swift"; "fresh"; "prime";
    "vivid"; "rise"; "steady"; "awake"; "mirror"; "stride"; "sparkle";
    "pulse"; "anchor"; "ignite"; "momentum" ].

(** The [while (words.length < 4)] loop of [generateAlarmPhrase]; it
    recurses on the stream of draws. *)
Fixpoint pickWords (words : list string) (usedIndices : list nat)
    (draws : list Q) : option (list string * list Q) :=
  if (List.length words <? 4)%nat then
    match draws with
    | [] => None
    | r :: rest =>
        let idx := floorIndex (r * JS.ofNat (List.length WORD_BANK)) in
        if existsb (Nat.eqb idx) usedIndices
        then pickWords words usedIndices rest
        else
          match nth_error WORD_BANK idx with
          | Some w =>
              pickWords (words ++ [Str.toUpperCase w]) (idx :: usedIndices)
                rest
          | None => None
          end
    end
  else Some (words, draws).

Definition generateAlarmPhrase : Rand string :=
  words <- pickWords [] [] ;;
  r <- random ;;
  let digits := Str.ofZ (Qfloor (100 + r * 900)) in
  ret (Str.join "-" words ++ "-" ++ digits).

Definition generateMathChallenge : Rand (string * string) :=
  ra <- random ;;
  rb <- random ;;
  rc <- random ;;
  let a := Qfloor (10 + ra * 90) in
  let b := Qfloor (10 + rb * 90) in
  let c := Qfloor (1 + rc * 9) in
  let result := (a + b - c)%Z in
  ret ("Solve: " ++ Str.ofZ a ++ " + " ++ Str.ofZ b ++ " - " ++ Str.ofZ c
         ++ " = ?",
       Str.ofZ result).

Definition TRIVIA_BANK : list (string * string) :=
  [ ("Spell the day that follows Tuesday.", "WEDNESDAY");
    ("Type the word 'SUNRISE' backwards.", "ESIRNUS");
    ("What planet is known as the Red Planet?", "MARS");
    ("What is the capital city of France?", "PARIS");
    ("Spell the chemical symbol for water.", "H2O");
    ("Type the first three letters of the alphabet in reverse order.",
     "CBA");
    ("What animal says 'moo'?", "COW");
    ("Spell the word 'energy' in lowercase letters.", "energy") ].

Definition generateTriviaChallenge : Rand (string * string) :=
  r <- random ;;
  defined
    (nth_error TRIVIA_BANK
       (floorIndex (r * JS.ofNat (List.length TRIVIA_BANK)))).

(** The object [createChallenge] returns ([phraseOf] is its [phrase]
    field). *)
Record t := mk {
  type : ChallengeType;
  phraseOf : option string;
  prompt : option string;
  answer : option string
}.

Definition types : list ChallengeType := [phrase; math; trivia].

(** [createChallenge(preferred)] *)
Definition createChallenge (preferred : option ChallengeType) : Rand t :=
  chosen <-
    match preferred with
    | Some ty => ret (Some ty)
    | None =>
        r <- random ;;
        ret (nth_error types (floorIndex (r * JS.ofNat (List.length types))))
    end ;;
  match chosen with
  | Some math =>
      m <- generateMathChallenge ;;
      ret (mk math None (Some (fst m)) (Some (snd m)))
  | Some trivia =>
      tr <- generateTriviaChallenge ;;
      ret (mk trivia None (Some (fst tr)) (Some (snd tr)))
  | _ =>
      p <- generateAlarmPhrase ;;
      ret (mk phrase (Some p) None None)
  end.

End Challenge.

(** ** The state of one [useAttentionDetector] instance *)

Record CalibrationBaselines := mkBaselines {
  pitch : Q;
  ear : Q;
  tilt : Q;
  faceWidth : Q
}.

(** [calibrationRef], [calibrationProgressRef] and the [baselines]
    state. *)
Record Calibration := mkCalibration {
  collecting : bool;
  startTimestamp : option Z;
  pitchSamples : list Q;
  earSamples : list Q;
  tiltSamples : list Q;
  faceWidthSamples : list Q;
  calibrationProgress : Q;
  isCalibrating : bool;
  baselines : option CalibrationBaselines
}.

(** Alarm and challenge state ([activeAlarmsRef], [alarmPhraseRef],
    [requireAckRef], [challengeTypeRef], the [challengePrompt] state,
    [challengeAnswerRef], [lastAlarmStateRef], [alarmCursorRef]). *)
Record Alarms := mkAlarms {
  activeAlarms : list AttentionAlarm;
  alarmPhrase : option string;
  requireAck : bool;
  challengeType : ChallengeType;
  challengePrompt : option string;
  challengeAnswer : option string;
  lastAlarmState : AttentionState;
  alarmCursor : AlarmCursor
}.

(** Absence alarm state ([isAbsenceAlarmArmed], [absentStartTimeRef],
    [absentCountdown], [missingFaceFramesRef]). *)
Record Absence := mkAbsence {
  isAbsenceAlarmArmed : bool;
  absentStartTime : option Z;
  absentCountdown : option Q;
  missingFaceFrames : nat
}.

Record Trackers := mkTrackers {
  headNodDetector : HeadNodDetector.t;
  yawnDetector : YawnDetector.t;
  gazeTracker : GazeTracker.t;
  faceDistanceTracker : FaceDistanceTracker.t;
  postureTracker : PostureTracker.t;
  latestPostureState : option PostureState
}.

(** Voice warning state ([activeWarning], [warningStartTimeRef]). *)
Record Voice := mkVoice {
  activeWarning : option string;
  warningStartTime : option Z
}.

(** The state values the current [handleLandmarks] closure captured when
    the detector effect last ran and that are not dependencies of that
    effect: they stay as captured until a dependency ([isActive],
    [baselines], [isAbsenceAlarmArmed]) changes. *)
Record Closure := mkClosure {
  seenLandmarks : bool;
  seenPoseLandmarks : option PostureTracker.PoseLandmarks;
  seenActiveWarning : option string
}.

Inductive Priority := low | medium | high.

(** Calls to the external effectors, in program order. *)
Inductive Effect :=
| PlayDrowsinessAlert (isCritical : bool)
| SpeakWarning (msg : string) (priority : Priority)
| CancelVoiceWarning
| PushAttention (t : Z) (st : AttentionState) (conf : Q).

Record Session := mkSession {
  isActive : bool;
  state : AttentionState;
  confidence : Q;
  latestState : AttentionState;
  closedFrames : nat;
  lastEmitTime : Z;
  landmarks : bool;
  poseLandmarks : option PostureTracker.PoseLandmarks;
  calibration : Calibration;
  alarms : Alarms;
  absence : Absence;
  trackers : Trackers;
  voice : Voice;
  closure : Closure;
  effects : list Effect
}.

(** *** Field updates *)

Definition setActive (v : bool) (s : Session) : Session :=
  mkSession v (state s) (confidence s) (latestState s) (closedFrames s)
    (lastEmitTime s) (landmarks s) (poseLandmarks s) (calibration s)
    (alarms s) (absence s) (trackers s) (voice s) (closure s) (effects s).

Definition setState (v : AttentionState) (s : Session) : Session :=
  mkSession (isActive s) v (confidence s) (latestState s) (closedFrames s)
    (lastEmitTime s) (landmarks s) (poseLandmarks s) (calibration s)
    (alarms s) (absence s) (trackers s) (voice s) (closure s) (effects s).

Definition setConfidence (v : Q) (s : Session) : Session :=
  mkSession (isActive s) (state s) v (latestState s) (closedFrames s)
    (lastEmitTime s) (landmarks s) (poseLandmarks s) (calibration s)
    (alarms s) (absence s) (trackers s) (voice s) (closure s) (effects s).

Definition setLatestState (v : AttentionState) (s : Session) : Session :=
  mkSession (isActive s) (state s) (confidence s) v (closedFrames s)
    (lastEmitTime s) (landmarks s) (poseLandmarks s) (calibration s)
    (alarms s) (absence s) (trackers s) (voice s) (closure s) (effects s).

Definition setClosedFrames (v : nat) (s : Session) : Session :=
  mkSession (isActive s) (state s) (confidence s) (latestState s) v
    (lastEmitTime s) (landmarks s) (poseLandmarks s) (calibration s)
    (alarms s) (absence s) (trackers s) (voice s) (closure s) (effects s).

Definition setLastEmitTime (v : Z) (s : Session) : Session :=
  mkSession (isActive s) (state s) (confidence s) (latestState s)
    (closedFrames s) v (landmarks s) (poseLandmarks s) (calibration s)
    (alarms s) (absence s) (trackers s) (voice s) (closure s) (effects s).

Definition setLandmarks (v : bool) (s : Session) : Session :=
  mkSession (isActive s) (state s) (confidence s) (latestState s)
    (closedFrames s) (lastEmitTime s) v (poseLandmarks s) (calibration s)
    (alarms s) (absence s) (trackers s) (voice s) (closure s) (effects s).

Definition setPoseLandmarks (v : option PostureTracker.PoseLandmarks)
    (s : Session) : Session :=
  mkSession (isActive s) (state s) (confidence s) (latestState s)
    (closedFrames s) (lastEmitTime s) (landmarks s) v (calibration s)
    (alarms s) (absence s) (trackers s) (voice s) (closure s) (effects s).

Definition setCalibration (v : Calibration) (s : Session) : Session :=
  mkSession (isActive s) (state s) (confidence s) (latestState s)
    (closedFrames s) (lastEmitTime s) (landmarks s) (poseLandmarks s) v
    (alarms s) (absence s) (trackers s) (voice s) (closure s) (effects s).

Definition setAlarms (v : Alarms) (s : Session) : Session :=
  mkSession (isActive s) (state s) (confidence s) (latestState s)
    (closedFrames s) (lastEmitTime s) (landmarks s) (poseLandmarks s)
    (calibration s) v (absence s) (trackers s) (voice s) (closure s)
    (effects s).

Definition setAbsence (v : Absence) (s : Session) : Session :=
  mkSession (isActive s) (state s) (confidence s) (latestState s)
    (closedFrames s) (lastEmitTime s) (landmarks s) (poseLandmarks s)
    (calibration s) (alarms s) v (trackers s) (voice s) (closure s)
    (effects s).

Definition setTrackers (v : Trackers) (s : Session) : Session :=
  mkSession (isActive s) (state s) (confidence s) (latestState s)
    (closedFrames s) (lastEmitTime s) (landmarks s) (poseLandmarks s)
    (calibration s) (alarms s) (absence s) v (voice s) (closure s)
    (effects s).

Definition setVoice (v : Voice) (s : Session) : Session :=
  mkSession (isActive s) (state s) (confidence s) (latestState s)
    (closedFrames s) (lastEmitTime s) (landmarks s) (poseLandmarks s)
    (calibration s) (alarms s) (absence s) (trackers s) v (closure s)
    (effects s).

Definition setClosure (v : Closure) (s : Session) : Session :=
  mkSession (isActive s) (state s) (confidence s) (latestState s)
    (closedFrames s) (lastEmitTime s) (landmarks s) (poseLandmarks s)
    (calibration s) (alarms s) (absence s) (trackers s) (voice s) v
    (effects s).

(** A call to an effector. *)
Definition emit (e : Effect) (s : Session) : Session :=
  mkSession (isActive s) (state s) (confidence s) (latestState s)
    (closedFrames s) (lastEmitTime s) (landmarks s) (poseLandmarks s)
    (calibration s) (alarms s) (absence s) (trackers s) (voice s)
    (closure s) (effects s ++ [e]).

(** ** Alarm and challenge operations of the hook *)

Definition updateActiveAlarms (v : list AttentionAlarm) (s : Session)
    : Session :=
  let a := alarms s in
  setAlarms
    (mkAlarms v (alarmPhrase a) (requireAck a) (challengeType a)
       (challengePrompt a) (challengeAnswer a) (lastAlarmState a)
       (alarmCursor a)) s.

Definition updateRequireAck (v : bool) (s : Session) : Session :=
  let a := alarms s in
  setAlarms
    (mkAlarms (activeAlarms a) (alarmPhrase a) v (challengeType a)
       (challengePrompt a) (challengeAnswer a) (lastAlarmState a)
       (alarmCursor a)) s.

Definition updateAlarmPhrase (v : option string) (s : Session) : Session :=
  let a := alarms s in
  setAlarms
    (mkAlarms (activeAlarms a) v (requireAck a) (challengeType a)
       (challengePrompt a) (challengeAnswer a) (lastAlarmState a)
       (alarmCursor a)) s.

Definition updateChallenge (type : ChallengeType)
    (prompt answer : option string) (s : Session) : Session :=
  let a := alarms s in
  setAlarms
    (mkAlarms (activeAlarms a) (alarmPhrase a) (requireAck a) type prompt
       answer (lastAlarmState a) (alarmCursor a)) s.

Definition setLastAlarmState (v : AttentionState) (s : Session) : Session :=
  let a := alarms s in
  setAlarms
    (mkAlarms (activeAlarms a) (alarmPhrase a) (requireAck a)
       (challengeType a) (challengePrompt a) (challengeAnswer a) v
       (alarmCursor a)) s.

Definition setAlarmCursor (v : AlarmCursor) (s : Session) : Session :=
  let a := alarms s in
  setAlarms
    (mkAlarms (activeAlarms a) (alarmPhrase a) (requireAck a)
       (challengeType a) (challengePrompt a) (challengeAnswer a)
       (lastAlarmState a) v) s.

(** [getAlarmBatch] on the session's cursor. *)
Definition takeAlarmBatch (type : AlarmTier) (count : nat) (timestamp : Z)
    (s : Session) : list AttentionAlarm * Session :=
  let r := getAlarmBatch (alarmCursor (alarms s)) type count timestamp in
  (fst r, setAlarmCursor (snd r) s).

(** [updateActiveAlarms(getAlarmBatch(type, count, now))] *)
Definition raiseAlarmBatch (type : AlarmTier) (count : nat) (timestamp : Z)
    (s : Session) : Session :=
  let r := takeAlarmBatch type count timestamp s in
  updateActiveAlarms (fst r) (snd r).

Definition assignNewChallenge (preferred : option ChallengeType)
    (s : Session) : Rand (ChallengeType * Session) :=
  challenge <- Challenge.createChallenge preferred ;;
  match Challenge.type challenge with
  | phrase =>
      if Str.truthy (Challenge.phraseOf challenge) then
        ret (phrase,
             updateChallenge phrase None None
               (updateAlarmPhrase (Challenge.phraseOf challenge) s))
      else
        ret (phrase,
             updateChallenge phrase (Challenge.prompt challenge)
               (Challenge.answer challenge) (updateAlarmPhrase None s))
  | ty =>
      ret (ty,
           updateChallenge ty (Challenge.prompt challenge)
             (Challenge.answer challenge) (updateAlarmPhrase None s))
  end.

Definition resetAlarmState (s : Session) : Session :=
  let s := updateActiveAlarms [] s in
  let s := updateAlarmPhrase None s in
  let s := updateRequireAck false s in
  let s := setLastAlarmState awake s in
  updateChallenge phrase None None s.

(** [input !== x] for a [string | null]. *)
Definition differs (input : string) (x : option string) : bool :=
  match x with
  | Some v => negb (input =? v)%string
  | None => true
  end.

Definition silenceAlarm (input : string) (s : Session) : bool * Session :=
  let a := alarms s in
  if negb (requireAck a) then (true, resetAlarmState s)
  else if negb (AttentionState_eqb (latestState s) awake) then (false, s)
  else
    let rejected :=
      match challengeType a with
      | phrase =>
          negb (Str.truthy (alarmPhrase a)) || differs input (alarmPhrase a)
      | math =>
          negb (Str.truthy (challengeAnswer a))
          || differs (Str.trim input) (challengeAnswer a)
      | trivia =>
          negb (Str.truthy (challengeAnswer a))
          || differs (Str.toUpperCase (Str.trim input))
               (option_map Str.toUpperCase (challengeAnswer a))
      end in
    if rejected then (false, s) else (true, resetAlarmState s).

(** [triggerDebugAlarm(preferred)]; [now] is its [Date.now()]. *)
Definition triggerDebugAlarm (preferred : option ChallengeType) (now : Z)
    (s : Session) : Rand Session :=
  let s := resetAlarmState s in
  r <- assignNewChallenge preferred s ;;
  let chosenType := fst r in
  let s := snd r in
  let treatAsSleeping :=
    match chosenType with phrase => false | _ => true end in
  let s :=
    raiseAlarmBatch (if treatAsSleeping then sleepingTier else nodding)
      (if treatAsSleeping then 5 else 4)%nat now s in
  let s := updateRequireAck true s in
  let forcedState := if treatAsSleeping then sleeping else noddingOff in
  let s := setLatestState forcedState s in
  let s := setLastAlarmState forcedState s in
  let s := setState forcedState s in
  ret (setConfidence (if treatAsSleeping then 0.99 else 0.95) s).

(** ** Absence alarm and effects of the hook *)

Definition setArmed (v : bool) (s : Session) : Session :=
  let b := absence s in
  setAbsence
    (mkAbsence v (absentStartTime b) (absentCountdown b)
       (missingFaceFrames b)) s.

Definition setAbsentStartTime (v : option Z) (s : Session) : Session :=
  let b := absence s in
  setAbsence
    (mkAbsence (isAbsenceAlarmArmed b) v (absentCountdown b)
       (missingFaceFrames b)) s.

Definition setAbsentCountdown (v : option Q) (s : Session) : Session :=
  let b := absence s in
  setAbsence
    (mkAbsence (isAbsenceAlarmArmed b) (absentStartTime b) v
       (missingFaceFrames b)) s.

Definition setMissingFaceFrames (v : nat) (s : Session) : Session :=
  let b := absence s in
  setAbsence
    (mkAbsence (isAbsenceAlarmArmed b) (absentStartTime b)
       (absentCountdown b) v) s.

(** The closure of [handleLandmarks] is rebuilt from the state of the
    render in which the detector effect runs. *)
Definition captureClosure (s : Session) : Session :=
  setClosure
    (mkClosure (landmarks s) (poseLandmarks s) (activeWarning (voice s))) s.

(** The detector effect (second [useEffect]); it runs again whenever
    [isActive], [baselines] or [isAbsenceAlarmArmed] changes.  The video
    element is taken to be mounted. *)
Definition detectorEffect (s : Session) : Session :=
  if negb (isActive s) then
    let s := setState awake s in
    let s := setConfidence 0 s in
    let s := setClosedFrames 0 s in
    resetAlarmState s
  else captureClosure s.

Definition disarmAbsenceAlarm (s : Session) : Session :=
  let wasArmed := isAbsenceAlarmArmed (absence s) in
  let s := setArmed false s in
  let s := setAbsentCountdown None s in
  let s := setAbsentStartTime None s in
  if wasArmed then detectorEffect s else s.

Definition resetSamples (collect : bool) (c : Calibration) : Calibration :=
  mkCalibration collect None [] [] [] [] 0 collect None.

(** The activation effect (first [useEffect]) followed by the detector
    effect, as run when [isActive] takes the value [active]. *)
Definition activationEffect (active : bool) (s : Session) : Session :=
  let s := setActive active s in
  let s := setCalibration (resetSamples active (calibration s)) s in
  let s := setClosedFrames 0 s in
  let s := if active then setLastEmitTime 0 s else s in
  let s := resetAlarmState s in
  let s :=
    if active then
      setTrackers
        (mkTrackers HeadNodDetector.init YawnDetector.init GazeTracker.init
           FaceDistanceTracker.init PostureTracker.init
           (latestPostureState (trackers s))) s
    else s in
  detectorEffect s.

(** The state of a freshly mounted hook, before its effects run. *)
Definition mounted : Session :=
  mkSession false awake 0 awake 0 0 false None
    (mkCalibration false None [] [] [] [] 0 false None)
    (mkAlarms [] None false phrase None None awake (mkCursor 0 0))
    (mkAbsence true None None 0)
    (mkTrackers HeadNodDetector.init YawnDetector.init GazeTracker.init
       FaceDistanceTracker.init PostureTracker.init None)
    (mkVoice None None)
    (mkClosure false None None)
    [].

(** ** Voice warnings ([voiceWarnings.ts]) *)

Module VoiceWarnings.

Open Scope string_scope.

Definition eyesClosing := "Your eyes are closing. Stay alert.".
Definition eyesClosed := "Please open your eyes.".
Definition headNodding := "Please keep your head up.".
Definition headTiltingBack := "Sit up straight.".
Definition headTilted := "Straighten your head.".
Definition slouching := "Please correct your posture.".
Definition slouchingForward := "You're slouching forward. Sit back.".
Definition leaningForward := "You're leaning too far forward.".
Definition leaningBackward := "Please sit upright.".
Definition noFaceDetected := "Please return to your desk.".
Definition frequentYawning := "You seem tired. Consider taking a break.".
Definition yawning := "Take a deep breath and refocus.".
Definition lookingAway := "Keep your focus on the screen.".

(** The argument of [getWarningForState]; an optional field that the
    caller fills through [postureState?.field] is an [option]. *)
Record Metrics := mkMetrics {
  eyesClosedSec : Q;
  isHeadNodding : bool;
  isHeadTiltingBack : bool;
  isHeadTilted : bool;
  isSlouched : option bool;
  leanDirection : option LeanDirection;
  isLeaning : option bool;
  isYawning : bool;
  yawnCount : nat;
  isLookingAway : bool;
  isPresent : option bool;
  landmarksNull : bool
}.

Definition isTrue (x : option bool) : bool :=
  match x with Some true => true | _ => false end.

Definition isFalse (x : option bool) : bool :=
  match x with Some false => true | _ => false end.

Definition leans (x : option LeanDirection) (d : LeanDirection) : bool :=
  match x with Some v => LeanDirection_eqb v d | None => false end.

Definition getWarningForState (m : Metrics) : option (string * Priority) :=
  if landmarksNull m && isFalse (isPresent m) then Some (noFaceDetected, high)
  else if eyesClosedSec m >? 2 then Some (eyesClosed, high)
  else if eyesClosedSec m >? 1 then Some (eyesClosing, medium)
  else if isHeadNodding m then Some (headNodding, high)
  else if isTrue (isSlouched m) then
    if leans (leanDirection m) forward then Some (slouchingForward, medium)
    else Some (slouching, medium)
  else if isTrue (isLeaning m) && leans (leanDirection m) forward
  then Some (leaningForward, medium)
  else if isTrue (isLeaning m) && leans (leanDirection m) backward
  then Some (leaningBackward, medium)
  else if isHeadTiltingBack m then Some (headTiltingBack, medium)
  else if isHeadTilted m then Some (headTilted, low)
  else if (3 <=? yawnCount m)%nat then Some (frequentYawning, low)
  else if isYawning m then Some (yawning, low)
  else if isLookingAway m then Some (lookingAway, low)
  else None.

End VoiceWarnings.

(** ** The frame handler [handleLandmarks] *)

(** What the feature extractors return for a frame with a face
    ([computeAverageEAR], [computeHeadTilt], [computeHeadPitch],
    [computeFaceWidth], [computeMAR], [computeHorizontalGaze]). *)
Record FaceLandmarks := mkFace {
  currentEar : Q;
  tiltAngleRaw : Q;
  pitchAngleRaw : Q;
  currentFaceWidth : Q;
  currentMAR : Q;
  horizontalGaze : Q
}.

(** The [return] statement that ended a call of [handleLandmarks]. *)
Inductive Outcome :=
| AbsenceAlarm        (* absence countdown expired: alarm raised *)
| CalibrationLost     (* no face while calibrating: samples discarded *)
| FaceMissing         (* no face: missing-frame thresholds applied *)
| StillCalibrating    (* face seen, calibration not complete *)
| NoBaselines         (* no baselines available *)
| Fused.              (* evidence fusion ran *)

Definition VOICE_GRACE_PERIOD_MS : Z := 5000.
Definition EMIT_INTERVAL_MS : Z := 300.

Definition setWarningStartTime (v : option Z) (s : Session) : Session :=
  setVoice (mkVoice (activeWarning (voice s)) v) s.

Definition setActiveWarning (v : option string) (s : Session) : Session :=
  setVoice (mkVoice v (warningStartTime (voice s))) s.

(** [Math.random() < 0.5 ? "math" : "trivia"] *)
Definition mathOrTrivia : Rand ChallengeType :=
  r <- random ;;
  ret (if r <? 0.5 then math else trivia).

Definition tierOf (isSleeping : bool) : AlarmTier :=
  if isSleeping then sleepingTier else nodding.

Definition batchSize (isSleeping : bool) : nat :=
  if isSleeping then 5%nat else 4%nat.

(** The absence countdown: "Trigger alarm after 5 seconds". *)
Definition absenceAlarm (now : Z) (s : Session) : Rand (Outcome * Session) :=
  let s := raiseAlarmBatch sleepingTier 5 now s in
  let s := emit (PlayDrowsinessAlert true) s in
  preferred <- mathOrTrivia ;;
  r <- assignNewChallenge (Some preferred) s ;;
  let s := snd r in
  let s := updateRequireAck true s in
  let s := setLastAlarmState sleeping s in
  let s := setState sleeping s in
  let s := setConfidence 0.99 s in
  ret (AbsenceAlarm, s).

(** No face while calibrating. *)
Definition calibrationLost (s : Session) : Session :=
  let c := calibration s in
  let s :=
    setCalibration
      (mkCalibration (collecting c) None [] [] [] [] 0 (isCalibrating c)
         (baselines c)) s in
  let s := setState awake s in
  let s := setConfidence 0.2 s in
  let s := if negb (requireAck (alarms s)) then resetAlarmState s else s in
  let s := setAbsentStartTime None s in
  setAbsentCountdown None s.

(** No face, calibration over: the missing-frame count stands for the
    closed-eye duration. *)
Definition missingFace (now : Z) (missingSec : Q) (s : Session)
    : Rand Session :=
  let shouldSleep := missingSec >=? EYES_CLOSED_SLEEP_SEC in
  let shouldNod := negb shouldSleep && (missingSec >=? EYES_CLOSED_NOD_SEC) in
  if shouldSleep then
    let s := setLatestState sleeping s in
    s <-
      (if negb (requireAck (alarms s))
          || negb (AttentionState_eqb (lastAlarmState (alarms s)) sleeping)
       then
         let s := raiseAlarmBatch sleepingTier 5 now s in
         let s := emit (PlayDrowsinessAlert true) s in
         r <-
           (if negb (requireAck (alarms s)) then
              preferred <- mathOrTrivia ;;
              assignNewChallenge (Some preferred) s
            else assignNewChallenge (Some math) s) ;;
         let s := snd r in
         let s := updateRequireAck true s in
         ret (setLastAlarmState sleeping s)
       else if requireAck (alarms s)
               && (List.length (activeAlarms (alarms s)) =? 0)%nat
       then
         let s := raiseAlarmBatch sleepingTier 5 now s in
         ret (emit (PlayDrowsinessAlert true) s)
       else ret s) ;;
    let s := setState sleeping s in
    ret (setConfidence 0.98 s)
  else if shouldNod then
    let s := setLatestState noddingOff s in
    s <-
      (if negb (requireAck (alarms s))
          || negb (AttentionState_eqb (lastAlarmState (alarms s)) noddingOff)
       then
         let s := raiseAlarmBatch nodding 4 now s in
         let s := emit (PlayDrowsinessAlert false) s in
         s <-
           (if negb (requireAck (alarms s)) then
              r <- assignNewChallenge None s ;;
              ret (snd r)
            else ret s) ;;
         let s := updateRequireAck true s in
         ret (setLastAlarmState noddingOff s)
       else if requireAck (alarms s)
               && (List.length (activeAlarms (alarms s)) =? 0)%nat
       then
         let s := raiseAlarmBatch nodding 4 now s in
         ret (emit (PlayDrowsinessAlert false) s)
       else ret s) ;;
    let s := setState noddingOff s in
    ret (setConfidence 0.94 s)
  else
    let s := setLatestState awake s in
    let s := setState awake s in
    let s := setConfidence 0.25 s in
    ret (if negb (requireAck (alarms s)) then resetAlarmState s else s).

(** The branch [if (!detectedLandmarks)] of [handleLandmarks]. *)
Definition handleNoFace (now : Z) (s : Session) : Rand (Outcome * Session) :=
  let s := setMissingFaceFrames (S (missingFaceFrames (absence s))) s in
  let missingSec := JS.ofNat (missingFaceFrames (absence s)) / FPS in
  let rest (s : Session) : Rand (Outcome * Session) :=
    if collecting (calibration s) then ret (CalibrationLost, calibrationLost s)
    else
      s <- missingFace now missingSec s ;;
      ret (FaceMissing, s) in
  if isAbsenceAlarmArmed (absence s) then
    let start := JS.orElse (absentStartTime (absence s)) now in
    let s := setAbsentStartTime (Some start) s in
    let absentDuration := JS.ofZ (now - start) / 1000 in
    let countdown := Qmax 0 (5 - absentDuration) in
    let s := setAbsentCountdown (Some countdown) s in
    if (absentDuration >=? 5) && negb (requireAck (alarms s))
    then absenceAlarm now s
    else rest s
  else rest s.

(** The block [if (calibrationRef.current.collecting)] of a frame with
    a face.  The flag returned is [true] when calibration completed on
    this frame (the handler goes on to the fusion) and [false] when the
    handler returns "still calibrating". *)
Definition collectCalibration (now : Z) (f : FaceLandmarks) (s : Session)
    : bool * Session :=
  let c := calibration s in
  let start := JS.orElse (startTimestamp c) now in
  let pitchSamples := pitchSamples c ++ [pitchAngleRaw f] in
  let earSamples := earSamples c ++ [currentEar f] in
  let tiltSamples := tiltSamples c ++ [tiltAngleRaw f] in
  let faceWidthSamples := faceWidthSamples c ++ [currentFaceWidth f] in
  let elapsed := (now - start)%Z in
  let progress :=
    Qmin 1 (JS.ofZ elapsed / JS.ofZ CALIBRATION_DURATION_MS) in
  let calibrationProgress :=
    if (progress - calibrationProgress c >=? 0.05) || Qeq_bool progress 1
    then progress else calibrationProgress c in
  let enoughSamples :=
    (MIN_CALIBRATION_FRAMES <=? List.length pitchSamples)%nat in
  if (CALIBRATION_DURATION_MS <=? elapsed)%Z && enoughSamples then
    let newBaselines :=
      mkBaselines (median pitchSamples) (average earSamples)
        (average tiltSamples) (average faceWidthSamples) in
    let s :=
      match latestPostureState (trackers s), seenPoseLandmarks (closure s) with
      | Some postureState, Some pose =>
          if isPresent postureState then
            let t := trackers s in
            setTrackers
              (mkTrackers (headNodDetector t) (yawnDetector t) (gazeTracker t)
                 (faceDistanceTracker t)
                 (PostureTracker.setBaseline (postureTracker t)
                    (postureVertical postureState)
                    (PostureTracker.poseLeanAngle pose))
                 (latestPostureState t)) s
          else s
      | _, _ => s
      end in
    (true,
     setCalibration
       (mkCalibration false (Some start) pitchSamples earSamples tiltSamples
          faceWidthSamples 1 false (Some newBaselines)) s)
  else
    let s :=
      setCalibration
        (mkCalibration true (Some start) pitchSamples earSamples tiltSamples
           faceWidthSamples calibrationProgress (isCalibrating c)
           (baselines c)) s in
    let s := setState awake s in
    let s := setConfidence 0.15 s in
    (false,
     if negb (requireAck (alarms s)) then updateActiveAlarms [] s else s).

(** The trackers updated on a fused frame, with the signals they
    report. *)
Definition updateTrackers (now : Z) (f : FaceLandmarks)
    (activeBaselines : CalibrationBaselines) (s : Session)
    : Fusion.Signals * Session :=
  let t := trackers s in
  let adjustedTilt := tiltAngleRaw f - tilt activeBaselines in
  let isTilted := JS.abs adjustedTilt >? HEAD_TILT_THRESHOLD in
  let adjustedPitch := pitchAngleRaw f - pitch activeBaselines in
  let nod :=
    HeadNodDetector.update (headNodDetector t) adjustedPitch
      HEAD_PITCH_THRESHOLD HEAD_PITCH_BACK_THRESHOLD in
  let yawn := YawnDetector.update (yawnDetector t) (currentMAR f) now in
  let gaze := GazeTracker.update (gazeTracker t) (horizontalGaze f) now in
  let distance :=
    FaceDistanceTracker.update (faceDistanceTracker t) (currentFaceWidth f)
      now in
  (Fusion.mkSignals (snd nod)
     (YawnDetector.isYawning (snd yawn))
     (YawnDetector.yawnCountOut (snd yawn))
     (GazeTracker.isLookingAway (snd gaze))
     (GazeTracker.lookAwayDuration (snd gaze))
     (FaceDistanceTracker.isDrowsyDistance
        (FaceDistanceTracker.distanceWarningDuration (snd distance)))
     isTilted
     (latestPostureState t)
     (seenLandmarks (closure s)),
   setTrackers
     (mkTrackers (fst nod) (fst yawn) (fst gaze) (fst distance)
        (postureTracker t) (latestPostureState t)) s).

(** Escalation while an acknowledgment is outstanding ("Already in alarm
    state - handle escalation"). *)
Definition escalateAlarmed (now : Z) (best : AttentionState) (s : Session)
    : Rand Session :=
  let isSleeping := AttentionState_eqb best sleeping in
  let enteringAlarm :=
    negb (AttentionState_eqb (lastAlarmState (alarms s)) best) in
  if enteringAlarm && isSleeping
     && negb (AttentionState_eqb (lastAlarmState (alarms s)) sleeping)
  then
    let s := raiseAlarmBatch sleepingTier 5 now s in
    let s := emit (PlayDrowsinessAlert true) s in
    preferred <- mathOrTrivia ;;
    r <- assignNewChallenge (Some preferred) s ;;
    let s := updateRequireAck true (snd r) in
    ret (setLastAlarmState sleeping s)
  else if (List.length (activeAlarms (alarms s)) =? 0)%nat then
    let s := raiseAlarmBatch (tierOf isSleeping) (batchSize isSleeping)
               now s in
    ret (emit (PlayDrowsinessAlert isSleeping) s)
  else ret s.

(** The voice warning and its grace period, when a warning applies and no
    acknowledgment is outstanding. *)
Definition warnThenAlarm (now : Z) (best : AttentionState) (msg : string)
    (priority : Priority) (s : Session) : Rand Session :=
  let isSleeping := AttentionState_eqb best sleeping in
  let seen := seenActiveWarning (closure s) in
  let isNewWarningCategory :=
    negb (JS.truthy (warningStartTime (voice s)))
    || match seen with
       | Some active =>
           Str.truthy seen
           && negb (Str.includes msg (Str.firstWord active))
           && negb (Str.includes active (Str.firstWord msg))
       | None => false
       end in
  let s :=
    if isNewWarningCategory then
      let s := emit (SpeakWarning msg priority) s in
      let s := setActiveWarning (Some msg) s in
      setWarningStartTime (Some now) s
    else if differs msg seen then
      let s := emit (SpeakWarning msg priority) s in
      setActiveWarning (Some msg) s
    else s in
  if JS.truthy (warningStartTime (voice s))
     && (VOICE_GRACE_PERIOD_MS
         <=? now - JS.orElse (warningStartTime (voice s)) 0)%Z
  then
    let enteringAlarm :=
      negb (requireAck (alarms s))
      || negb (AttentionState_eqb (lastAlarmState (alarms s)) best) in
    if enteringAlarm then
      let s := raiseAlarmBatch (tierOf isSleeping) (batchSize isSleeping)
                 now s in
      let s := emit (PlayDrowsinessAlert isSleeping) s in
      preferredChallenge <-
        (if isSleeping then
           ty <- mathOrTrivia ;;
           ret (Some ty)
         else ret None) ;;
      r <- assignNewChallenge preferredChallenge s ;;
      let s := updateRequireAck true (snd r) in
      ret (setLastAlarmState best s)
    else ret s
  else ret s.

(** Escalation on a frame classified [noddingOff] or [sleeping]. *)
Definition escalateRisk (now : Z) (best : AttentionState)
    (warning : option (string * Priority)) (s : Session) : Rand Session :=
  match warning with
  | Some (msg, priority) =>
      if negb (requireAck (alarms s)) then warnThenAlarm now best msg priority s
      else escalateAlarmed now best s
  | None =>
      if requireAck (alarms s) then escalateAlarmed now best s else ret s
  end.

(** "User is awake - reset warning state". *)
Definition settleAwake (s : Session) : Session :=
  let s :=
    if Str.truthy (seenActiveWarning (closure s)) then
      let s := emit CancelVoiceWarning s in
      let s := setActiveWarning None s in
      setWarningStartTime None s
    else s in
  let s :=
    if negb (requireAck (alarms s))
       && (0 <? List.length (activeAlarms (alarms s)))%nat
    then setLastAlarmState awake (updateActiveAlarms [] s)
    else s in
  let s :=
    if negb (requireAck (alarms s)) && Str.truthy (alarmPhrase (alarms s))
    then updateChallenge phrase None None (updateAlarmPhrase None s)
    else s in
  if negb (requireAck (alarms s)) then setLastAlarmState awake s else s.

(** The fused classification of a frame with a face: trackers, closed-eye
    counter, evidence fusion, escalation, snapshot. *)
Definition fuseFrame (now : Z) (f : FaceLandmarks)
    (activeBaselines : CalibrationBaselines) (s : Session) : Rand Session :=
  let effectiveEarThreshold :=
    Qmax (ear activeBaselines * 0.75) (BASE_EAR_THRESHOLD * 0.75) in
  let '(signals, s) := updateTrackers now f activeBaselines s in
  let s :=
    if currentEar f <? effectiveEarThreshold
    then setClosedFrames (S (closedFrames s)) s
    else setClosedFrames 0 s in
  let closedSec := Fusion.closedSecOf (closedFrames s) in
  let evidence := Fusion.fuseEvidence (closedFrames s) signals in
  let '(best, newConfidence) := Fusion.classify (Fusion.normalize evidence) in
  let s := setLatestState best s in
  let isRiskState :=
    AttentionState_eqb best noddingOff || AttentionState_eqb best sleeping in
  s <-
    (if isRiskState then
       let nod := Fusion.nodState signals in
       let posture := Fusion.postureState signals in
       let warning :=
         VoiceWarnings.getWarningForState
           (VoiceWarnings.mkMetrics closedSec (isForwardNodding nod)
              (isBackwardTilting nod) (Fusion.isTilted signals)
              (option_map isSlouched posture)
              (option_map leanDirection posture)
              (option_map isLeaning posture)
              (Fusion.currentIsYawning signals)
              (Fusion.currentYawCount signals)
              (Fusion.currentIsLookingAway signals)
              (option_map isPresent posture)
              false) in
       escalateRisk now best warning s
     else ret (settleAwake s)) ;;
  let s := setState best s in
  let s := setConfidence newConfidence s in
  ret (if (EMIT_INTERVAL_MS <=? now - lastEmitTime s)%Z
       then emit (PushAttention now best newConfidence) (setLastEmitTime now s)
       else s).

(** A frame with a face, from the reset of the missing-frame counter. *)
Definition handleFace (now : Z) (f : FaceLandmarks) (s : Session)
    : Rand (Outcome * Session) :=
  let seenBaselines := baselines (calibration s) in
  let s := setMissingFaceFrames 0 s in
  let s := setAbsentStartTime None s in
  let s := setAbsentCountdown None s in
  let '(proceed, s) :=
    if collecting (calibration s) then collectCalibration now f s
    else (true, s) in
  if negb proceed then ret (StillCalibrating, s)
  else
    let activeBaselines :=
      match seenBaselines with
      | Some b => Some b
      | None =>
          if negb (collecting (calibration s))
          then Some (mkBaselines (pitchAngleRaw f) (currentEar f)
                       (tiltAngleRaw f) (currentFaceWidth f))
          else None
      end in
    match activeBaselines with
    | None => ret (NoBaselines, setConfidence 0.2 s)
    | Some activeBaselines =>
        s <- fuseFrame now f activeBaselines s ;;
        ret (Fused, s)
    end.

(** [handleLandmarks(detectedLandmarks)]; [now] is its [Date.now()].  When
    the call has completed calibration it has replaced [baselines], and the
    detector effect runs again before the next frame. *)
Definition handleLandmarks (now : Z) (detectedLandmarks : option FaceLandmarks)
    (s : Session) : Rand (Outcome * Session) :=
  let wasCollecting := collecting (calibration s) in
  match detectedLandmarks with
  | None => handleNoFace now (setLandmarks false s)
  | Some f =>
      r <- handleFace now f (setLandmarks true s) ;;
      let s := snd r in
      ret (fst r,
           if wasCollecting && negb (collecting (calibration s))
           then detectorEffect s else s)
  end.

(** [handlePose(detectedPose)] *)
Definition handlePose (now : Z)
    (detectedPose : option PostureTracker.PoseLandmarks) (s : Session)
    : Session :=
  let s := setPoseLandmarks detectedPose s in
  let t := trackers s in
  let r := PostureTracker.update (postureTracker t) detectedPose now in
  setTrackers
    (mkTrackers (headNodDetector t) (yawnDetector t) (gazeTracker t)
       (faceDistanceTracker t) (fst r) (Some (snd r))) s.

(** ** Sessions as sequences of events *)

Inductive Event :=
| Mount
| SetActive (active : bool)
| FaceFrame (now : Z) (detectedLandmarks : option FaceLandmarks)
            (draws : list Q)
| PoseFrame (now : Z) (detectedPose : option PostureTracker.PoseLandmarks)
| SilenceAlarm (input : string)
| DisarmAbsenceAlarm
| TriggerDebugAlarm (preferred : option ChallengeType) (now : Z)
                    (draws : list Q).

(** One event; the outcome is reported for landmark frames.  Frames are
    delivered only while the hook is active. *)
Definition step (s : Session) (e : Event) : option (option Outcome * Session) :=
  match e with
  | Mount => Some (None, activationEffect (isActive s) s)
  | SetActive active =>
      if Bool.eqb active (isActive s) then Some (None, s)
      else Some (None, activationEffect active s)
  | FaceFrame now detected draws =>
      if isActive s then
        match handleLandmarks now detected s draws with
        | Some (r, _) => Some (Some (fst r), snd r)
        | None => None
        end
      else Some (None, s)
  | PoseFrame now detected =>
      if isActive s then Some (None, handlePose now detected s)
      else Some (None, s)
  | SilenceAlarm input => Some (None, snd (silenceAlarm input s))
  | DisarmAbsenceAlarm => Some (None, disarmAbsenceAlarm s)
  | TriggerDebugAlarm preferred now draws =>
      match triggerDebugAlarm preferred now s draws with
      | Some (s', _) => Some (None, s')
      | None => None
      end
  end.

(** A run: the outcomes of the landmark frames, in order, and the final
    state. *)
Fixpoint run (s : Session) (events : list Event)
    : option (list Outcome * Session) :=
  match events with
  | [] => Some ([], s)
  | e :: rest =>
      match step s e with
      | Some (o, s') =>
          match run s' rest with
          | Some (os, s'') =>
              Some (match o with Some x => x :: os | None => os end, s'')
          | None => None
          end
      | None => None
      end
  end.

(** ** Closed forms of single scores of the rule table

    The rule table updates three accumulators in one pass; the scores
    below are what it leaves in one accumulator, as a function of the
    closed-eye duration.  They are related to [Fusion.signalEvidence] by
    [signal_sleeping_eq] and [signal_awake_eq]. *)

Module Scores.

(** The bonus [Math.min(over / 2, 1.0)] past the sleep threshold. *)
Definition overBonus (d : Q) : Q :=
  Qmin ((d - EYES_CLOSED_SLEEP_SEC) / 2) 1.0.

(** Sleeping score after the eye and head rules. *)
Definition signalSleeping (d : Q) (tilting : bool) : Q :=
  let s :=
    if d >=? EYES_CLOSED_SLEEP_SEC then 0 + (2.0 + overBonus d) else 0 in
  if tilting then (if d >=? 4 then s + 0.2 else s) else s.

(** Awake score accumulated before the closed-eye rule. *)
Definition awakeBase (g : Fusion.Signals) : Q :=
  let nod := Fusion.nodState g in
  let a := 0.3 in
  let a :=
    if Fusion.currentIsLookingAway g && (Fusion.currentLookAwayDuration g >? 5)
    then a else a + 0.05 in
  let a := if negb (Fusion.isTilted g) then a + 0.1 else a in
  let a :=
    if negb (isForwardNodding nod) && negb (isBackwardTilting nod)
    then a + 0.2 else a in
  let a :=
    if (JS.abs (windowMax nod) <? HEAD_PITCH_THRESHOLD)
       && (JS.abs (windowMin nod) <? HEAD_PITCH_BACK_THRESHOLD)
    then a + 0.05 else a in
  if negb (Fusion.currentIsYawning g) && (Fusion.currentYawCount g <? 2)%nat
  then a + 0.05 else a.

(** "Reduce awake evidence significantly when eyes are closed". *)
Definition eyeAwake (d : Q) (a : Q) : Q :=
  if d <? 1 then a + 0.3
  else if d <? 2.0 then a + 0.05
  else if d <? EYES_CLOSED_NOD_SEC then 0
  else 0.

End Scores.

(** Signals of a frame on which every tracker is quiet and no posture
    reading exists. *)
Definition quietSignals : Fusion.Signals :=
  Fusion.mkSignals (mkNodState false false 0 0 0 0 0) false 0 false 0 false
    false None true.

(** Signals of a frame with a forward nod held at 20 degrees, a yawn in
    progress after three yawns, a look away lasting 8 s and a tilted head;
    no posture reading either. *)
Definition restlessSignals : Fusion.Signals :=
  Fusion.mkSignals (mkNodState true false 1 18 20 20 15) true 3 true 8 true
    true None true.

(** ** Acknowledgment, in the words of the specification *)

Module Ack.

Open Scope string_scope.


(** The answer check with the input trimmed for math and trivia, against
    a non-empty expected answer. *)
Definition matchesTrimmed (a : Alarms) (input : string) : Prop :=
  match challengeType a with
  | phrase =>
      exists expected,
        alarmPhrase a = Some expected /\ expected <> ""
        /\ input = expected
  | math =>
      exists expected,
        challengeAnswer a = Some expected /\ expected <> ""
        /\ Str.trim input = expected
  | trivia =>
      exists expected,
        challengeAnswer a = Some expected /\ expected <> ""
        /\ Str.toUpperCase (Str.trim input) = Str.toUpperCase expected
  end.

(** The alarm state is the quiet one: no alarm, no phrase, no challenge,
    no acknowledgment required, last alarm state awake. *)
Definition quiet (a : Alarms) : Prop :=
  activeAlarms a = []
  /\ alarmPhrase a = None
  /\ challengeType a = phrase
  /\ challengePrompt a = None
  /\ challengeAnswer a = None
  /\ requireAck a = false
  /\ lastAlarmState a = awake.

(** A session with an outstanding challenge and the user classified
    [latest]. *)
Definition challenged (ty : ChallengeType) (phraseText answer : option string)
    (latest : AttentionState) : Session :=
  setLatestState latest
    (setAlarms
       (mkAlarms
          (fst (getAlarmBatch (mkCursor 0 0) sleepingTier 5 0))
          phraseText true ty None answer sleeping (mkCursor 0 5))
       mounted).

End Ack.

(** ** Calibration statistics, in the words of the specification *)

Module Stats.




End Stats.

(** The completion test of the calibration block, on the accumulator as
    it stands before the frame's samples are pushed. *)
Definition calibrationComplete (now : Z) (f : FaceLandmarks) (c : Calibration)
    : Prop :=
  (CALIBRATION_DURATION_MS <= now - JS.orElse (startTimestamp c) now)%Z
  /\ (MIN_CALIBRATION_FRAMES
      <= List.length (pitchSamples c ++ [pitchAngleRaw f]))%nat.

(** ** Vocabulary of the session properties *)

Definition armed (s : Session) : bool := isAbsenceAlarmArmed (absence s).

(** Two states with the same absence-alarm state and the same
    calibration state. *)
Definition sameSetup (s s' : Session) : Prop :=
  absence s' = absence s /\ calibration s' = calibration s.

(** A value [Math.random()] can return. *)
Definition unitDraw (r : Q) : Prop := 0 <= r /\ r < 1.

(** An alarm instantiated at [now] from an entry of the library of a
    tier. *)
Definition fromLibrary (type : AlarmTier) (now : Z) (a : AttentionAlarm)
    : Prop :=
  exists def,
    In def (AlarmLibrary.source type)
    /\ a = mkAlarm (defId def) (defMessage def) (defLevel def) now.

(** The state the absence countdown leaves when it raises its alarm with
    a challenge of type [ty]. *)
Definition absenceAlarmed (now : Z) (ty : ChallengeType)
    (prompt answer : option string) (s : Session) : Session :=
  setConfidence 0.99
    (setState sleeping
       (setLastAlarmState sleeping
          (updateRequireAck true
             (updateChallenge ty prompt answer
                (updateAlarmPhrase None
                   (emit (PlayDrowsinessAlert true)
                      (raiseAlarmBatch sleepingTier 5 now s))))))).

(** ** Sample sessions and traces *)

Module Samples.

Definition face : FaceLandmarks := mkFace 0.3 0 0 0.25 0.1 0.

(** An active session one frame short of completing calibration: 89
    samples collected since time 0. *)
Definition calibrating : Session :=
  setCalibration
    (mkCalibration true (Some 0%Z) (repeat 0.1 89) (repeat 0.3 89)
       (repeat 0 89) (repeat 0.25 89) 0.95 true None)
    (activationEffect true mounted).

(** An active session whose calibration is complete. *)
Definition calibrated : Session :=
  captureClosure
    (setLandmarks true
       (setCalibration
          (mkCalibration false (Some 0%Z) [] [] [] [] 1 false
             (Some (mkBaselines 0 0.3 0 0.25)))
          (activationEffect true mounted))).

(** The calibrated session after a first frame without a face, at time
    10000. *)
Definition faceJustLost : Session :=
  match handleLandmarks 10000 None calibrated [] with
  | Some (r, _) => snd r
  | None => calibrated
  end.

(** Three long absences sampled sparsely: frames without a face at 0 s,
    6 s, 12 s, a face, then frames without a face again at 20 s and
    40 s. *)
Definition longAbsences : list Event :=
  [ FaceFrame 100000 None []; FaceFrame 106000 None [];
    FaceFrame 112000 None []; FaceFrame 113000 (Some face) [];
    FaceFrame 120000 None []; FaceFrame 140000 None [] ].

(** Two yawns, one second each, then a closed mouth 66 seconds after the
    second yawn ended: [(mar, now)] per frame. *)
Definition twoYawnsThenRest : list (Q * Z) :=
  [ (1, 1000%Z); (0, 2000%Z); (1, 3000%Z); (0, 4000%Z); (0, 70000%Z) ].

(** Four draws: enough for a challenge type and a math or trivia
    challenge. *)
Definition fourDraws : list Q := [0.5; 0.1; 0.2; 0.3].


End Samples.

(** The yawn detector run over a sequence of frames, with the state it
    reports on the last one. *)
Definition runYawns (frames : list (Q * Z))
    : YawnDetector.t * YawnDetector.YawnState :=
  fold_left
    (fun acc frame => YawnDetector.update (fst acc) (fst frame) (snd frame))
    frames
    (YawnDetector.init, YawnDetector.mkYawnState false 0 0).

(** * Vocabulary of the properties of the trackers and the session *)

(** ** Classification and closed forms of the nodding score *)

(** The probability and the evidence score of a state. *)
Definition probOf (p : Fusion.Probabilities) (st : AttentionState) : Q :=
  match st with
  | awake => Fusion.awakeProb p
  | noddingOff => Fusion.noddingProb p
  | sleeping => Fusion.sleepingProb p
  end.

Definition evidenceOf (e : Fusion.Evidence) (st : AttentionState) : Q :=
  match st with
  | awake => Fusion.awakeEvidence e
  | noddingOff => Fusion.noddingEvidence e
  | sleeping => Fusion.sleepingEvidence e
  end.

(** What the closed-eye rules of the rule table leave in the nodding
    accumulator, and what the rules on the face cues add to it; they are
    related to [Fusion.signalEvidence] by [signal_nodding_eq]. *)
Definition eyeNodding (d : Q) : Q :=
  if d >=? EYES_CLOSED_SLEEP_SEC then 0
  else if d >=? EYES_CLOSED_NOD_SEC then 0 + 1.5
  else if d >=? 2.0 then 0 + 0.8
  else if d >=? 1.0 then 0 + 0.3
  else 0.

Definition cueNodding (g : Fusion.Signals) (n : Q) : Q :=
  let nod := Fusion.nodState g in
  let n := if isForwardNodding nod then n + 0.3 else n in
  let n := if windowMax nod >? HEAD_PITCH_THRESHOLD + 4 then n + 0.25 else n in
  let n := if isBackwardTilting nod then n + 0.2 else n in
  let n := if Fusion.currentIsYawning g then n + 0.15 else n in
  let n :=
    if isDrowsyYawnRate (Fusion.currentYawCount g) then n + 0.1 else n in
  let n :=
    if Fusion.currentIsLookingAway g
       && (Fusion.currentLookAwayDuration g >? 5)
    then n + 0.15 else n in
  if Fusion.isAbnormalDistance g then n + 0.1 else n.

(** Face cues of drowsiness are all absent. *)
Definition noFaceCue (g : Fusion.Signals) : Prop :=
  isForwardNodding (Fusion.nodState g) = false
  /\ isBackwardTilting (Fusion.nodState g) = false
  /\ windowMax (Fusion.nodState g) <= HEAD_PITCH_THRESHOLD + 4
  /\ Fusion.currentIsYawning g = false
  /\ (Fusion.currentYawCount g < 2)%nat
  /\ (Fusion.currentIsLookingAway g = false
      \/ Fusion.currentLookAwayDuration g <= 5)
  /\ Fusion.isAbnormalDistance g = false.

(** The factor the posture rules apply to every score: 0.8 when the body
    is poorly visible while a face is being tracked. *)
Definition postureScale (l : bool) (p : PostureState) : Q :=
  if (bodyPresence p <? 0.5) && l then 0.8 else 1.

(** ** Runs of the trackers *)

(** The last [n] elements of a list. *)
Definition lastN {A : Type} (n : nat) (xs : list A) : list A :=
  skipn (List.length xs - n) xs.


(** What [update] keeps true of the fields of the yawn detector. *)
Definition yawnInvariant (d : YawnDetector.t) : Prop :=
  (List.length (YawnDetector.yawnTimes d) <= YawnDetector.yawnCount d)%nat
  /\ (List.length (YawnDetector.marHistory d) <= YawnDetector.HISTORY_SIZE)%nat
  /\ (YawnDetector.isCurrentlyYawning d = true
      <-> YawnDetector.yawnStartTime d <> None).

(** ** The PERCLOS detector ([PERCLOSDetector]) *)

Module PERCLOSDetector.

Definition WINDOW_SIZE : nat := 1800.
Definition DROWSY_THRESHOLD : Q := 20.
Definition CRITICAL_THRESHOLD : Q := 40.

Record t := mk {
  eyeStateHistory : list bool
}.

Record PERCLOSState := mkState {
  perclos : Q;
  windowDuration : Q;
  closedFrames : nat;
  totalFrames : nat
}.

Definition init : t := mk [].

Definition update (d : t) (isEyesClosed : bool) : t * PERCLOSState :=
  let eyeStateHistory :=
    pushBounded WINDOW_SIZE (eyeStateHistory d) isEyesClosed in
  let closedFrames :=
    List.length (filter (fun closed => closed) eyeStateHistory) in
  let totalFrames := List.length eyeStateHistory in
  let perclos :=
    if (0 <? totalFrames)%nat
    then JS.ofNat closedFrames / JS.ofNat totalFrames * 100
    else 0 in
  (mk eyeStateHistory,
   mkState perclos (JS.ofNat totalFrames / 30) closedFrames totalFrames).

Definition isDrowsy (perclos : Q) : bool := perclos >=? DROWSY_THRESHOLD.

Definition isCriticallyDrowsy (perclos : Q) : bool :=
  perclos >=? CRITICAL_THRESHOLD.

End PERCLOSDetector.

(** The PERCLOS detector after the observations [xs], fed in order. *)
Definition feedPerclos (xs : list bool) : PERCLOSDetector.t :=
  fold_left (fun d x => fst (PERCLOSDetector.update d x)) xs
    PERCLOSDetector.init.

(** ** Alarm batches and challenges *)

(** Pairwise distinct strings. *)
Fixpoint distinct (l : list string) : bool :=
  match l with
  | [] => true
  | x :: r => negb (existsb (String.eqb x) r) && distinct r
  end.

(** No character of the string is white space. *)
Fixpoint spaceless (str : string) : bool :=
  match str with
  | EmptyString => true
  | String c r => negb (Str.isSpace c) && spaceless r
  end.

(** The bank word at an index, as the phrase shows it. *)
Definition bankWord (idx : nat) : string :=
  Str.toUpperCase (nth idx Challenge.WORD_BANK EmptyString).

(** [words] are the bank words at the indices [used], which are pairwise
    distinct positions of the bank, latest first. *)
Definition pickedFrom (used : list nat) (words : list string) : Prop :=
  words = map bankWord (rev used)
  /\ NoDup used
  /\ Forall (fun i => (i < List.length Challenge.WORD_BANK)%nat) used.

(** The input the outstanding challenge expects: the phrase shown, or the
    answer of the math or trivia prompt. *)
Definition expectedInput (a : Alarms) : option string :=
  match challengeType a with
  | phrase => alarmPhrase a
  | _ => challengeAnswer a
  end.

(** The outstanding challenge can be answered: the input it expects is
    accepted. *)
Definition answerable (a : Alarms) : Prop :=
  exists input, expectedInput a = Some input /\ Ack.matchesTrimmed a input.

(** Whenever an acknowledgment is required, alarms are displayed and the
    outstanding challenge can be answered. *)
Definition ackInvariant (s : Session) : Prop :=
  requireAck (alarms s) = true ->
  activeAlarms (alarms s) <> [] /\ answerable (alarms s).

(** ** Detection state of a session *)

(** Two states that differ at most in the alarm state, the voice warning
    state and the log of effects. *)
Definition sameDetection (s s' : Session) : Prop :=
  isActive s' = isActive s /\ state s' = state s
  /\ confidence s' = confidence s /\ latestState s' = latestState s
  /\ closedFrames s' = closedFrames s /\ lastEmitTime s' = lastEmitTime s
  /\ landmarks s' = landmarks s /\ poseLandmarks s' = poseLandmarks s
  /\ calibration s' = calibration s /\ absence s' = absence s
  /\ trackers s' = trackers s /\ closure s' = closure s.

(** The closed-frame counter after a fused frame. *)
Definition closedFramesAfter (f : FaceLandmarks)
    (activeBaselines : CalibrationBaselines) (s : Session) : nat :=
  if currentEar f
     <? Qmax (ear activeBaselines * 0.75) (BASE_EAR_THRESHOLD * 0.75)
  then S (closedFrames s) else 0%nat.

(** The confidence shown lies in [0, 0.99]. *)
Definition confidenceOk (s : Session) : Prop :=
  0 <= confidence s <= 0.99.

(** Events that do not re-run the detector effect from outside: frames,
    acknowledgments and debug alarms. *)
Definition frameEvent (e : Event) : bool :=
  match e with
  | FaceFrame _ _ _ | PoseFrame _ _ | SilenceAlarm _
  | TriggerDebugAlarm _ _ _ => true
  | _ => false
  end.

(** The posture tracker has no vertical baseline, and while calibration is
    collecting the frame handler holds no pose landmarks. *)
Definition noPoseForBaseline (s : Session) : Prop :=
  PostureTracker.baselineVertical (postureTracker (trackers s)) = None
  /\ (collecting (calibration s) = true ->
      seenPoseLandmarks (closure s) = None).

(** Two states with the same trackers, closure and calibration. *)
Definition samePosture (s s' : Session) : Prop :=
  trackers s' = trackers s /\ closure s' = closure s
  /\ calibration s' = calibration s.

(** ** Voice warnings, sample ranges and pushed snapshots *)

(** No cue that [getWarningForState] looks at is present. *)
Definition cueFree (m : VoiceWarnings.Metrics) : Prop :=
  VoiceWarnings.landmarksNull m
  && VoiceWarnings.isFalse (VoiceWarnings.isPresent m) = false
  /\ VoiceWarnings.eyesClosedSec m <= 1
  /\ VoiceWarnings.isHeadNodding m = false
  /\ VoiceWarnings.isTrue (VoiceWarnings.isSlouched m) = false
  /\ VoiceWarnings.isTrue (VoiceWarnings.isLeaning m)
     && (VoiceWarnings.leans (VoiceWarnings.leanDirection m) forward
         || VoiceWarnings.leans (VoiceWarnings.leanDirection m) backward)
     = false
  /\ VoiceWarnings.isHeadTiltingBack m = false
  /\ VoiceWarnings.isHeadTilted m = false
  /\ (VoiceWarnings.yawnCount m < 3)%nat
  /\ VoiceWarnings.isYawning m = false
  /\ VoiceWarnings.isLookingAway m = false.


(** The times of the snapshots pushed to the bridge, in program order. *)
Definition pushTimes (es : list Effect) : list Z :=
  flat_map (fun e => match e with PushAttention t _ _ => [t] | _ => [] end) es.

(** Events within one activation of the hook. *)
Definition withinSession (e : Event) : bool :=
  match e with
  | Mount | SetActive _ => false
  | _ => true
  end.

(** A step that pushes no snapshot and leaves the last emission time. *)
Definition quietStep (s s' : Session) : Prop :=
  lastEmitTime s' = lastEmitTime s
  /\ pushTimes (effects s') = pushTimes (effects s).

(** What a step adds to the pushed snapshots: nothing, or one snapshot
    stamped at least 300 ms after the last emission time. *)
Definition pushStep (s s' : Session) : Prop :=
  quietStep s s'
  \/ exists now,
       (lastEmitTime s + EMIT_INTERVAL_MS <= now)%Z
       /\ lastEmitTime s' = now
       /\ pushTimes (effects s') = pushTimes (effects s) ++ [now].

(** Every time is at least 300 ms after the ones before it. *)
Definition spaced (ts : list Z) : Prop :=
  StronglySorted (fun a b => (a + EMIT_INTERVAL_MS <= b)%Z) ts.

(** ** Further sample sessions and traces *)

Module Traces.

(** A frame with the eyes closed (EAR 0.1) and nothing else of note. *)
Definition closedEyes : FaceLandmarks := mkFace 0.1 0 0 0.25 0.1 0.

(** A pose frame with an upright, fully visible body. *)
Definition uprightPose : PostureTracker.PoseLandmarks :=
  PostureTracker.mkPose 0.5 0 1.

(** The hook is mounted and started, then a debug alarm with a math
    challenge is triggered. *)
Definition debugAlarm : list Event :=
  [ Mount; SetActive true;
    TriggerDebugAlarm (Some math) 1000 [0.5; 0.5; 0.5] ].

(** A calibrated session whose eyes have been closed for 100 frames. *)
Definition eyesLongClosed : Session :=
  setClosedFrames 100 Samples.calibrated.

(** The same session with the warning [VoiceWarnings.eyesClosed] spoken
    at 1000 ms and seen by the frame handler. *)
Definition warned : Session :=
  captureClosure
    (setVoice (mkVoice (Some VoiceWarnings.eyesClosed) (Some 1000%Z))
       eyesLongClosed).

(** A first session: pose frames arrive while a face is calibrated. *)
Definition firstSession : list Event :=
  [ PoseFrame 100 (Some uprightPose); FaceFrame 200 (Some Samples.face) [];
    PoseFrame 300 (Some uprightPose); FaceFrame 400 (Some Samples.face) [] ].

(** Three frames with a face on a calibrated session, 100 ms and 400 ms
    after the first. *)
Definition threeFrames : list Event :=
  [ FaceFrame 100000 (Some Samples.face) [];
    FaceFrame 100100 (Some Samples.face) [];
    FaceFrame 100400 (Some Samples.face) [] ].

End Traces.

(** * Properties *)

Import Fusion Scores.

(** ** Comparisons *)

Lemma Qle_bool_false (a b : Q) : Qle_bool a b = false -> b < a.
Proof.
  intro H. apply Qnot_le_lt. intro Hc. apply Qle_bool_iff in Hc. congruence.
Qed.

Lemma gt_true (a b : Q) : (a >? b) = true <-> b < a.
Proof.
  unfold JS.gt. rewrite negb_true_iff, <- not_true_iff_false, Qle_bool_iff.
  split; intro H; [apply Qnot_le_lt | apply Qlt_not_le]; exact H.
Qed.

Lemma lt_true (a b : Q) : (a <? b) = true <-> a < b.
Proof. apply gt_true. Qed.

Lemma ge_true (a b : Q) : (a >=? b) = true <-> b <= a.
Proof. apply Qle_bool_iff. Qed.

Lemma gt_false (a b : Q) : (a >? b) = false <-> a <= b.
Proof.
  unfold JS.gt. rewrite negb_false_iff. apply Qle_bool_iff.
Qed.

Lemma lt_false (a b : Q) : (a <? b) = false <-> b <= a.
Proof. apply gt_false. Qed.

Lemma ge_false (a b : Q) : (a >=? b) = false <-> a < b.
Proof.
  unfold JS.ge. split; intro H.
  - apply Qle_bool_false, H.
  - apply not_true_iff_false. rewrite Qle_bool_iff. apply Qlt_not_le, H.
Qed.

Lemma ge_mono (c d1 d2 : Q) :
  d1 <= d2 -> (d1 >=? c) = true -> (d2 >=? c) = true.
Proof. rewrite !ge_true. intros. lra. Qed.

Lemma gt_mono (c d1 d2 : Q) :
  d1 <= d2 -> (d1 >? c) = true -> (d2 >? c) = true.
Proof. rewrite !gt_true. intros. lra. Qed.


Lemma andb_gt_mono (b : bool) (c d1 d2 : Q) :
  d1 <= d2 -> (b && (d1 >? c)) = true -> (b && (d2 >? c)) = true.
Proof.
  intros H E. apply andb_true_iff in E as [-> E]. cbn.
  eapply gt_mono; eassumption.
Qed.

(** Case analysis on every test of the goal. *)
Ltac split_ifs :=
  repeat match goal with
  | |- context [if ?c then _ else _] => destruct c eqn:?
  end.

Section Clamp.

Lemma clamp_bounds (lo x : Q) :
  lo <= 1 -> lo <= Qmin 1 (Qmax lo x) /\ Qmin 1 (Qmax lo x) <= 1.
Proof.
  intro Hlo. split.
  - apply Q.min_glb; [exact Hlo | apply Q.le_max_l].
  - apply Q.le_min_l.
Qed.

End Clamp.

Lemma clamp_mono (lo x y : Q) :
  x <= y -> Qmin 1 (Qmax lo x) <= Qmin 1 (Qmax lo y).
Proof. intro H. apply Q.min_le_compat_l, Q.max_le_compat_l, H. Qed.

(** ** Evidence fusion *)

Lemma clampEvidence_bounds (e : Evidence) :
  0 <= sleepingEvidence (clampEvidence e) <= 1
  /\ 0 <= noddingEvidence (clampEvidence e) <= 1
  /\ 0.05 <= awakeEvidence (clampEvidence e) <= 1.
Proof.
  cbn. repeat split; try apply clamp_bounds; lra.
Qed.

Lemma normalize_distribution (e : Evidence) :
  0 <= sleepingEvidence e <= 1 ->
  0 <= noddingEvidence e <= 1 ->
  0.05 <= awakeEvidence e <= 1 ->
  (0 <= sleepingProb (normalize e) <= 1
   /\ 0 <= noddingProb (normalize e) <= 1
   /\ 0 <= awakeProb (normalize e) <= 1)
  /\ sleepingProb (normalize e) + noddingProb (normalize e)
     + awakeProb (normalize e) == 1.
Proof.
  intros Hs Hn Ha. unfold normalize. cbn.
  set (t := sleepingEvidence e + noddingEvidence e + awakeEvidence e).
  assert (Ht : 0 < t) by (unfold t; lra).
  assert (Hg : (t >? 0) = true) by (apply gt_true; exact Ht).
  rewrite Hg. split; [repeat split|].
  - apply Qle_shift_div_l; lra.
  - apply Qle_shift_div_r; unfold t in *; lra.
  - apply Qle_shift_div_l; lra.
  - apply Qle_shift_div_r; unfold t in *; lra.
  - apply Qle_shift_div_l; lra.
  - apply Qle_shift_div_r; unfold t in *; lra.
  - unfold t. field. unfold t in Ht. lra.
Qed.

(** C1. On every fused frame, whatever the closed-frame counter and the
    tracker signals are, the probabilities obtained by normalising the
    clamped evidence scores each lie in [0,1] and sum to 1 (exactly, in
    the exact-arithmetic reading of the code). *)
Theorem fused_probabilities_normalized (closedFrames : nat) (g : Signals) :
  let p := normalize (fuseEvidence closedFrames g) in
  (0 <= sleepingProb p <= 1
   /\ 0 <= noddingProb p <= 1
   /\ 0 <= awakeProb p <= 1)
  /\ sleepingProb p + noddingProb p + awakeProb p == 1.
Proof.
  cbv zeta. unfold fuseEvidence, evidenceAt.
  apply normalize_distribution; apply clampEvidence_bounds.
Qed.

Lemma closedSecOf_mono (n m : nat) :
  (n <= m)%nat -> closedSecOf n <= closedSecOf m.
Proof.
  intro H. unfold closedSecOf, MIN_CLOSED_FRAMES, FPS, JS.ofNat.
  destruct (Nat.leb_spec 15 n), (Nat.leb_spec 15 m); try lia.
  - apply Qmult_le_compat_r; [|discriminate]. rewrite <- Zle_Qle. lia.
  - apply Qle_shift_div_l; [lra|]. rewrite Qmult_0_l.
    change 0 with (inject_Z 0). rewrite <- Zle_Qle. lia.
  - lra.
Qed.

Lemma overBonus_mono (d1 d2 : Q) : d1 <= d2 -> overBonus d1 <= overBonus d2.
Proof.
  intro H. apply Q.min_le_compat_r.
  apply Qmult_le_compat_r; [|discriminate].
  unfold EYES_CLOSED_SLEEP_SEC. lra.
Qed.

Lemma overBonus_nonneg (d : Q) : 5 <= d -> 0 <= overBonus d.
Proof.
  intro H. apply Q.min_glb; [|lra].
  apply Qle_shift_div_l; [lra|]. unfold EYES_CLOSED_SLEEP_SEC. lra.
Qed.

Lemma signal_sleeping_eq (d : Q) (g : Signals) :
  sleepingEvidence (signalEvidence d g)
  = signalSleeping d (isBackwardTilting (nodState g)).
Proof.
  unfold signalEvidence, signalSleeping, overBonus. cbv zeta.
  destruct (d >=? EYES_CLOSED_SLEEP_SEC), (d >=? EYES_CLOSED_NOD_SEC),
    (d >=? 2.0), (d >=? 1.0), (isBackwardTilting (nodState g)),
    (currentIsLookingAway g && (currentLookAwayDuration g >? 5));
    reflexivity.
Qed.

Lemma signalSleeping_mono (d1 d2 : Q) (t : bool) :
  d1 <= d2 -> signalSleeping d1 t <= signalSleeping d2 t.
Proof.
  intro H. unfold signalSleeping. cbv zeta.
  pose proof (overBonus_mono _ _ H) as Hb.
  pose proof (overBonus_nonneg d2) as Hn.
  unfold EYES_CLOSED_SLEEP_SEC.
  destruct (d1 >=? 5) eqn:A1; [rewrite (ge_mono _ _ _ H A1)|];
  (destruct (d1 >=? 4) eqn:B1; [rewrite (ge_mono _ _ _ H B1)|]);
  destruct t; try lra;
  split_ifs; rewrite ?ge_true in *; try lra.
Qed.

Lemma postureRules_sleeping_mono (d1 d2 : Q) (y l : bool) (p : PostureState)
    (e1 e2 : Evidence) :
  d1 <= d2 ->
  sleepingEvidence e1 <= sleepingEvidence e2 ->
  sleepingEvidence (postureRules d1 y l p e1)
  <= sleepingEvidence (postureRules d2 y l p e2).
Proof.
  intros H He. unfold postureRules. cbv zeta.
  generalize dependent (sleepingEvidence e1). intros s1.
  generalize (sleepingEvidence e2). intros s2 He.
  destruct ((bodyPresence p <? 0.5) && l); cbn [sleepingEvidence];
  (destruct (LeanDirection_eqb (leanDirection p) backward
             && (5000 <? leanDuration p)%Z && (d1 >? 3)) eqn:A1;
   [rewrite (andb_gt_mono _ _ _ _ H A1)|]);
  (destruct (isSlouched p && LeanDirection_eqb (leanDirection p) backward
             && (d1 >? 4)) eqn:B1;
   [rewrite (andb_gt_mono _ _ _ _ H B1)|]);
  split_ifs; lra.
Qed.

Lemma postureEvidence_sleeping_mono (d1 d2 : Q) (g : Signals)
    (e1 e2 : Evidence) :
  d1 <= d2 ->
  sleepingEvidence e1 <= sleepingEvidence e2 ->
  sleepingEvidence (postureEvidence d1 g e1)
  <= sleepingEvidence (postureEvidence d2 g e2).
Proof.
  intros H He. unfold postureEvidence. destruct (postureState g).
  - apply postureRules_sleeping_mono; assumption.
  - exact He.
Qed.

(** C6. With every other signal of the frame fixed, a larger consecutive
    closed-frame counter past the 15-frame blink filter never gives a
    smaller final (clamped) sleeping evidence. *)
Theorem sleeping_evidence_monotone (n m : nat) (g : Signals) :
  (MIN_CLOSED_FRAMES <= n)%nat -> (n <= m)%nat ->
  sleepingEvidence (fuseEvidence n g) <= sleepingEvidence (fuseEvidence m g).
Proof.
  intros _ H. unfold fuseEvidence, evidenceAt, clampEvidence.
  cbn [sleepingEvidence].
  apply clamp_mono, postureEvidence_sleeping_mono.
  - apply closedSecOf_mono, H.
  - rewrite !signal_sleeping_eq. apply signalSleeping_mono, closedSecOf_mono, H.
Qed.

Lemma sleeping_evidence_monotone_witness :
  (MIN_CLOSED_FRAMES <= 100)%nat /\ (100 <= 200)%nat
  /\ sleepingEvidence (fuseEvidence 100 quietSignals)
     <= sleepingEvidence (fuseEvidence 200 quietSignals).
Proof.
  assert (H1 : (MIN_CLOSED_FRAMES <= 100)%nat) by (unfold MIN_CLOSED_FRAMES; lia).
  assert (H2 : (100 <= 200)%nat) by lia.
  exact (conj H1 (conj H2
           (sleeping_evidence_monotone 100 200 quietSignals H1 H2))).
Defined.

Lemma signal_awake_eq (d : Q) (g : Signals) :
  awakeEvidence (signalEvidence d g) = eyeAwake d (awakeBase g).
Proof.
  unfold signalEvidence, eyeAwake, awakeBase. cbv zeta.
  destruct (d >=? EYES_CLOSED_SLEEP_SEC), (d >=? EYES_CLOSED_NOD_SEC),
    (d >=? 2.0), (d >=? 1.0), (isBackwardTilting (nodState g)),
    (currentIsLookingAway g && (currentLookAwayDuration g >? 5));
    reflexivity.
Qed.



Lemma eyeAwake_zero (d a : Q) : 2 <= d -> eyeAwake d a = 0.
Proof.
  intro H. unfold eyeAwake.
  assert (E1 : (d <? 1) = false) by (apply lt_false; lra).
  assert (E2 : (d <? 2.0) = false) by (apply lt_false; lra).
  rewrite E1, E2. destruct (d <? EYES_CLOSED_NOD_SEC); reflexivity.
Qed.









(** With a good posture reading the awake evidence of the same frame is
    0.5: the posture rules add to the accumulator after the closed-eye
    rule has zeroed it. *)
Example good_posture_restores_awake_evidence :
  awakeEvidence
    (fuseEvidence 150
       (mkSignals (mkNodState false false 0 0 0 0 0) false 0 false 0 false
          false
          (Some (mkPostureState true false false 0 0 0 false neutral 0 0.3 1))
          true))
  == 0.5.
Proof. vm_compute. reflexivity. Qed.

(** ** Acknowledgment *)

Lemma resetAlarmState_quiet (s : Session) :
  Ack.quiet (alarms (resetAlarmState s)).
Proof. repeat split. Qed.

Lemma truthy_Some (x : option string) :
  Str.truthy x = true <-> exists v, x = Some v /\ v <> ""%string.
Proof.
  destruct x as [v|]; cbn.
  - rewrite negb_true_iff, String.eqb_neq. split.
    + intro H. exists v. split; [reflexivity | exact H].
    + intros [w [E H]]. injection E as ->. exact H.
  - split; [discriminate | intros [w [E _]]; discriminate E].
Qed.

Lemma differs_false (input : string) (x : option string) :
  differs input x = false <-> x = Some input.
Proof.
  destruct x as [v|]; cbn.
  - rewrite negb_false_iff, String.eqb_eq. split.
    + intros ->. reflexivity.
    + intro E. injection E as ->. reflexivity.
  - split; discriminate.
Qed.

Lemma AttentionState_eqb_eq (a b : AttentionState) :
  AttentionState_eqb a b = true <-> a = b.
Proof. destruct a, b; cbn; split; congruence. Qed.

(** The answer check of [silenceAlarm] accepts exactly the inputs of
    [Ack.matchesTrimmed]. *)
Lemma accepted_iff (a : Alarms) (input : string) :
  match challengeType a with
  | phrase =>
      negb (Str.truthy (alarmPhrase a)) || differs input (alarmPhrase a)
  | math =>
      negb (Str.truthy (challengeAnswer a))
      || differs (Str.trim input) (challengeAnswer a)
  | trivia =>
      negb (Str.truthy (challengeAnswer a))
      || differs (Str.toUpperCase (Str.trim input))
           (option_map Str.toUpperCase (challengeAnswer a))
  end = false
  <-> Ack.matchesTrimmed a input.
Proof.
  unfold Ack.matchesTrimmed.
  destruct (challengeType a);
    rewrite orb_false_iff, negb_false_iff, truthy_Some, differs_false.
  - split.
    + intros [[v [E Hv]] E']. exists v. repeat split; congruence.
    + intros [v [E [Hv ->]]]. split; [exists v; split|]; assumption.
  - split.
    + intros [[v [E Hv]] E']. exists v. repeat split; congruence.
    + intros [v [E [Hv Ht]]]. split; [exists v; split; assumption|].
      congruence.
  - split.
    + intros [[v [E Hv]] E']. exists v. rewrite E in E'. cbn in E'.
      repeat split; congruence.
    + intros [v [E [Hv Ht]]]. split; [exists v; split; assumption|].
      rewrite E. cbn. congruence.
Qed.




(** The two examples of the specification. *)
Example phrase_is_case_sensitive :
  fst (silenceAlarm "focus-alert-energy-123"
         (Ack.challenged phrase (Some "FOCUS-ALERT-ENERGY-123"%string) None
            awake)) = false
  /\ fst (silenceAlarm "FOCUS-ALERT-ENERGY-123"
            (Ack.challenged phrase (Some "FOCUS-ALERT-ENERGY-123"%string) None
               awake)) = true.
Proof. split; reflexivity. Qed.

Example trivia_is_case_insensitive :
  fst (silenceAlarm "paris"
         (Ack.challenged trivia None (Some "Paris"%string) awake)) = true
  /\ fst (silenceAlarm "paris"
            (Ack.challenged trivia None (Some "Paris"%string) sleeping))
     = false.
Proof. split; reflexivity. Qed.

(** C10. When no acknowledgment is required, [silenceAlarm] returns true
    for every input, without looking at the fused state or at a challenge
    answer, and clears the active alarms, the alarm phrase and the
    challenge. *)
Theorem silenceAlarm_without_ack (input : string) (s : Session) :
  requireAck (alarms s) = false ->
  fst (silenceAlarm input s) = true
  /\ snd (silenceAlarm input s) = resetAlarmState s
  /\ activeAlarms (alarms (snd (silenceAlarm input s))) = []
  /\ alarmPhrase (alarms (snd (silenceAlarm input s))) = None
  /\ challengeType (alarms (snd (silenceAlarm input s))) = phrase
  /\ challengePrompt (alarms (snd (silenceAlarm input s))) = None
  /\ challengeAnswer (alarms (snd (silenceAlarm input s))) = None.
Proof.
  intro Hack. unfold silenceAlarm. cbv zeta. rewrite Hack. cbn [negb fst snd].
  repeat split.
Qed.

Lemma silenceAlarm_without_ack_witness :
  let s :=
    setLatestState sleeping
      (updateRequireAck false
         (Ack.challenged trivia None (Some "Paris"%string) sleeping)) in
  requireAck (alarms s) = false
  /\ fst (silenceAlarm "anything" s) = true
  /\ snd (silenceAlarm "anything" s) = resetAlarmState s
  /\ activeAlarms (alarms (snd (silenceAlarm "anything" s))) = []
  /\ alarmPhrase (alarms (snd (silenceAlarm "anything" s))) = None
  /\ challengeType (alarms (snd (silenceAlarm "anything" s))) = phrase
  /\ challengePrompt (alarms (snd (silenceAlarm "anything" s))) = None
  /\ challengeAnswer (alarms (snd (silenceAlarm "anything" s))) = None.
Proof.
  cbv zeta.
  exact (conj eq_refl
           (silenceAlarm_without_ack "anything"
              (setLatestState sleeping
                 (updateRequireAck false
                    (Ack.challenged trivia None (Some "Paris"%string)
                       sleeping))) eq_refl)).
Defined.

(** ** Head-nod detector *)











(** The flag reported to the fusion engine is the bare windowed test: with
    the window at 8 degrees (between the threshold minus its margin and
    the threshold) the frame reports no forward nod, while the flag with
    hysteresis stays up. *)
Example reported_nod_flag_is_windowed_test :
  let r :=
    HeadNodDetector.update (HeadNodDetector.mk [8] 1 true false) 8
      HEAD_PITCH_THRESHOLD HEAD_PITCH_BACK_THRESHOLD in
  isForwardNodding (snd r) = false
  /\ HeadNodDetector.wasForward (fst r) = true.
Proof. split; reflexivity. Qed.

(** ** Yawn detector *)

Lemma yawnCount_never_decreases (d : YawnDetector.t) (mar : Q) (now : Z) :
  (YawnDetector.yawnCount d
   <= YawnDetector.yawnCount (fst (YawnDetector.update d mar now)))%nat
  /\ YawnDetector.yawnCountOut (snd (YawnDetector.update d mar now))
     = YawnDetector.yawnCount (fst (YawnDetector.update d mar now)).
Proof.
  unfold YawnDetector.update. cbv zeta.
  repeat match goal with
  | |- context [if ?c then _ else _] => destruct c
  end; cbn; split; lia.
Qed.

(** C9 fails on the code.  After two one-second yawns the detector is fed
    a frame 66 seconds after the second yawn ended: no yawn is left in the
    rolling 60-second window ([yawnTimes] is empty), yet the count it
    reports is 2 and the drowsy-yawning criterion holds. *)
Theorem yawn_rate_ignores_window :
  let r := runYawns Samples.twoYawnsThenRest in
  YawnDetector.yawnTimes (fst r) = []
  /\ YawnDetector.yawnCountOut (snd r) = 2%nat
  /\ isDrowsyYawnRate (YawnDetector.yawnCountOut (snd r)) = true.
Proof. cbv zeta. repeat split; vm_compute; reflexivity. Qed.

(** ** Random draws *)

Lemma bind_Some {A B : Type} (m : Rand A) (k : A -> Rand B) (d : list Q)
    (b : B) (d' : list Q) :
  bind m k d = Some (b, d') ->
  exists a d1, m d = Some (a, d1) /\ k a d1 = Some (b, d').
Proof.
  unfold bind. destruct (m d) as [[a d1]|]; [|discriminate].
  intro H. exists a, d1. split; [reflexivity | exact H].
Qed.

Lemma ret_Some {A : Type} (a b : A) (d d' : list Q) :
  ret a d = Some (b, d') -> b = a /\ d' = d.
Proof. unfold ret. intro H. injection H as <- <-. split; reflexivity. Qed.

Lemma floorIndex_lt (r : Q) (n : nat) :
  unitDraw r -> (0 < n)%nat -> (floorIndex (r * JS.ofNat n) < n)%nat.
Proof.
  intros [H0 H1] Hn. unfold floorIndex, JS.ofNat.
  assert (Hlt : r * inject_Z (Z.of_nat n) < inject_Z (Z.of_nat n)).
  { rewrite <- (Qmult_1_l (inject_Z (Z.of_nat n))) at 2.
    apply Qmult_lt_compat_r; [|exact H1].
    change 0 with (inject_Z 0). rewrite <- Zlt_Qlt. lia. }
  assert (Hge : 0 <= r * inject_Z (Z.of_nat n)).
  { apply Qmult_le_0_compat; [exact H0|].
    change 0 with (inject_Z 0). rewrite <- Zle_Qle. lia. }
  pose proof (Qfloor_le (r * inject_Z (Z.of_nat n))) as Hf.
  assert (Hfl : (Qfloor (r * inject_Z (Z.of_nat n)) < Z.of_nat n)%Z).
  { rewrite Zlt_Qlt. eapply Qle_lt_trans; eassumption. }
  assert (Hf0 : (0 <= Qfloor (r * inject_Z (Z.of_nat n)))%Z).
  { change 0%Z with (Qfloor 0). apply Qfloor_resp_le, Hge. }
  lia.
Qed.

Lemma createChallenge_math_total (r1 r2 r3 : Q) (d : list Q) :
  exists c,
    Challenge.createChallenge (Some math) (r1 :: r2 :: r3 :: d) = Some (c, d)
    /\ Challenge.type c = math.
Proof.
  unfold Challenge.createChallenge, Challenge.generateMathChallenge, bind, ret,
    random.
  eexists. split; reflexivity.
Qed.

Lemma createChallenge_trivia_total (r : Q) (d : list Q) :
  unitDraw r ->
  exists c,
    Challenge.createChallenge (Some trivia) (r :: d) = Some (c, d)
    /\ Challenge.type c = trivia.
Proof.
  intro Hr.
  unfold Challenge.createChallenge, Challenge.generateTriviaChallenge, bind,
    ret, random, defined.
  pose proof (floorIndex_lt r (List.length Challenge.TRIVIA_BANK) Hr) as Hi.
  destruct (nth_error Challenge.TRIVIA_BANK
              (floorIndex (r * JS.ofNat (List.length Challenge.TRIVIA_BANK))))
    eqn:E.
  - eexists. split; reflexivity.
  - apply nth_error_None in E.
    cbn [List.length Challenge.TRIVIA_BANK] in *. lia.
Qed.

Lemma assignNewChallenge_math (s : Session) (r1 r2 r3 : Q) (d : list Q) :
  exists pr an,
    assignNewChallenge (Some math) s (r1 :: r2 :: r3 :: d)
    = Some ((math, updateChallenge math pr an (updateAlarmPhrase None s)), d).
Proof.
  destruct (createChallenge_math_total r1 r2 r3 d) as (c & Hc & Hty).
  unfold assignNewChallenge, bind. rewrite Hc, Hty. do 2 eexists. reflexivity.
Qed.

Lemma assignNewChallenge_trivia (s : Session) (r : Q) (d : list Q) :
  unitDraw r ->
  exists pr an,
    assignNewChallenge (Some trivia) s (r :: d)
    = Some ((trivia, updateChallenge trivia pr an (updateAlarmPhrase None s)),
            d).
Proof.
  intro Hr. destruct (createChallenge_trivia_total r d Hr) as (c & Hc & Hty).
  unfold assignNewChallenge, bind. rewrite Hc, Hty. do 2 eexists. reflexivity.
Qed.

(** ** Operations that leave the absence and calibration state alone *)

Lemma assignNewChallenge_setup (p : option ChallengeType) (s : Session)
    (d : list Q) (r : ChallengeType * Session) (d' : list Q) :
  assignNewChallenge p s d = Some (r, d') -> sameSetup s (snd r).
Proof.
  unfold assignNewChallenge. intro H.
  apply bind_Some in H as (c & d1 & _ & H).
  destruct (Challenge.type c);
    [destruct (Str.truthy (Challenge.phraseOf c))|..];
    apply ret_Some in H as [-> _]; split; reflexivity.
Qed.

(** Inversion of a successful run of a [Rand] computation. *)
Ltac rand_inv :=
  repeat match goal with
  | H : bind _ _ _ = Some _ |- _ => apply bind_Some in H as (? & ? & ? & ?)
  | H : ret _ _ = Some _ |- _ => apply ret_Some in H as [? ?]; subst
  | H : (if ?c then _ else _) _ = Some _ |- _ => destruct c
  | H : assignNewChallenge _ _ _ = Some _ |- _ =>
      apply assignNewChallenge_setup in H
  | H : mathOrTrivia _ = Some _ |- _ => clear H
  end.

Ltac setup_done :=
  unfold sameSetup in *;
  repeat match goal with
  | |- context [if ?c then _ else _] => destruct c
  | H : context [if ?c then _ else _] |- _ => destruct c
  end;
  cbn in *; intuition congruence.

Lemma missingFace_setup (now : Z) (sec : Q) (s : Session) (d : list Q)
    (s' : Session) (d' : list Q) :
  missingFace now sec s d = Some (s', d') -> sameSetup s s'.
Proof.
  unfold missingFace. cbv zeta. intro H.
  destruct (sec >=? EYES_CLOSED_SLEEP_SEC);
    [|destruct (negb true && (sec >=? EYES_CLOSED_NOD_SEC))].
  all: rand_inv; setup_done.
Qed.

Lemma escalateAlarmed_setup (now : Z) (best : AttentionState) (s : Session)
    (d : list Q) (s' : Session) (d' : list Q) :
  escalateAlarmed now best s d = Some (s', d') -> sameSetup s s'.
Proof.
  unfold escalateAlarmed. cbv zeta. intro H. rand_inv; setup_done.
Qed.

Lemma warnThenAlarm_setup (now : Z) (best : AttentionState) (msg : string)
    (pr : Priority) (s : Session) (d : list Q) (s' : Session) (d' : list Q) :
  warnThenAlarm now best msg pr s d = Some (s', d') -> sameSetup s s'.
Proof.
  unfold warnThenAlarm. cbv zeta. intro H. rand_inv; setup_done.
Qed.

Lemma escalateRisk_setup (now : Z) (best : AttentionState)
    (w : option (string * Priority)) (s : Session) (d : list Q)
    (s' : Session) (d' : list Q) :
  escalateRisk now best w s d = Some (s', d') -> sameSetup s s'.
Proof.
  unfold escalateRisk. intro H. destruct w as [[msg pr]|].
  - destruct (negb (requireAck (alarms s))).
    + eapply warnThenAlarm_setup, H.
    + eapply escalateAlarmed_setup, H.
  - destruct (requireAck (alarms s)).
    + eapply escalateAlarmed_setup, H.
    + apply ret_Some in H as [-> _]. split; reflexivity.
Qed.

Lemma settleAwake_setup (s : Session) : sameSetup s (settleAwake s).
Proof. unfold settleAwake. cbv zeta. setup_done. Qed.

Lemma detectorEffect_setup (s : Session) : sameSetup s (detectorEffect s).
Proof. unfold detectorEffect. setup_done. Qed.

Lemma updateTrackers_setup (now : Z) (f : FaceLandmarks)
    (b : CalibrationBaselines) (s : Session) :
  sameSetup s (snd (updateTrackers now f b s)).
Proof. split; reflexivity. Qed.

Lemma fuseFrame_setup (now : Z) (f : FaceLandmarks) (b : CalibrationBaselines)
    (s : Session) (d : list Q) (s' : Session) (d' : list Q) :
  fuseFrame now f b s d = Some (s', d') -> sameSetup s s'.
Proof.
  unfold fuseFrame. cbv zeta. intro H.
  pose proof (updateTrackers_setup now f b s) as Ht.
  destruct (updateTrackers now f b s) as [signals s1]. cbn [snd] in Ht.
  match type of H with
  | context [classify ?x] => destruct (classify x) as [best conf]
  end.
  apply bind_Some in H as (s2 & d2 & H2 & H). apply ret_Some in H as [-> _].
  assert (H12 : sameSetup s1 s2).
  { match type of H2 with
    | (if ?c then _ else _) _ = _ => destruct c
    end.
    - apply escalateRisk_setup in H2.
      match type of H2 with
      | context [if ?c then _ else _] => destruct c
      end; setup_done.
    - apply ret_Some in H2 as [-> _].
      match goal with
      | |- sameSetup _ (settleAwake ?x) => pose proof (settleAwake_setup x)
      end.
      match goal with
      | |- context [if ?c then _ else _] => destruct c
      end; setup_done. }
  match goal with
  | |- context [if ?c then _ else _] => destruct c
  end; setup_done.
Qed.

Lemma collectCalibration_absence (now : Z) (f : FaceLandmarks) (s : Session) :
  absence (snd (collectCalibration now f s)) = absence s.
Proof.
  unfold collectCalibration. cbv zeta.
  repeat match goal with
  | |- context [if ?c then _ else _] => destruct c
  end;
  repeat match goal with
  | |- context [match ?c with _ => _ end] => destruct c
  end;
  reflexivity.
Qed.

Lemma calibrationLost_armed (s : Session) :
  armed (calibrationLost s) = armed s.
Proof.
  unfold calibrationLost, armed. cbv zeta.
  match goal with
  | |- context [if ?c then _ else _] => destruct c
  end; reflexivity.
Qed.

(** ** Absence alarm *)

Lemma five_seconds (ms : Z) :
  (JS.ofZ ms / 1000 >=? 5) = true <-> (5000 <= ms)%Z.
Proof.
  rewrite ge_true. unfold JS.ofZ.
  assert (E : inject_Z ms / 1000 * 1000 == inject_Z ms) by field.
  rewrite Zle_Qle. change (inject_Z 5000) with 5000. split; intro H; lra.
Qed.

Lemma getAlarmBatch_length (c : AlarmCursor) (ty : AlarmTier) (n : nat)
    (now : Z) :
  List.length (fst (getAlarmBatch c ty n now)) = n.
Proof.
  unfold getAlarmBatch. cbn [fst]. rewrite length_map, length_seq. reflexivity.
Qed.

Lemma library_length (ty : AlarmTier) :
  List.length (AlarmLibrary.source ty) = 40%nat.
Proof. destruct ty; reflexivity.
Qed.

Lemma getAlarmBatch_fromLibrary (c : AlarmCursor) (ty : AlarmTier) (n : nat)
    (now : Z) :
  Forall (fromLibrary ty now) (fst (getAlarmBatch c ty n now)).
Proof.
  unfold getAlarmBatch. cbn [fst]. apply Forall_forall. intros a Ha.
  apply in_map_iff in Ha as (i & <- & _).
  eexists. split; [|reflexivity]. apply nth_In.
  rewrite library_length. apply Nat.mod_upper_bound. discriminate.
Qed.

Lemma sleeping_library_critical :
  Forall (fun def => defLevel def = critical)
    (AlarmLibrary.source sleepingTier).
Proof. repeat constructor.
Qed.

Lemma absenceAlarm_total (now : Z) (s : Session) (draws : list Q) :
  Forall unitDraw draws -> (4 <= List.length draws)%nat ->
  exists ty pr an rest,
    (ty = math \/ ty = trivia)
    /\ absenceAlarm now s draws
       = Some ((AbsenceAlarm, absenceAlarmed now ty pr an s), rest).
Proof.
  intros Hu Hl.
  destruct draws as [|r0 [|r1 [|r2 [|r3 rest]]]]; cbn [List.length] in Hl;
    try lia.
  unfold absenceAlarm, mathOrTrivia. unfold bind at 1 2.
  unfold random, ret at 1.
  destruct (r0 <? 0.5).
  - set (s1 := emit _ _).
    destruct (assignNewChallenge_math s1 r1 r2 r3 rest) as (pr & an & E).
    unfold bind. rewrite E. exists math, pr, an, rest.
    split; [left; reflexivity | reflexivity].
  - set (s1 := emit _ _).
    assert (Hr1 : unitDraw r1)
      by (inversion Hu as [|? ? _ Hu']; inversion Hu'; assumption).
    destruct (assignNewChallenge_trivia s1 r1 (r2 :: r3 :: rest) Hr1)
      as (pr & an & E).
    unfold bind. rewrite E. exists trivia, pr, an, (r2 :: r3 :: rest).
    split; [right; reflexivity | reflexivity].
Qed.

Lemma absenceAlarm_setup (now : Z) (s : Session) (d : list Q)
    (r : Outcome * Session) (d' : list Q) :
  absenceAlarm now s d = Some (r, d') ->
  fst r = AbsenceAlarm /\ sameSetup s (snd r).
Proof.
  unfold absenceAlarm. cbv zeta. intro H. rand_inv.
  split; [reflexivity|]. setup_done.
Qed.

(** A frame without a face keeps the armed flag, and ends in the absence
    alarm only if the alarm is armed, no acknowledgment is outstanding and
    the absence started at least 5000 ms ago. *)
Lemma handleNoFace_absence (now : Z) (s : Session) (d : list Q)
    (r : Outcome * Session) (d' : list Q) :
  handleNoFace now s d = Some (r, d') ->
  armed (snd r) = armed s
  /\ (fst r = AbsenceAlarm ->
      armed s = true
      /\ requireAck (alarms s) = false
      /\ exists t0,
           absentStartTime (absence s) = Some t0 /\ (5000 <= now - t0)%Z).
Proof.
  unfold handleNoFace. cbv zeta. intro H.
  cbn [absence alarms requireAck isAbsenceAlarmArmed absentStartTime
       setMissingFaceFrames setAbsentStartTime setAbsentCountdown setAbsence]
    in H.
  destruct (isAbsenceAlarmArmed (absence s)) eqn:Harm.
  - match type of H with
    | (if ?c then _ else _) _ = _ => destruct c eqn:Hfire
    end.
    + apply absenceAlarm_setup in H as [Ho [Ha _]]. unfold armed.
      split; [rewrite Ha; reflexivity|]. intros _.
      apply andb_true_iff in Hfire as [Hdur Hack].
      apply five_seconds in Hdur. apply negb_true_iff in Hack.
      split; [exact Harm|]. split; [exact Hack|].
      destruct (absentStartTime (absence s)) as [t0|]; cbn [JS.orElse] in Hdur.
      * exists t0. split; [reflexivity | exact Hdur].
      * lia.
    + match type of H with
      | (if ?c then _ else _) _ = _ => destruct c
      end.
      * apply ret_Some in H as [-> _]. cbn [fst snd].
        rewrite calibrationLost_armed. split; [reflexivity | discriminate].
      * apply bind_Some in H as (s1 & d1 & H1 & H).
        apply ret_Some in H as [-> _].
        apply missingFace_setup in H1 as [Ha _]. cbn [fst snd]. unfold armed.
        split; [rewrite Ha; reflexivity | discriminate].
  - match type of H with
    | (if ?c then _ else _) _ = _ => destruct c
    end.
    + apply ret_Some in H as [-> _]. cbn [fst snd].
      rewrite calibrationLost_armed. split; [reflexivity | discriminate].
    + apply bind_Some in H as (s1 & d1 & H1 & H).
      apply ret_Some in H as [-> _].
      apply missingFace_setup in H1 as [Ha _]. cbn [fst snd]. unfold armed.
      split; [rewrite Ha; reflexivity | discriminate].
Qed.

Lemma acknowledgment_blocks_absence_alarm (now : Z) (s : Session)
    (d : list Q) (r : Outcome * Session) (d' : list Q) :
  requireAck (alarms s) = true ->
  handleLandmarks now None s d = Some (r, d') -> fst r <> AbsenceAlarm.
Proof.
  intros Hack H Hc. unfold handleLandmarks in H.
  apply handleNoFace_absence in H as [_ H]. apply H in Hc as (_ & Hr & _).
  cbn [requireAck alarms setLandmarks] in Hr. congruence.
Qed.

Lemma absence_alarm_fires (now t0 : Z) (s : Session) (draws : list Q) :
  armed s = true ->
  requireAck (alarms s) = false ->
  absentStartTime (absence s) = Some t0 ->
  (5000 <= now - t0)%Z ->
  Forall unitDraw draws -> (4 <= List.length draws)%nat ->
  exists ty pr an rest,
    (ty = math \/ ty = trivia)
    /\ handleLandmarks now None s draws
       = Some ((AbsenceAlarm,
                absenceAlarmed now ty pr an
                  (setAbsentCountdown
                     (Some (Qmax 0 (5 - JS.ofZ (now - t0) / 1000)))
                     (setAbsentStartTime (Some t0)
                        (setMissingFaceFrames
                           (S (missingFaceFrames (absence s)))
                           (setLandmarks false s))))),
               rest).
Proof.
  intros Harm Hack Hstart Hdur Hu Hl. unfold armed in Harm.
  unfold handleLandmarks, handleNoFace. cbv zeta.
  cbn [absence setMissingFaceFrames setLandmarks setAbsence
       isAbsenceAlarmArmed absentStartTime setAbsentStartTime
       setAbsentCountdown alarms requireAck missingFaceFrames].
  rewrite Harm, Hstart, Hack. cbn [JS.orElse negb andb].
  assert (E : (JS.ofZ (now - t0) / 1000 >=? 5) = true)
    by (apply five_seconds, Hdur).
  rewrite E. cbn [andb].
  match goal with
  | |- context [absenceAlarm now ?x draws] => set (s1 := x)
  end.
  destruct (absenceAlarm_total now s1 draws Hu Hl)
    as (ty & pr & an & rest & Hty & Ha).
  exists ty, pr, an, rest. split; [exact Hty | exact Ha].
Qed.

(** C3. If the absence alarm is armed, no acknowledgment is outstanding
    and the current run of frames without a face started at least 5000 ms
    ago, then the frame handler, given the random draws the challenge
    needs, forces state sleeping with confidence 0.99 and replaces the
    active alarms by one batch of 5 alarms of the sleeping tier (critical
    level, stamped with the frame's time), plays one critical alert and
    requires an acknowledgment with a math or trivia challenge; while
    that acknowledgment is outstanding no later frame raises the absence
    alarm again. *)
Theorem absence_alarm_after_five_seconds (now t0 : Z) (s : Session)
    (draws : list Q) :
  armed s = true ->
  requireAck (alarms s) = false ->
  absentStartTime (absence s) = Some t0 ->
  (5000 <= now - t0)%Z ->
  Forall unitDraw draws -> (4 <= List.length draws)%nat ->
  exists s' rest,
    handleLandmarks now None s draws = Some ((AbsenceAlarm, s'), rest)
    /\ state s' = sleeping
    /\ confidence s' = 0.99
    /\ activeAlarms (alarms s')
       = fst (getAlarmBatch (alarmCursor (alarms s)) sleepingTier 5 now)
    /\ List.length (activeAlarms (alarms s')) = 5%nat
    /\ Forall (fun a => fromLibrary sleepingTier now a /\ level a = critical)
         (activeAlarms (alarms s'))
    /\ requireAck (alarms s') = true
    /\ (challengeType (alarms s') = math
        \/ challengeType (alarms s') = trivia)
    /\ effects s' = effects s ++ [PlayDrowsinessAlert true]
    /\ (forall now' draws' r' rest',
          handleLandmarks now' None s' draws' = Some (r', rest') ->
          fst r' <> AbsenceAlarm).
Proof.
  intros Harm Hack Hstart Hdur Hu Hl.
  destruct (absence_alarm_fires now t0 s draws Harm Hack Hstart Hdur Hu Hl)
    as (ty & pr & an & rest & Hty & Hrun).
  match type of Hrun with
  | _ = Some ((_, ?x), _) => set (s' := x) in *
  end.
  assert (Hbatch : activeAlarms (alarms s')
                   = fst (getAlarmBatch (alarmCursor (alarms s)) sleepingTier
                            5 now)) by reflexivity.
  assert (Hreq : requireAck (alarms s') = true) by reflexivity.
  exists s', rest.
  split; [exact Hrun|].
  split; [reflexivity|]. split; [reflexivity|].
  split; [exact Hbatch|].
  split; [rewrite Hbatch; apply getAlarmBatch_length|].
  split.
  { rewrite Hbatch.
    pose proof (getAlarmBatch_fromLibrary (alarmCursor (alarms s))
                  sleepingTier 5 now) as Hf.
    eapply Forall_impl; [|exact Hf]. intros a Hfa. split; [exact Hfa|].
    destruct Hfa as (def & Hin & ->). cbn [level].
    pose proof sleeping_library_critical as Hc.
    rewrite Forall_forall in Hc. apply Hc, Hin. }
  split; [exact Hreq|].
  split; [destruct Hty as [-> | ->]; [left | right]; reflexivity|].
  split; [reflexivity|].
  intros now' draws' r' rest' H'.
  exact (acknowledgment_blocks_absence_alarm now' s' draws' r' rest' Hreq H').
Qed.

(** The face is lost at 10000 ms on a calibrated session and is still
    missing at 15000 ms. *)
Lemma absence_alarm_after_five_seconds_witness :
  armed Samples.faceJustLost = true
  /\ requireAck (alarms Samples.faceJustLost) = false
  /\ absentStartTime (absence Samples.faceJustLost) = Some 10000%Z
  /\ exists s' rest,
       handleLandmarks 15000 None Samples.faceJustLost Samples.fourDraws
       = Some ((AbsenceAlarm, s'), rest)
       /\ state s' = sleeping
       /\ confidence s' = 0.99
       /\ List.length (activeAlarms (alarms s')) = 5%nat.
Proof.
  assert (H1 : armed Samples.faceJustLost = true)
    by (vm_compute; reflexivity).
  assert (H2 : requireAck (alarms Samples.faceJustLost) = false)
    by (vm_compute; reflexivity).
  assert (H3 : absentStartTime (absence Samples.faceJustLost)
               = Some 10000%Z) by (vm_compute; reflexivity).
  assert (H4 : (5000 <= 15000 - 10000)%Z) by lia.
  assert (H5 : Forall unitDraw Samples.fourDraws)
    by (repeat constructor; unfold unitDraw; lra).
  assert (H6 : (4 <= List.length Samples.fourDraws)%nat) by (cbn; lia).
  destruct (absence_alarm_after_five_seconds 15000 10000 Samples.faceJustLost
              Samples.fourDraws H1 H2 H3 H4 H5 H6)
    as (s' & rest & Hrun & Hst & Hconf & _ & Hlen & _).
  exact (conj H1 (conj H2 (conj H3
           (ex_intro _ s' (ex_intro _ rest
              (conj Hrun (conj Hst (conj Hconf Hlen)))))))).
Defined.

(** ** Disarming the absence alarm *)

Lemma handleFace_armed (now : Z) (f : FaceLandmarks) (s : Session)
    (d : list Q) (r : Outcome * Session) (d' : list Q) :
  handleFace now f s d = Some (r, d') ->
  armed (snd r) = armed s /\ fst r <> AbsenceAlarm.
Proof.
  unfold handleFace. cbv zeta. intro H.
  set (s0 := setAbsentCountdown None
               (setAbsentStartTime None (setMissingFaceFrames 0 s))) in *.
  assert (H0 : armed s0 = armed s) by reflexivity.
  assert (Hc : armed (snd (collectCalibration now f s0)) = armed s0)
    by (unfold armed; rewrite collectCalibration_absence; reflexivity).
  assert (Hgen : forall proceed s1, armed s1 = armed s ->
            (if negb proceed then ret (StillCalibrating, s1)
             else
               match
                 match baselines (calibration s) with
                 | Some b => Some b
                 | None =>
                     if negb (collecting (calibration s1))
                     then Some (mkBaselines (pitchAngleRaw f) (currentEar f)
                                  (tiltAngleRaw f) (currentFaceWidth f))
                     else None
                 end
               with
               | None => ret (NoBaselines, setConfidence 0.2 s1)
               | Some activeBaselines =>
                   s2 <- fuseFrame now f activeBaselines s1 ;;
                   ret (Fused, s2)
               end) d = Some (r, d') ->
            armed (snd r) = armed s /\ fst r <> AbsenceAlarm).
  { intros proceed s1 H1 E. destruct proceed; cbn [negb] in E.
    - match type of E with
      | match ?x with _ => _ end _ = _ => destruct x as [b|]
      end.
      + apply bind_Some in E as (s2 & d2 & E2 & E).
        apply ret_Some in E as [-> _].
        apply fuseFrame_setup in E2 as [Ea _]. cbn [fst snd].
        unfold armed in *. split; [congruence | discriminate].
      + apply ret_Some in E as [-> _]. cbn [fst snd].
        split; [exact H1 | discriminate].
    - apply ret_Some in E as [-> _]. cbn [fst snd].
      split; [exact H1 | discriminate]. }
  destruct (collecting (calibration s0)).
  - destruct (collectCalibration now f s0) as [proceed s1]. cbn [snd] in Hc.
    apply (Hgen proceed s1); [congruence | exact H].
  - apply (Hgen true s0); [exact H0 | exact H].
Qed.

Lemma handleLandmarks_armed (now : Z) (lm : option FaceLandmarks)
    (s : Session) (d : list Q) (r : Outcome * Session) (d' : list Q) :
  handleLandmarks now lm s d = Some (r, d') ->
  armed (snd r) = armed s /\ (fst r = AbsenceAlarm -> armed s = true).
Proof.
  unfold handleLandmarks. cbv zeta. intro H. destruct lm as [f|].
  - apply bind_Some in H as (r1 & d1 & H1 & H). apply ret_Some in H as [-> _].
    apply handleFace_armed in H1 as [Ha Ho]. cbn [fst snd].
    split; [|intro; contradiction].
    match goal with
    | |- context [if ?c then _ else _] => destruct c
    end.
    + destruct (detectorEffect_setup (snd r1)) as [Hd _].
      unfold armed in *. rewrite Hd. exact Ha.
    + exact Ha.
  - apply handleNoFace_absence in H as [Ha Ho].
    split; [exact Ha | intro Hc; apply Ho, Hc].
Qed.

Lemma activationEffect_armed (a : bool) (s : Session) :
  armed (activationEffect a s) = armed s.
Proof.
  unfold activationEffect, armed. cbv zeta.
  match goal with
  | |- context [detectorEffect ?x] =>
      destruct (detectorEffect_setup x) as [-> _]
  end.
  destruct a; reflexivity.
Qed.

Lemma silenceAlarm_armed (input : string) (s : Session) :
  armed (snd (silenceAlarm input s)) = armed s.
Proof.
  unfold silenceAlarm. cbv zeta.
  repeat match goal with
  | |- context [if ?c then _ else _] => destruct c
  end; reflexivity.
Qed.

Lemma disarmAbsenceAlarm_armed (s : Session) :
  armed (disarmAbsenceAlarm s) = false.
Proof.
  unfold disarmAbsenceAlarm. cbv zeta.
  destruct (isAbsenceAlarmArmed (absence s)).
  - unfold armed.
    match goal with
    | |- context [detectorEffect ?x] =>
        destruct (detectorEffect_setup x) as [-> _]
    end.
    reflexivity.
  - reflexivity.
Qed.

Lemma triggerDebugAlarm_armed (p : option ChallengeType) (now : Z)
    (s : Session) (d : list Q) (s' : Session) (d' : list Q) :
  triggerDebugAlarm p now s d = Some (s', d') -> armed s' = armed s.
Proof.
  unfold triggerDebugAlarm. cbv zeta. intro H.
  apply bind_Some in H as (r & d1 & H1 & H). apply ret_Some in H as [-> _].
  apply assignNewChallenge_setup in H1 as [Ha _]. unfold armed.
  destruct (fst r); cbn; rewrite Ha; reflexivity.
Qed.

(** No event arms the absence alarm, and no event ends in the absence
    alarm while it is disarmed. *)
Lemma step_disarmed (s : Session) (e : Event) (o : option Outcome)
    (s' : Session) :
  armed s = false -> step s e = Some (o, s') ->
  armed s' = false /\ o <> Some AbsenceAlarm.
Proof.
  intros Hs H. destruct e; cbn [step] in H.
  - injection H as <- <-. rewrite activationEffect_armed.
    split; [exact Hs | discriminate].
  - destruct (Bool.eqb active (isActive s)); injection H as <- <-;
      rewrite ?activationEffect_armed; (split; [exact Hs | discriminate]).
  - destruct (isActive s).
    + destruct (handleLandmarks now detectedLandmarks s draws)
        as [[r rest]|] eqn:E; [|discriminate].
      injection H as <- <-. apply handleLandmarks_armed in E as [Ha Ho].
      split; [congruence|]. intro Hc. injection Hc as Hc.
      apply Ho in Hc. congruence.
    + injection H as <- <-. split; [exact Hs | discriminate].
  - destruct (isActive s); injection H as <- <-;
      (split; [exact Hs | discriminate]).
  - injection H as <- <-. rewrite silenceAlarm_armed.
    split; [exact Hs | discriminate].
  - injection H as <- <-. rewrite disarmAbsenceAlarm_armed.
    split; [reflexivity | discriminate].
  - destruct (triggerDebugAlarm preferred now s draws)
      as [[s1 rest]|] eqn:E; [|discriminate].
    injection H as <- <-. apply triggerDebugAlarm_armed in E.
    split; [congruence | discriminate].
Qed.

(** C4. After [disarmAbsenceAlarm], whatever events follow in the life of
    the hook (frames with or without a face, however long the absences,
    pose frames, acknowledgments, debug alarms, stopping and restarting
    the session), no landmark frame ends in the absence-countdown alarm,
    and the absence alarm is still disarmed at the end. *)
Theorem disarmed_absence_alarm_never_fires (s : Session) (events : list Event)
    (outcomes : list Outcome) (s' : Session) :
  run (disarmAbsenceAlarm s) events = Some (outcomes, s') ->
  ~ In AbsenceAlarm outcomes /\ armed s' = false.
Proof.
  pose proof (disarmAbsenceAlarm_armed s) as H0.
  generalize dependent (disarmAbsenceAlarm s). clear s. intros s H0.
  revert s H0 outcomes. induction events as [|e events IH];
    intros s H0 outcomes H.
  - cbn in H. injection H as <- <-. split; [intros [] | exact H0].
  - cbn [run] in H. destruct (step s e) as [[o s1]|] eqn:E; [|discriminate].
    destruct (run s1 events) as [[os s2]|] eqn:E2; [|discriminate].
    injection H as <- <-.
    destruct (step_disarmed _ _ _ _ H0 E) as [H1 Ho].
    destruct (IH s1 H1 os E2) as [Hn Hf]. split; [|exact Hf].
    destruct o as [x|]; [|exact Hn].
    intros [-> | Hin]; [apply Ho; reflexivity | exact (Hn Hin)].
Qed.

(** The long absences of [Samples.longAbsences] on a calibrated session:
    once disarmed, the run goes through without an absence alarm. *)
Lemma disarmed_absence_alarm_never_fires_witness :
  exists outcomes s',
    run (disarmAbsenceAlarm Samples.calibrated) Samples.longAbsences
    = Some (outcomes, s')
    /\ List.length outcomes = 6%nat
    /\ ~ In AbsenceAlarm outcomes /\ armed s' = false.
Proof.
  destruct (run (disarmAbsenceAlarm Samples.calibrated) Samples.longAbsences)
    as [[outcomes s']|] eqn:E.
  - exists outcomes, s'. split; [reflexivity|].
    split.
    + assert (El : option_map (fun r => List.length (fst r))
                     (run (disarmAbsenceAlarm Samples.calibrated)
                        Samples.longAbsences) = Some 6%nat)
        by (vm_compute; reflexivity).
      rewrite E in El. cbn in El. injection El as El. exact El.
    + exact (disarmed_absence_alarm_never_fires Samples.calibrated
               Samples.longAbsences outcomes s' E).
  - exfalso.
    assert (El : option_map (fun r => List.length (fst r))
                   (run (disarmAbsenceAlarm Samples.calibrated)
                      Samples.longAbsences) = Some 6%nat)
      by (vm_compute; reflexivity).
    rewrite E in El. discriminate El.
Defined.

(** The same absences with the alarm still armed: the second frame, 6 s
    into the absence, ends in the absence alarm. *)
Example armed_absence_alarm_fires :
  option_map fst
    (run Samples.calibrated
       [FaceFrame 100000 None []; FaceFrame 106000 None Samples.fourDraws])
  = Some [FaceMissing; AbsenceAlarm].
Proof. vm_compute. reflexivity.
Qed.

(** Disarming does not silence the missing-frame thresholds: 150
    consecutive frames without a face (5 s at the detection rate) still
    classify the user as sleeping and raise the sleeping-tier batch,
    without an absence alarm. *)
Example disarmed_missing_frames_still_alarm :
  option_map
    (fun r =>
       (existsb (fun o => match o with AbsenceAlarm => true | _ => false end)
          (fst r),
        state (snd r), confidence (snd r),
        List.length (activeAlarms (alarms (snd r)))))
    (run (disarmAbsenceAlarm Samples.calibrated)
       (map (fun i => FaceFrame (100000 + 33 * Z.of_nat i) None
                        Samples.fourDraws)
          (seq 0 150)))
  = Some (false, sleeping, 0.98, 5%nat).
Proof. vm_compute. reflexivity.
Qed.

(** ** Calibration *)











(** The calibration block of a frame with a face. *)
Lemma collectCalibration_spec (now : Z) (f : FaceLandmarks) (s : Session) :
  let c := calibration s in
  let r := collectCalibration now f s in
  (fst r = true <-> calibrationComplete now f c)
  /\ (fst r = true ->
      collecting (calibration (snd r)) = false
      /\ baselines (calibration (snd r))
         = Some (mkBaselines
                   (median (pitchSamples c ++ [pitchAngleRaw f]))
                   (average (earSamples c ++ [currentEar f]))
                   (average (tiltSamples c ++ [tiltAngleRaw f]))
                   (average (faceWidthSamples c ++ [currentFaceWidth f]))))
  /\ (fst r = false ->
      collecting (calibration (snd r)) = true
      /\ baselines (calibration (snd r)) = baselines c
      /\ state (snd r) = awake /\ confidence (snd r) = 0.15).
Proof.
  cbv zeta. unfold collectCalibration, calibrationComplete. cbv zeta.
  destruct ((CALIBRATION_DURATION_MS
             <=? now - JS.orElse (startTimestamp (calibration s)) now)%Z
            && (MIN_CALIBRATION_FRAMES
                <=? List.length
                      (pitchSamples (calibration s) ++ [pitchAngleRaw f]))%nat)
    eqn:E.
  - apply andb_true_iff in E as [E1 E2].
    apply Z.leb_le in E1. apply Nat.leb_le in E2.
    cbn [fst snd]. split; [tauto|]. split; [|discriminate]. intros _.
    destruct (latestPostureState (trackers s)) as [ps|];
      [destruct (seenPoseLandmarks (closure s)); [destruct (isPresent ps)|]|];
      split; reflexivity.
  - cbn [fst snd]. split.
    + split; [discriminate|]. intros [H1 H2].
      apply Z.leb_le in H1. apply Nat.leb_le in H2.
      rewrite H1, H2 in E. discriminate E.
    + split; [discriminate|]. intros _.
      match goal with
      | |- context [if ?c then _ else _] => destruct c
      end; repeat split; reflexivity.
Qed.

Lemma handleFace_calibrating (now : Z) (f : FaceLandmarks) (s : Session)
    (d : list Q) (r : Outcome * Session) (d' : list Q) :
  collecting (calibration s) = true ->
  handleFace now f s d = Some (r, d') ->
  let s0 :=
    setAbsentCountdown None
      (setAbsentStartTime None (setMissingFaceFrames 0 s)) in
  let cc := collectCalibration now f s0 in
  (fst cc = false /\ r = (StillCalibrating, snd cc) /\ d' = d)
  \/ (fst cc = true /\ fst r = Fused
      /\ calibration (snd r) = calibration (snd cc)).
Proof.
  intros Hcol H. cbv zeta. unfold handleFace in H. cbv zeta in H.
  set (s0 := setAbsentCountdown None
               (setAbsentStartTime None (setMissingFaceFrames 0 s))) in *.
  assert (Hc0 : collecting (calibration s0) = true) by exact Hcol.
  rewrite Hc0 in H.
  pose proof (collectCalibration_spec now f s0) as Hspec. cbv zeta in Hspec.
  destruct (collectCalibration now f s0) as [proceed s1]. cbn [fst snd] in *.
  destruct proceed; cbn [negb] in H.
  - right. destruct Hspec as (_ & Ht & _). destruct (Ht eq_refl) as [Hcol1 Hb].
    rewrite Hcol1 in H. cbn [negb] in H.
    destruct (baselines (calibration s)) as [b|];
      apply bind_Some in H as (s2 & d2 & E & H);
      apply ret_Some in H as [-> _];
      apply fuseFrame_setup in E as [_ Ec]; cbn [fst snd];
      repeat split; exact Ec.
  - left. apply ret_Some in H as [-> ->]. repeat split.
Qed.

(** A frame that does not complete calibration reads no random draw and
    always returns. *)
Lemma still_calibrating_returns (now : Z) (f : FaceLandmarks) (s : Session)
    (draws : list Q) :
  collecting (calibration s) = true ->
  ~ calibrationComplete now f (calibration s) ->
  exists s',
    handleLandmarks now (Some f) s draws = Some ((StillCalibrating, s'), draws).
Proof.
  intros Hcol Hnot. unfold handleLandmarks, handleFace. cbv zeta.
  set (s0 := setAbsentCountdown None
               (setAbsentStartTime None
                  (setMissingFaceFrames 0 (setLandmarks true s)))).
  assert (Hc0 : collecting (calibration s0) = true) by exact Hcol.
  pose proof (collectCalibration_spec now f s0) as (Hiff & _ & Hf).
  change (calibration s0) with (calibration s) in Hiff.
  unfold bind at 1. rewrite Hc0.
  destruct (collectCalibration now f s0) as [proceed s1]. cbn [fst snd] in *.
  destruct proceed.
  - exfalso. apply Hnot, Hiff. reflexivity.
  - destruct (Hf eq_refl) as (Hc1 & _). cbn [negb ret fst snd].
    rewrite Hcol, Hc1. cbn [negb andb]. exists s1. reflexivity.
Qed.



(** Only 60 samples after 4000 ms: the frame still calibrates and the
    baseline stays null. *)
Example short_calibration_stays_null :
  let s :=
    setCalibration
      (mkCalibration true (Some 0%Z) (repeat 0.1 59) (repeat 0.3 59)
         (repeat 0 59) (repeat 0.25 59) 0.95 true None)
      (activationEffect true mounted) in
  option_map
    (fun r => (fst (fst r), baselines (calibration (snd (fst r))),
               state (snd (fst r)), confidence (snd (fst r))))
    (handleLandmarks 4000 (Some Samples.face) s [])
  = Some (StillCalibrating, None, awake, 0.15).
Proof. vm_compute. reflexivity. Qed.

(** * Properties of the classification, the trackers and the session *)

(** ** Running events *)

Lemma run_outcome (s : Session) (events : list Event) :
  (match run s events with Some _ => true | None => false end) = true ->
  exists os s', run s events = Some (os, s').
Proof.
  destruct (run s events) as [[os s']|]; [|discriminate].
  intros _. exists os, s'. reflexivity.
Qed.

Lemma rand_outcome {A : Type} (m : Rand A) (d : list Q) :
  (match m d with Some _ => true | None => false end) = true ->
  exists a rest, m d = Some (a, rest).
Proof.
  destruct (m d) as [[a rest]|]; [|discriminate].
  intros _. exists a, rest. reflexivity.
Qed.

Lemma step_SetActive (s : Session) (a : bool) :
  isActive s = negb a ->
  step s (SetActive a) = Some (None, activationEffect a s).
Proof.
  intro H. cbn [step]. rewrite H. destruct a; reflexivity.
Qed.

Lemma step_FaceFrame (s : Session) (now : Z) (lm : option FaceLandmarks)
    (d : list Q) (r : Outcome * Session) (rest : list Q) :
  isActive s = true ->
  handleLandmarks now lm s d = Some (r, rest) ->
  step s (FaceFrame now lm d) = Some (Some (fst r), snd r).
Proof. intros H E. cbn [step]. rewrite H, E. reflexivity. Qed.

Lemma run_cons (s : Session) (e : Event) (events : list Event)
    (o : option Outcome) (s1 : Session) (os : list Outcome) (s2 : Session) :
  step s e = Some (o, s1) -> run s1 events = Some (os, s2) ->
  run s (e :: events)
  = Some (match o with Some x => x :: os | None => os end, s2).
Proof. intros H1 H2. cbn [run]. rewrite H1, H2. reflexivity. Qed.

(** ** Classification of a fused frame *)

Ltac cmp :=
  repeat match goal with
  | H : (_ >? _) = true |- _ => apply gt_true in H
  | H : (_ >? _) = false |- _ => apply gt_false in H
  | H : (_ <? _) = true |- _ => apply lt_true in H
  | H : (_ <? _) = false |- _ => apply lt_false in H
  | H : (_ >=? _) = true |- _ => apply ge_true in H
  | H : (_ >=? _) = false |- _ => apply ge_false in H
  end.

Lemma confidence_bounds (x : Q) :
  0.05 <= Qmin 0.99 (Qmax 0.05 x) <= 0.99.
Proof.
  destruct (Q.min_spec 0.99 (Qmax 0.05 x)) as [[? E]|[? E]];
  destruct (Q.max_spec 0.05 x) as [[? E']|[? E']];
  rewrite E; rewrite ?E' in *; lra.
Qed.

Lemma confidence_lower (x y : Q) :
  y <= x -> Qmin 0.99 y <= Qmin 0.99 (Qmax 0.05 x).
Proof.
  intros Hx. apply Q.min_le_compat_l.
  apply Qle_trans with x; [exact Hx|apply Q.le_max_r].
Qed.

Lemma classify_best (p : Probabilities) :
  let best := fst (classify p) in
  (forall st, probOf p st <= probOf p best)
  /\ (best = noddingOff -> awakeProb p < noddingProb p)
  /\ (best = sleeping ->
      awakeProb p < sleepingProb p /\ noddingProb p < sleepingProb p)
  /\ 0.05 <= snd (classify p) <= 0.99
  /\ Qmin 0.99 (probOf p best) <= snd (classify p).
Proof.
  destruct p as [s n a]. unfold classify, rank, insertRanked. cbn.
  split_ifs; cbn in *; cmp;
  (split; [intros [| |]; cbn; lra|]);
  (split; [intro E; try discriminate E; lra|]);
  (split; [intro E; try discriminate E; lra|]);
  (split; [apply confidence_bounds|]);
  apply confidence_lower; lra.
Qed.

(** X1. The state returned by the ranking of the three probabilities has
    the greatest probability.  On a tie the order awake, noddingOff,
    sleeping decides: noddingOff is returned only when it is strictly more
    probable than awake, and sleeping only when it is strictly more probable
    than both others.  The confidence returned lies in [0.05, 0.99] and is
    at least the smaller of 0.99 and the probability of the state
    returned. *)
Theorem classify_takes_the_most_probable (p : Probabilities) :
  let best := fst (classify p) in
  (forall st, probOf p st <= probOf p best)
  /\ (best = noddingOff -> awakeProb p < noddingProb p)
  /\ (best = sleeping ->
      awakeProb p < sleepingProb p /\ noddingProb p < sleepingProb p)
  /\ 0.05 <= snd (classify p) <= 0.99
  /\ Qmin 0.99 (probOf p best) <= snd (classify p).
Proof. exact (classify_best p). Qed.

Lemma normalize_probOf (e : Evidence) (st : AttentionState) :
  0 < sleepingEvidence e + noddingEvidence e + awakeEvidence e ->
  probOf (normalize e) st
  = evidenceOf e st
    / (sleepingEvidence e + noddingEvidence e + awakeEvidence e).
Proof.
  intro Ht. unfold normalize, probOf.
  cbn [awakeProb noddingProb sleepingProb].
  rewrite (proj2 (gt_true _ _) Ht). destruct st; reflexivity.
Qed.

Lemma div_le_cancel (a b t : Q) : 0 < t -> a / t <= b / t -> a <= b.
Proof.
  intros Ht H. apply Qmult_le_r with (/ t); [apply Qinv_lt_0_compat, Ht|].
  exact H.
Qed.

Lemma div_lt_cancel (a b t : Q) : 0 < t -> a / t < b / t -> a < b.
Proof.
  intros Ht H. apply Qmult_lt_r with (/ t); [apply Qinv_lt_0_compat, Ht|].
  exact H.
Qed.

(** The best state of a normalised evidence record, read on the evidence
    scores themselves. *)
Lemma classify_normalize_best (e : Evidence) :
  0 < sleepingEvidence e + noddingEvidence e + awakeEvidence e ->
  let best := fst (classify (normalize e)) in
  (forall st, evidenceOf e st <= evidenceOf e best)
  /\ (best = noddingOff -> awakeEvidence e < noddingEvidence e)
  /\ (best = sleeping ->
      awakeEvidence e < sleepingEvidence e
      /\ noddingEvidence e < sleepingEvidence e).
Proof.
  intro Ht. cbv zeta.
  pose proof (classify_best (normalize e)) as (Hmax & Hnod & Hsl & _).
  cbv zeta in Hmax, Hnod, Hsl.
  change (awakeProb (normalize e)) with (probOf (normalize e) awake) in *.
  change (noddingProb (normalize e)) with (probOf (normalize e) noddingOff)
    in *.
  change (sleepingProb (normalize e)) with (probOf (normalize e) sleeping)
    in *.
  repeat split.
  - intro st. specialize (Hmax st).
    rewrite !normalize_probOf in Hmax by exact Ht.
    apply div_le_cancel in Hmax; assumption.
  - intro E. specialize (Hnod E). rewrite !normalize_probOf in Hnod by exact Ht.
    apply div_lt_cancel in Hnod; assumption.
  - specialize (Hsl H) as [Hsl _]. rewrite !normalize_probOf in Hsl by exact Ht.
    apply div_lt_cancel in Hsl; assumption.
  - specialize (Hsl H) as [_ Hsl]. rewrite !normalize_probOf in Hsl by exact Ht.
    apply div_lt_cancel in Hsl; assumption.
Qed.

Lemma fuseEvidence_total (n : nat) (g : Signals) :
  0 < sleepingEvidence (fuseEvidence n g) + noddingEvidence (fuseEvidence n g)
      + awakeEvidence (fuseEvidence n g).
Proof.
  pose proof (clampEvidence_bounds
                (postureEvidence (closedSecOf n) g
                   (signalEvidence (closedSecOf n) g))) as (Bs & Bn & Ba).
  unfold fuseEvidence, evidenceAt. lra.
Qed.

Lemma signal_nodding_eq (d : Q) (g : Signals) :
  noddingEvidence (signalEvidence d g) = cueNodding g (eyeNodding d).
Proof.
  unfold signalEvidence, cueNodding, eyeNodding. cbv zeta.
  destruct (d >=? EYES_CLOSED_SLEEP_SEC), (d >=? EYES_CLOSED_NOD_SEC),
    (d >=? 2.0), (d >=? 1.0), (isBackwardTilting (nodState g)),
    (currentIsLookingAway g && (currentLookAwayDuration g >? 5));
    reflexivity.
Qed.

Lemma cueNodding_ge (g : Signals) (n : Q) : n <= cueNodding g n.
Proof. unfold cueNodding. cbv zeta. split_ifs; lra. Qed.

Lemma eyeNodding_ge (d : Q) : 2 <= d -> d < 5 -> 0.8 <= eyeNodding d.
Proof.
  intros H1 H2. unfold eyeNodding, EYES_CLOSED_SLEEP_SEC, EYES_CLOSED_NOD_SEC.
  split_ifs; cmp; lra.
Qed.

Lemma signalSleeping_ge (d : Q) (t : bool) : 5 <= d -> 2 <= signalSleeping d t.
Proof.
  intro H. unfold signalSleeping, EYES_CLOSED_SLEEP_SEC. cbv zeta.
  pose proof (overBonus_nonneg d H).
  split_ifs; cmp; lra.
Qed.

Lemma postureRules_nodding_ge (d : Q) (y l : bool) (p : PostureState)
    (e : Evidence) :
  0 <= noddingEvidence e ->
  0.8 * noddingEvidence e <= noddingEvidence (postureRules d y l p e).
Proof.
  intro H. unfold postureRules. cbv zeta.
  generalize dependent (noddingEvidence e). intros n H.
  destruct ((bodyPresence p <? 0.5) && l); cbn [noddingEvidence];
  split_ifs; lra.
Qed.

Lemma postureRules_sleeping_ge (d : Q) (y l : bool) (p : PostureState)
    (e : Evidence) :
  0 <= sleepingEvidence e ->
  0.8 * sleepingEvidence e <= sleepingEvidence (postureRules d y l p e).
Proof.
  intro H. unfold postureRules. cbv zeta.
  generalize dependent (sleepingEvidence e). intros n H.
  destruct ((bodyPresence p <? 0.5) && l); cbn [sleepingEvidence];
  split_ifs; lra.
Qed.

Lemma postureRules_awake_le (d : Q) (y l : bool) (p : PostureState)
    (e : Evidence) :
  0 <= awakeEvidence e ->
  awakeEvidence (postureRules d y l p e) <= awakeEvidence e + 0.5.
Proof.
  intro H. unfold postureRules. cbv zeta.
  generalize dependent (awakeEvidence e). intros n H.
  destruct ((bodyPresence p <? 0.5) && l); cbn [awakeEvidence];
  split_ifs; lra.
Qed.

Lemma clamp_ge (lo x y : Q) : y <= 1 -> y <= x -> y <= Qmin 1 (Qmax lo x).
Proof.
  intros H1 H2.
  destruct (Q.min_spec 1 (Qmax lo x)) as [[? E]|[? E]];
  destruct (Q.max_spec lo x) as [[? E']|[? E']];
  rewrite E; rewrite ?E' in *; lra.
Qed.

Lemma clamp_le (lo x y : Q) : lo <= y -> x <= y -> Qmin 1 (Qmax lo x) <= y.
Proof.
  intros H1 H2.
  destruct (Q.min_spec 1 (Qmax lo x)) as [[? E]|[? E]];
  destruct (Q.max_spec lo x) as [[? E']|[? E']];
  rewrite E; rewrite ?E' in *; lra.
Qed.

(** Evidence of a frame whose closed-eye duration is at least 2 s. *)
Lemma closed_eyes_evidence (d : Q) (g : Signals) :
  2 <= d ->
  let e := evidenceAt d g in
  awakeEvidence e <= 0.5
  /\ (0.64 <= noddingEvidence e \/ 0.64 <= sleepingEvidence e).
Proof.
  intro H. cbv zeta. unfold evidenceAt, clampEvidence.
  cbn [awakeEvidence noddingEvidence sleepingEvidence].
  assert (Ha : awakeEvidence (signalEvidence d g) = 0)
    by (rewrite signal_awake_eq; apply eyeAwake_zero, H).
  split.
  - apply clamp_le; [lra|]. unfold postureEvidence.
    destruct (postureState g) as [p|].
    + pose proof (postureRules_awake_le d (currentIsYawning g)
                    (landmarksSeen g) p (signalEvidence d g)) as Hp.
      rewrite Ha in Hp. lra.
    + rewrite Ha. lra.
  - destruct (Qlt_le_dec d 5) as [Hd|Hd].
    + left. apply clamp_ge; [lra|].
      pose proof (eyeNodding_ge d H Hd) as He.
      pose proof (cueNodding_ge g (eyeNodding d)) as Hc.
      unfold postureEvidence. destruct (postureState g) as [p|].
      * pose proof (postureRules_nodding_ge d (currentIsYawning g)
                      (landmarksSeen g) p (signalEvidence d g)) as Hp.
        rewrite signal_nodding_eq in Hp. lra.
      * rewrite signal_nodding_eq. lra.
    + right. apply clamp_ge; [lra|].
      pose proof (signalSleeping_ge d (isBackwardTilting (nodState g)) Hd)
        as He.
      unfold postureEvidence. destruct (postureState g) as [p|].
      * pose proof (postureRules_sleeping_ge d (currentIsYawning g)
                      (landmarksSeen g) p (signalEvidence d g)) as Hp.
        rewrite signal_sleeping_eq in Hp. lra.
      * rewrite signal_sleeping_eq. lra.
Qed.

Lemma closedSecOf_75 (n : nat) : (75 <= n)%nat -> 2 <= closedSecOf n.
Proof.
  intro H. apply Qle_trans with (closedSecOf 75).
  - vm_compute. discriminate.
  - apply closedSecOf_mono, H.
Qed.

Lemma closed_eyes_not_awake (n : nat) (g : Signals) :
  (75 <= n)%nat -> fst (classify (normalize (fuseEvidence n g))) <> awake.
Proof.
  intros H E.
  pose proof (closed_eyes_evidence (closedSecOf n) g (closedSecOf_75 n H))
    as [Ha Hn]. cbv zeta in Ha, Hn. fold (fuseEvidence n g) in Ha, Hn.
  pose proof (classify_normalize_best _ (fuseEvidence_total n g)) as (Hmax & _).
  cbv zeta in Hmax. rewrite E in Hmax.
  pose proof (Hmax noddingOff) as H1. pose proof (Hmax sleeping) as H2.
  cbn [evidenceOf] in H1, H2. lra.
Qed.

(** X2. Once the closed-frame counter has reached 75 (2.5 s at 30 frames
    per second), a fused frame is never classified awake, whatever the
    other signals. *)
Theorem eyes_closed_75_frames_never_awake (n : nat) (g : Signals) :
  (75 <= n)%nat -> fst (classify (normalize (fuseEvidence n g))) <> awake.
Proof. exact (closed_eyes_not_awake n g). Qed.

Lemma eyes_closed_75_frames_never_awake_witness :
  (75 <= 75)%nat
  /\ fst (classify (normalize (fuseEvidence 75 restlessSignals))) <> awake.
Proof.
  assert (H : (75 <= 75)%nat) by lia.
  exact (conj H (eyes_closed_75_frames_never_awake 75 restlessSignals H)).
Defined.

Lemma postureRules_nodding_le (d : Q) (y l : bool) (p : PostureState)
    (e : Evidence) :
  0 <= noddingEvidence e ->
  noddingEvidence (postureRules d y l p e) <= noddingEvidence e + 0.8.
Proof.
  intro H. unfold postureRules. cbv zeta.
  generalize dependent (noddingEvidence e). intros n H.
  destruct ((bodyPresence p <? 0.5) && l); cbn [noddingEvidence];
  split_ifs; lra.
Qed.

Lemma postureRules_sleeping_le (d : Q) (y l : bool) (p : PostureState)
    (e : Evidence) :
  d <= 3 -> 0 <= sleepingEvidence e ->
  sleepingEvidence (postureRules d y l p e) <= sleepingEvidence e + 0.5.
Proof.
  intros Hd H. unfold postureRules. cbv zeta.
  generalize dependent (sleepingEvidence e). intros n H.
  assert (E3 : (d >? 3) = false) by (apply gt_false; lra).
  assert (E4 : (d >? 4) = false) by (apply gt_false; lra).
  rewrite E3, E4, !andb_false_r.
  destruct ((bodyPresence p <? 0.5) && l); cbn [sleepingEvidence];
  split_ifs; lra.
Qed.

Lemma postureRules_awake_ge (d : Q) (y l : bool) (p : PostureState)
    (e : Evidence) :
  0 <= awakeEvidence e ->
  0.8 * awakeEvidence e <= awakeEvidence (postureRules d y l p e).
Proof.
  intro H. unfold postureRules. cbv zeta.
  generalize dependent (awakeEvidence e). intros n H.
  destruct ((bodyPresence p <? 0.5) && l); cbn [awakeEvidence];
  split_ifs; lra.
Qed.

Lemma open_eyes_signal (d : Q) (g : Signals) :
  d < 1 -> noFaceCue g ->
  sleepingEvidence (signalEvidence d g) = 0
  /\ noddingEvidence (signalEvidence d g) = 0
  /\ 0.9 <= awakeEvidence (signalEvidence d g).
Proof.
  intros Hd (Hf & Hb & Hm & Hy & Hc & Hl & Ha).
  assert (E1 : (d >=? EYES_CLOSED_SLEEP_SEC) = false)
    by (apply ge_false; unfold EYES_CLOSED_SLEEP_SEC; lra).
  assert (E2 : (d >=? EYES_CLOSED_NOD_SEC) = false)
    by (apply ge_false; unfold EYES_CLOSED_NOD_SEC; lra).
  assert (E3 : (d >=? 2.0) = false) by (apply ge_false; lra).
  assert (E4 : (d >=? 1.0) = false) by (apply ge_false; lra).
  assert (E5 : (d <? 1) = true) by (apply lt_true; lra).
  assert (E6 : (windowMax (nodState g) >? HEAD_PITCH_THRESHOLD + 4) = false)
    by (apply gt_false; exact Hm).
  assert (E7 : isDrowsyYawnRate (currentYawCount g) = false)
    by (unfold isDrowsyYawnRate; apply Nat.leb_gt; lia).
  assert (E8 : (currentYawCount g <? 2)%nat = true)
    by (apply Nat.ltb_lt; lia).
  assert (E9 : currentIsLookingAway g && (currentLookAwayDuration g >? 5)
               = false).
  { destruct Hl as [Hl|Hl]; [rewrite Hl; reflexivity|].
    apply andb_false_iff. right. apply gt_false, Hl. }
  rewrite signal_sleeping_eq, signal_nodding_eq, signal_awake_eq.
  unfold signalSleeping, cueNodding, eyeNodding, eyeAwake, awakeBase.
  cbv zeta. rewrite E1, E2, E3, E4, E5, E6, E7, E8, E9, Hf, Hb, Hy, Ha.
  cbn [negb andb]. repeat split; try reflexivity.
  split_ifs; lra.
Qed.

Lemma closedSecOf_44 (n : nat) : (n < 45)%nat -> closedSecOf n < 1.
Proof.
  intro H. apply Qle_lt_trans with (closedSecOf 44).
  - apply closedSecOf_mono. lia.
  - vm_compute. reflexivity.
Qed.

Lemma postureRules_awake_scaled (d : Q) (y l : bool) (p : PostureState)
    (e : Evidence) :
  0 <= awakeEvidence e ->
  postureScale l p * awakeEvidence e <= awakeEvidence (postureRules d y l p e)
  /\ awakeEvidence (postureRules d y l p e)
     <= postureScale l p * (awakeEvidence e + 0.5).
Proof.
  intro H. unfold postureRules, postureScale. cbv zeta.
  generalize dependent (awakeEvidence e). intros n H.
  destruct ((bodyPresence p <? 0.5) && l); cbn [awakeEvidence];
  split_ifs; lra.
Qed.

Lemma postureRules_nodding_scaled (d : Q) (y l : bool) (p : PostureState)
    (e : Evidence) :
  0 <= noddingEvidence e ->
  postureScale l p * noddingEvidence e
  <= noddingEvidence (postureRules d y l p e)
  /\ noddingEvidence (postureRules d y l p e)
     <= postureScale l p * (noddingEvidence e + 0.8).
Proof.
  intro H. unfold postureRules, postureScale. cbv zeta.
  generalize dependent (noddingEvidence e). intros n H.
  destruct ((bodyPresence p <? 0.5) && l); cbn [noddingEvidence];
  split_ifs; lra.
Qed.

Lemma postureRules_sleeping_scaled (d : Q) (y l : bool) (p : PostureState)
    (e : Evidence) :
  d <= 3 -> 0 <= sleepingEvidence e ->
  postureScale l p * sleepingEvidence e
  <= sleepingEvidence (postureRules d y l p e)
  /\ sleepingEvidence (postureRules d y l p e)
     <= postureScale l p * (sleepingEvidence e + 0.5).
Proof.
  intros Hd H. unfold postureRules, postureScale. cbv zeta.
  generalize dependent (sleepingEvidence e). intros n H.
  assert (E3 : (d >? 3) = false) by (apply gt_false; lra).
  assert (E4 : (d >? 4) = false) by (apply gt_false; lra).
  rewrite E3, E4, !andb_false_r.
  destruct ((bodyPresence p <? 0.5) && l); cbn [sleepingEvidence];
  split_ifs; lra.
Qed.

Lemma clamp_order (lo x y : Q) :
  0 <= lo -> x <= y -> Qmin 1 (Qmax 0 x) <= Qmin 1 (Qmax lo y).
Proof.
  intros H0 H.
  destruct (Q.min_spec 1 (Qmax 0 x)) as [[? E]|[? E]];
  destruct (Q.max_spec 0 x) as [[? E']|[? E']];
  destruct (Q.min_spec 1 (Qmax lo y)) as [[? F]|[? F]];
  destruct (Q.max_spec lo y) as [[? F']|[? F']];
  rewrite E, F; rewrite ?E', ?F' in *; lra.
Qed.

Lemma open_eyes_evidence (d : Q) (g : Signals) :
  d < 1 -> noFaceCue g ->
  let e := evidenceAt d g in
  sleepingEvidence e <= awakeEvidence e
  /\ noddingEvidence e <= awakeEvidence e.
Proof.
  intros Hd Hq. cbv zeta.
  destruct (open_eyes_signal d g Hd Hq) as (Hs & Hn & Ha).
  unfold evidenceAt, clampEvidence, postureEvidence.
  destruct (postureState g) as [p|];
    cbn [awakeEvidence noddingEvidence sleepingEvidence].
  - pose proof (postureRules_awake_scaled d (currentIsYawning g)
                  (landmarksSeen g) p (signalEvidence d g)) as Pa.
    pose proof (postureRules_nodding_scaled d (currentIsYawning g)
                  (landmarksSeen g) p (signalEvidence d g)) as Pn.
    pose proof (postureRules_sleeping_scaled d (currentIsYawning g)
                  (landmarksSeen g) p (signalEvidence d g)) as Ps.
    rewrite Hn in Pn. rewrite Hs in Ps. unfold postureScale in *.
    split; apply clamp_order; try lra;
      destruct ((bodyPresence p <? 0.5) && landmarksSeen g); lra.
  - rewrite Hs, Hn. split; apply clamp_order; lra.
Qed.

(** X3. While the closed-frame counter is below 45 (1.5 s) and no face cue
    is present (no forward nod, no backward tilt, window maximum of the
    pitch at most 14 degrees, no yawn in progress, fewer than 2 yawns
    counted, no look away beyond 5 s, normal face distance), a fused frame
    is classified awake, whatever the head tilt and the posture reading. *)
Lemma open_eyes_awake (n : nat) (g : Signals) :
  (n < 45)%nat -> noFaceCue g ->
  fst (classify (normalize (fuseEvidence n g))) = awake.
Proof.
  intros H Hq.
  pose proof (open_eyes_evidence (closedSecOf n) g (closedSecOf_44 n H) Hq)
    as [Hs Hn]. cbv zeta in Hs, Hn. fold (fuseEvidence n g) in Hs, Hn.
  pose proof (classify_normalize_best _ (fuseEvidence_total n g))
    as (_ & Hnod & Hsl).
  cbv zeta in Hnod, Hsl.
  destruct (fst (classify (normalize (fuseEvidence n g)))) eqn:E;
    [reflexivity| |].
  - specialize (Hnod eq_refl). lra.
  - destruct (Hsl eq_refl) as [Hsl' _]. lra.
Qed.

Lemma open_eyes_awake_witness :
  (0 < 45)%nat /\ noFaceCue quietSignals
  /\ fst (classify (normalize (fuseEvidence 0 quietSignals))) = awake.
Proof.
  assert (H1 : (0 < 45)%nat) by lia.
  assert (H2 : noFaceCue quietSignals).
  { unfold noFaceCue. cbn.
    split; [reflexivity|]. split; [reflexivity|].
    split; [unfold HEAD_PITCH_THRESHOLD; lra|].
    split; [reflexivity|]. split; [lia|].
    split; [left; reflexivity|reflexivity]. }
  exact (conj H1 (conj H2 (open_eyes_awake 0 quietSignals H1 H2))).
Defined.

(** X4. On a fused frame the probability of the state returned is at least
    1/3 and the confidence reported lies in [1/3, 0.99]. *)
Lemma fused_confidence (n : nat) (g : Signals) :
  let c := classify (normalize (fuseEvidence n g)) in
  1 / 3 <= probOf (normalize (fuseEvidence n g)) (fst c)
  /\ 1 / 3 <= snd c <= 0.99.
Proof.
  cbv zeta.
  pose proof (clampEvidence_bounds
                (postureEvidence (closedSecOf n) g
                   (signalEvidence (closedSecOf n) g))) as (Bs & Bn & Ba).
  pose proof (normalize_distribution (fuseEvidence n g) Bs Bn Ba)
    as (_ & Hsum).
  pose proof (classify_best (normalize (fuseEvidence n g)))
    as (Hmax & _ & _ & Hb & Hl).
  cbv zeta in Hmax, Hl.
  pose proof (Hmax awake) as H1. pose proof (Hmax noddingOff) as H2.
  pose proof (Hmax sleeping) as H3. cbn [probOf] in H1, H2, H3.
  set (p := normalize (fuseEvidence n g)) in *.
  set (best := probOf p (fst (classify p))) in *.
  assert (Hthird : 1 / 3 <= best).
  { assert (E : 1 / 3 * 3 == 1) by field. lra. }
  split; [exact Hthird|]. split; [|lra].
  apply Qle_trans with (Qmin 0.99 best); [|exact Hl].
  apply Q.min_glb; [|exact Hthird]. assert (E : 1 / 3 * 3 == 1) by field.
  lra.
Qed.

(** ** Temporal trackers *)

Lemma lastN_all {A : Type} (n : nat) (xs : list A) :
  (List.length xs <= n)%nat -> lastN n xs = xs.
Proof.
  intro H. unfold lastN. replace (List.length xs - n)%nat with 0%nat by lia.
  reflexivity.
Qed.

Lemma lastN_length {A : Type} (n : nat) (xs : list A) :
  List.length (lastN n xs) = Nat.min n (List.length xs).
Proof. unfold lastN. rewrite length_skipn. lia. Qed.

Lemma tl_skipn {A : Type} (k : nat) (xs : list A) :
  tl (skipn k xs) = skipn (S k) xs.
Proof.
  revert xs. induction k as [|k IH]; intros [|x xs]; try reflexivity.
  cbn [skipn]. rewrite IH. destruct xs; reflexivity.
Qed.

Lemma pushBounded_lastN {A : Type} (n : nat) (xs : list A) (x : A) :
  (1 <= n)%nat -> pushBounded n (lastN n xs) x = lastN n (xs ++ [x]).
Proof.
  intro Hn. unfold pushBounded. cbv zeta.
  rewrite length_app, lastN_length. cbn [List.length].
  destruct (Nat.ltb_spec n (Nat.min n (List.length xs) + 1)) as [H|H].
  - assert (Hl : (n <= List.length xs)%nat) by lia.
    unfold lastN. rewrite length_app. cbn [List.length].
    replace (skipn (List.length xs - n) xs ++ [x])
      with (skipn (List.length xs - n) (xs ++ [x])).
    + rewrite tl_skipn. f_equal. lia.
    + rewrite skipn_app.
      replace (List.length xs - n - List.length xs)%nat with 0%nat by lia.
      reflexivity.
  - assert (Hl : (List.length xs < n)%nat) by lia.
    rewrite lastN_all by lia. rewrite lastN_all; [reflexivity|].
    rewrite length_app. cbn [List.length]. lia.
Qed.










Lemma ofNat_pos (n : nat) : (0 < n)%nat -> 0 < JS.ofNat n.
Proof.
  intro H. unfold JS.ofNat. change 0 with (inject_Z 0). rewrite <- Zlt_Qlt. lia.
Qed.






Lemma pushBounded_length {A : Type} (n : nat) (h : list A) (x : A) :
  (List.length h <= n)%nat -> (List.length (pushBounded n h x) <= n)%nat.
Proof.
  intro H. unfold pushBounded. cbv zeta.
  destruct (Nat.ltb_spec n (List.length (h ++ [x]))) as [E|E]; [|exact E].
  rewrite length_app in E. cbn [List.length] in E.
  destruct h as [|y h]; cbn [app tl List.length] in *; [lia|].
  rewrite length_app. cbn [List.length]. lia.
Qed.

Lemma filter_length_le {A : Type} (f : A -> bool) (l : list A) :
  (List.length (filter f l) <= List.length l)%nat.
Proof.
  induction l as [|x l IH]; [reflexivity|]. cbn [filter].
  destruct (f x); cbn [List.length]; lia.
Qed.

Lemma yawn_update_invariant (d : YawnDetector.t) (mar : Q) (now : Z) :
  yawnInvariant d ->
  let r := YawnDetector.update d mar now in
  yawnInvariant (fst r)
  /\ YawnDetector.yawnCountOut (snd r) = YawnDetector.yawnCount (fst r)
  /\ YawnDetector.isYawning (snd r) = YawnDetector.isCurrentlyYawning (fst r)
  /\ (forall t, In t (YawnDetector.yawnTimes (fst r)) ->
        (now - t <= YawnDetector.YAWN_WINDOW_MS)%Z).
Proof.
  intros (Hl & Hh & Hy). unfold YawnDetector.update. cbv zeta.
  set (h := pushBounded YawnDetector.HISTORY_SIZE (YawnDetector.marHistory d)
              mar).
  assert (Hh' : (List.length h <= YawnDetector.HISTORY_SIZE)%nat)
    by (apply pushBounded_length, Hh).
  assert (Hf : forall l t,
            In t (filter
                    (fun time =>
                       (now - time <=? YawnDetector.YAWN_WINDOW_MS)%Z) l) ->
            (now - t <= YawnDetector.YAWN_WINDOW_MS)%Z).
  { intros l t Ht. apply filter_In in Ht as [_ Ht]. apply Z.leb_le, Ht. }
  assert (Hfl : forall l,
            (List.length
               (filter
                  (fun time =>
                     (now - time <=? YawnDetector.YAWN_WINDOW_MS)%Z) l)
             <= List.length l)%nat) by (intro l; apply filter_length_le).
  unfold yawnInvariant.
  destruct (sum h / JS.ofNat (List.length h) >? YawnDetector.MAR_THRESHOLD);
    cbn [negb andb];
  destruct (YawnDetector.isCurrentlyYawning d) eqn:Ey; cbn [negb andb];
  [ | |destruct (JS.truthy (YawnDetector.yawnStartTime d));
       [match goal with
        | |- context [if ?c then _ else _] => destruct c
        end|] | ];
  cbn [fst snd YawnDetector.yawnTimes YawnDetector.yawnCount
       YawnDetector.marHistory YawnDetector.isCurrentlyYawning
       YawnDetector.yawnStartTime YawnDetector.yawnCountOut
       YawnDetector.isYawning];
  (split; [split; [|split; [exact Hh'|]]|split; [reflexivity|split;
     [reflexivity|apply Hf]]]).
  all: try (specialize (Hfl (YawnDetector.yawnTimes d)); lia).
  all: try (specialize (Hfl (YawnDetector.yawnTimes d ++ [now]));
            rewrite length_app in Hfl; cbn [List.length] in Hfl; lia).
  all: try (rewrite <- Ey; exact Hy).
  all: try (split; [intros _; discriminate|reflexivity]).
  all: try (split; [discriminate|congruence]).
  all: exact Hy.
Qed.

Lemma runYawns_snoc (frames : list (Q * Z)) (mar : Q) (now : Z) :
  runYawns (frames ++ [(mar, now)])
  = YawnDetector.update (fst (runYawns frames)) mar now.
Proof. unfold runYawns. rewrite fold_left_app. reflexivity. Qed.

Lemma runYawns_invariant (frames : list (Q * Z)) :
  yawnInvariant (fst (runYawns frames)).
Proof.
  induction frames as [|[mar now] frames IH] using rev_ind.
  - split; [cbn; lia|]. split; [cbn; lia|]. cbn.
    split; [discriminate|congruence].
  - rewrite runYawns_snoc. apply yawn_update_invariant, IH.
Qed.

(** X6. After any non-empty sequence of frames, the yawn detector keeps at
    most as many yawn times as the yawn count it reports, every yawn time
    kept is at most 60000 ms before the last frame, the MAR window holds at
    most 10 samples, and a yawn is reported in progress exactly when a yawn
    start time is held. *)
Lemma yawn_window (frames : list (Q * Z)) (mar : Q) (now : Z) :
  let r := runYawns (frames ++ [(mar, now)]) in
  (List.length (YawnDetector.yawnTimes (fst r))
   <= YawnDetector.yawnCountOut (snd r))%nat
  /\ (forall t, In t (YawnDetector.yawnTimes (fst r)) ->
        (now - t <= YawnDetector.YAWN_WINDOW_MS)%Z)
  /\ (List.length (YawnDetector.marHistory (fst r))
      <= YawnDetector.HISTORY_SIZE)%nat
  /\ (YawnDetector.isYawning (snd r) = true
      <-> YawnDetector.yawnStartTime (fst r) <> None).
Proof.
  cbv zeta. rewrite runYawns_snoc.
  pose proof (yawn_update_invariant (fst (runYawns frames)) mar now
                (runYawns_invariant frames)) as ((Hl & Hh & Hy) & Ec & Ey & Hw).
  cbv zeta in *. rewrite Ec, Ey.
  split; [exact Hl|]. split; [exact Hw|]. split; [exact Hh|exact Hy].
Qed.

(** X7. A call of [update] of the yawn detector raises the yawn counter,
    by one, exactly when the smoothed MAR is at most 0.6, a yawn was in
    progress, and its start time is non-zero and lies between 500 ms and
    3000 ms before the call; otherwise the counter is unchanged. *)
Lemma yawn_counted (d : YawnDetector.t) (mar : Q) (now : Z) :
  let r := YawnDetector.update d mar now in
  (YawnDetector.yawnCount (fst r) = S (YawnDetector.yawnCount d)
   <-> YawnDetector.avgMAR (snd r) <= YawnDetector.MAR_THRESHOLD
       /\ YawnDetector.isCurrentlyYawning d = true
       /\ exists start,
            YawnDetector.yawnStartTime d = Some start /\ start <> 0%Z
            /\ (YawnDetector.MIN_YAWN_DURATION_MS <= now - start
                <= YawnDetector.MAX_YAWN_DURATION_MS)%Z)
  /\ (YawnDetector.yawnCount (fst r) <> S (YawnDetector.yawnCount d) ->
      YawnDetector.yawnCount (fst r) = YawnDetector.yawnCount d).
Proof.
  unfold YawnDetector.update. cbv zeta.
  set (h := pushBounded YawnDetector.HISTORY_SIZE (YawnDetector.marHistory d)
              mar).
  destruct (sum h / JS.ofNat (List.length h) >? YawnDetector.MAR_THRESHOLD)
    eqn:Eo; cbn [negb andb];
  destruct (YawnDetector.isCurrentlyYawning d) eqn:Ey; cbn [negb andb].
  1, 2, 4:
    cbn [fst snd YawnDetector.yawnCount YawnDetector.avgMAR];
    (split; [split; [intro E; lia|]|reflexivity]);
    intros (Ha & Hb & _); try discriminate Hb;
    apply gt_true in Eo; lra.
  apply gt_false in Eo.
  destruct (YawnDetector.yawnStartTime d) as [start|] eqn:Es; cbn [JS.truthy].
  - destruct (Z.eqb_spec start 0) as [E0|E0]; cbn [negb].
    + cbn [fst snd YawnDetector.yawnCount YawnDetector.avgMAR].
      split; [split; [intro E; lia|]|reflexivity].
      intros (_ & _ & st & Est & Hn & _). congruence.
    + destruct (Z.leb_spec YawnDetector.MIN_YAWN_DURATION_MS (now - start));
      destruct (Z.leb_spec (now - start) YawnDetector.MAX_YAWN_DURATION_MS);
      cbn [andb fst snd YawnDetector.yawnCount YawnDetector.avgMAR].
      * split; [split; [intros _|reflexivity]|congruence].
        split; [exact Eo|]. split; [reflexivity|].
        exists start. repeat split; assumption.
      * split; [split; [intro E; lia|]|reflexivity].
        intros (_ & _ & st & Est & _ & H1 & H2).
        assert (st = start) by congruence. subst. lia.
      * split; [split; [intro E; lia|]|reflexivity].
        intros (_ & _ & st & Est & _ & H1 & H2).
        assert (st = start) by congruence. subst. lia.
      * split; [split; [intro E; lia|]|reflexivity].
        intros (_ & _ & st & Est & _ & H1 & H2).
        assert (st = start) by congruence. subst. lia.
  - cbn [fst snd YawnDetector.yawnCount YawnDetector.avgMAR].
    split; [split; [intro E; lia|]|reflexivity].
    intros (_ & _ & st & Est & _). discriminate.
Qed.

Lemma ms_over_seconds (ms : Z) (sec : Z) :
  (JS.ofZ ms / 1000 >? inject_Z sec) = true <-> (sec * 1000 < ms)%Z.
Proof.
  rewrite gt_true. unfold JS.ofZ.
  assert (E : inject_Z ms / 1000 * 1000 == inject_Z ms) by field.
  rewrite Zlt_Qlt, inject_Z_mult. change (inject_Z 1000) with 1000.
  split; intro H; lra.
Qed.

(** X8. The gaze tracker reports the mean of its window (the history with
    the new sample pushed, and the oldest sample dropped when that makes
    more than 10), and looking away exactly when the absolute value of
    that mean exceeds 0.4.  When it does not report looking away its timer
    is cleared and the duration is 0; a look away that begins on this call
    has duration 0; and the duration reported is drowsy (more than 5 s)
    only for a look away whose timer started more than 5000 ms before the
    call and is kept. *)
Lemma gaze_report (d : GazeTracker.t) (gaze : Q) (now : Z) :
  let w := pushBounded GazeTracker.HISTORY_SIZE (GazeTracker.gazeHistory d)
             gaze in
  let r := GazeTracker.update d gaze now in
  GazeTracker.horizontalGaze (snd r) = sum w / JS.ofNat (List.length w)
  /\ (GazeTracker.isLookingAway (snd r) = true
      <-> GazeTracker.LOOK_AWAY_THRESHOLD
          < Qabs (GazeTracker.horizontalGaze (snd r)))
  /\ (GazeTracker.isLookingAway (snd r) = false ->
      GazeTracker.lookAwayStartTime (fst r) = None
      /\ GazeTracker.lookAwayDuration (snd r) == 0)
  /\ (GazeTracker.isLookingAway (snd r) = true ->
      GazeTracker.lookAwayStartTime d = None ->
      GazeTracker.lookAwayStartTime (fst r) = Some now
      /\ GazeTracker.lookAwayDuration (snd r) == 0)
  /\ (GazeTracker.isDrowsyGaze (GazeTracker.lookAwayDuration (snd r)) = true ->
      GazeTracker.isLookingAway (snd r) = true
      /\ exists t0,
           GazeTracker.lookAwayStartTime d = Some t0
           /\ GazeTracker.lookAwayStartTime (fst r) = Some t0
           /\ (5000 < now - t0)%Z).
Proof.
  unfold GazeTracker.update, GazeTracker.isDrowsyGaze,
    GazeTracker.DROWSY_LOOK_AWAY_SEC. cbv zeta.
  set (w := pushBounded GazeTracker.HISTORY_SIZE (GazeTracker.gazeHistory d)
              gaze).
  unfold JS.abs.
  destruct (Qabs (sum w / JS.ofNat (List.length w))
            >? GazeTracker.LOOK_AWAY_THRESHOLD) eqn:Ea;
    cbn [fst snd GazeTracker.horizontalGaze GazeTracker.isLookingAway
         GazeTracker.lookAwayStartTime GazeTracker.lookAwayDuration].
  - apply gt_true in Ea.
    split; [reflexivity|]. split; [split; [intros _; exact Ea|reflexivity]|].
    split; [discriminate|]. split.
    + intros _ E. rewrite E. split; [reflexivity|].
      rewrite Z.sub_diag. reflexivity.
    + intro H. split; [reflexivity|].
      destruct (GazeTracker.lookAwayStartTime d) as [t0|].
      * exists t0. split; [reflexivity|]. split; [reflexivity|].
        apply (ms_over_seconds (now - t0) 5) in H. lia.
      * rewrite Z.sub_diag in H. discriminate H.
  - apply gt_false in Ea.
    split; [reflexivity|]. split; [split; [discriminate|intro H; lra]|].
    split; [intros _; split; reflexivity|]. split; [discriminate|].
    intro H. discriminate H.
Qed.

(** X9. The face-distance tracker reports the mean of its window (the
    history with the new width pushed, and the oldest width dropped when
    that makes more than 10): too close exactly when the mean exceeds
    0.35, too far exactly when it is below 0.15, never both.  When neither
    holds its timer is cleared and the warning duration is 0; and the
    warning duration is drowsy (more than 5 s) only while too close or too
    far with a timer started more than 5000 ms before the call and
    kept. *)
Lemma distance_report (d : FaceDistanceTracker.t) (width : Q) (now : Z) :
  let w := pushBounded FaceDistanceTracker.HISTORY_SIZE
             (FaceDistanceTracker.widthHistory d) width in
  let r := FaceDistanceTracker.update d width now in
  FaceDistanceTracker.faceWidth (snd r) = sum w / JS.ofNat (List.length w)
  /\ (FaceDistanceTracker.isTooClose (snd r) = true
      <-> FaceDistanceTracker.TOO_CLOSE_THRESHOLD
          < FaceDistanceTracker.faceWidth (snd r))
  /\ (FaceDistanceTracker.isTooFar (snd r) = true
      <-> FaceDistanceTracker.faceWidth (snd r)
          < FaceDistanceTracker.TOO_FAR_THRESHOLD)
  /\ FaceDistanceTracker.isTooClose (snd r)
     && FaceDistanceTracker.isTooFar (snd r) = false
  /\ (FaceDistanceTracker.isTooClose (snd r) = false ->
      FaceDistanceTracker.isTooFar (snd r) = false ->
      FaceDistanceTracker.warningStartTime (fst r) = None
      /\ FaceDistanceTracker.distanceWarningDuration (snd r) == 0)
  /\ (FaceDistanceTracker.isDrowsyDistance
        (FaceDistanceTracker.distanceWarningDuration (snd r)) = true ->
      (FaceDistanceTracker.isTooClose (snd r) = true
       \/ FaceDistanceTracker.isTooFar (snd r) = true)
      /\ exists t0,
           FaceDistanceTracker.warningStartTime d = Some t0
           /\ FaceDistanceTracker.warningStartTime (fst r) = Some t0
           /\ (5000 < now - t0)%Z).
Proof.
  unfold FaceDistanceTracker.update, FaceDistanceTracker.isDrowsyDistance,
    FaceDistanceTracker.DROWSY_WARNING_SEC,
    FaceDistanceTracker.TOO_CLOSE_THRESHOLD,
    FaceDistanceTracker.TOO_FAR_THRESHOLD. cbv zeta.
  set (w := pushBounded FaceDistanceTracker.HISTORY_SIZE
              (FaceDistanceTracker.widthHistory d) width).
  set (avg := sum w / JS.ofNat (List.length w)).
  assert (Hdrowsy : forall (b : bool),
            (JS.ofZ
               (snd (if b
                     then
                       (Some match FaceDistanceTracker.warningStartTime d with
                             | Some v => v | None => now end,
                        (now
                         - match FaceDistanceTracker.warningStartTime d with
                           | Some v => v | None => now end)%Z)
                     else (None, 0%Z))) / 1000 >? 5) = true ->
            b = true
            /\ exists t0, FaceDistanceTracker.warningStartTime d = Some t0
                          /\ (5000 < now - t0)%Z).
  { intros b H. destruct b; cbn [snd] in H; [|discriminate H].
    split; [reflexivity|].
    destruct (FaceDistanceTracker.warningStartTime d) as [t0|].
    - exists t0. split; [reflexivity|].
      apply (ms_over_seconds (now - t0) 5) in H. lia.
    - rewrite Z.sub_diag in H. discriminate H. }
  destruct (avg >? 0.35) eqn:Ec; destruct (avg <? 0.15) eqn:Ef;
    cbn [orb fst snd FaceDistanceTracker.faceWidth
         FaceDistanceTracker.isTooClose FaceDistanceTracker.isTooFar
         FaceDistanceTracker.warningStartTime
         FaceDistanceTracker.distanceWarningDuration andb];
    cmp.
  - lra.
  - split; [reflexivity|]. split; [split; [intros _; exact Ec|reflexivity]|].
    split; [split; [discriminate|intro; lra]|]. split; [reflexivity|].
    split; [discriminate|]. intro H. split; [left; reflexivity|].
    destruct (Hdrowsy true H) as (_ & t0 & E0 & Ht).
    exists t0. rewrite E0. repeat split; try reflexivity; exact Ht.
  - split; [reflexivity|]. split; [split; [discriminate|intro; lra]|].
    split; [split; [intros _; exact Ef|reflexivity]|]. split; [reflexivity|].
    split; [discriminate|]. intro H. split; [right; reflexivity|].
    destruct (Hdrowsy true H) as (_ & t0 & E0 & Ht).
    exists t0. rewrite E0. repeat split; try reflexivity; exact Ht.
  - split; [reflexivity|]. split; [split; [discriminate|intro; lra]|].
    split; [split; [discriminate|intro; lra]|]. split; [reflexivity|].
    split; [intros _ _; split; reflexivity|]. intro H. discriminate H.
Qed.

Lemma since_positive (start : option Z) (ts : Z) :
  (0 < PostureTracker.since start ts)%Z ->
  exists v, start = Some v /\ (v < ts)%Z.
Proof.
  unfold PostureTracker.since. destruct start as [v|]; [|lia].
  destruct (v =? 0)%Z; [lia|]. intro H. exists v. split; [reflexivity|lia].
Qed.

Lemma isAbnormalLean_spec (a : Q) :
  let r := PostureTracker.isAbnormalLean a in
  (fst r = true <-> snd r <> neutral)
  /\ (snd r = forward <-> 15 < a)
  /\ (snd r = backward <-> a < -10).
Proof.
  unfold PostureTracker.isAbnormalLean. cbv zeta.
  destruct (a >? 15) eqn:E1; [|destruct (a <? -10) eqn:E2]; cmp; cbn [fst snd].
  - split; [split; [discriminate|reflexivity]|].
    split; [split; [intros _; exact E1|reflexivity]|].
    split; [discriminate|intro; lra].
  - split; [split; [discriminate|reflexivity]|].
    split; [split; [discriminate|intro; lra]|].
    split; [intros _; exact E2|reflexivity].
  - split; [split; [discriminate|congruence]|].
    split; [split; [discriminate|intro; lra]|].
    split; [discriminate|intro; lra].
Qed.

(** X10. In every posture state the tracker returns: slouched implies
    slouching now with a slouch duration above 3000 ms; leaning holds
    exactly when the lean direction is not neutral; the direction is
    forward exactly when the adjusted lean angle exceeds 15 degrees and
    backward exactly when it is below -10; the body is present exactly
    when pose landmarks were given with a presence score of at least 0.4;
    without pose landmarks every flag is down with zero durations and zero
    presence; with pose landmarks the away duration is 0. *)
Lemma posture_report (d : PostureTracker.t)
    (lm : option PostureTracker.PoseLandmarks) (ts : Z) :
  let st := snd (PostureTracker.update d lm ts) in
  (isSlouched st = true ->
   isSlouchingNow st = true /\ (3000 < slouchDuration st)%Z)
  /\ (isLeaning st = true <-> leanDirection st <> neutral)
  /\ (leanDirection st = forward <-> 15 < leanAngle st)
  /\ (leanDirection st = backward <-> leanAngle st < -10)
  /\ (isPresent st = true
      <-> exists l, lm = Some l /\ 0.4 <= PostureTracker.posePresence l)
  /\ (lm = None ->
      isSlouched st = false /\ isLeaning st = false
      /\ leanDirection st = neutral /\ bodyPresence st = 0
      /\ slouchDuration st = 0%Z /\ leanDuration st = 0%Z)
  /\ (lm <> None -> awayDuration st = 0%Z).
Proof.
  cbv zeta. unfold PostureTracker.update. destruct lm as [l|].
  - cbv zeta.
    set (angle := PostureTracker.poseLeanAngle l
                  - JS.orElse (PostureTracker.baselineLeanAngle d)
                      (PostureTracker.poseLeanAngle l)).
    pose proof (isAbnormalLean_spec angle) as (L1 & L2 & L3).
    cbv zeta in L1, L2, L3.
    destruct (PostureTracker.isAbnormalLean angle) as [leaning dir].
    cbn [fst snd] in *.
    set (slouching := PostureTracker.isSlouchedPosture
                        (PostureTracker.poseVertical l)
                        (JS.orElse (PostureTracker.baselineVertical d)
                           (PostureTracker.poseVertical l))).
    assert (Hp : negb (PostureTracker.hasLeftSeat
                         (PostureTracker.posePresence l))
                 = true
                 <-> exists l0, Some l = Some l0
                                /\ 0.4 <= PostureTracker.posePresence l0).
    { unfold PostureTracker.hasLeftSeat. rewrite negb_true_iff, lt_false.
      split; [intro H; exists l; split; [reflexivity|exact H]|].
      intros (l0 & E & H). inversion E; subst. exact H. }
    assert (Hs : forall start,
              (3000 <? PostureTracker.since
                         (if slouching then Some start else None) ts)%Z
              = true ->
              slouching = true
              /\ (3000 < PostureTracker.since
                           (if slouching then Some start else None) ts)%Z).
    { intros start H. apply Z.ltb_lt in H. split; [|exact H].
      destruct slouching; [reflexivity|]. cbn in H. lia. }
    destruct leaning;
      [destruct (PostureTracker.leanStartTime d);
       [destruct (LeanDirection_eqb (PostureTracker.currentLeanDirection d)
                   dir)|]|];
      cbn [fst snd isSlouched isSlouchingNow slouchDuration isLeaning
           leanDirection leanAngle isPresent bodyPresence leanDuration
           awayDuration];
      (split; [apply Hs|]); (split; [exact L1|]); (split; [exact L2|]);
      (split; [exact L3|]); (split; [exact Hp|]);
      (split; [discriminate|reflexivity]).
  - cbn [fst snd isSlouched isSlouchingNow slouchDuration isLeaning
         leanDirection leanAngle isPresent bodyPresence leanDuration
         awayDuration].
    split; [discriminate|]. split; [split; [discriminate|congruence]|].
    split; [split; [discriminate|intro H; lra]|].
    split; [split; [discriminate|intro H; lra]|].
    split; [split; [discriminate|intros (l & E & _); discriminate E]|].
    split; [intros _; repeat split; reflexivity|congruence].
Qed.

(** X11. On a pose frame, a posture tracker without a vertical baseline
    compares the reading with itself: when the vertical distance is not
    negative it reports no slouching and a zero slouch duration, and it
    still has no vertical baseline afterwards.  A tracker without a lean
    baseline takes the current lean angle as its baseline: the adjusted
    angle is 0, no lean is reported, and the baseline is kept. *)
Lemma posture_uncalibrated (d : PostureTracker.t)
    (l : PostureTracker.PoseLandmarks) (ts : Z) :
  let r := PostureTracker.update d (Some l) ts in
  (PostureTracker.baselineVertical d = None ->
   0 <= PostureTracker.poseVertical l ->
   isSlouchingNow (snd r) = false /\ isSlouched (snd r) = false
   /\ slouchDuration (snd r) = 0%Z
   /\ PostureTracker.baselineVertical (fst r) = None)
  /\ (PostureTracker.baselineLeanAngle d = None ->
      leanAngle (snd r) == 0 /\ isLeaning (snd r) = false
      /\ leanDirection (snd r) = neutral
      /\ PostureTracker.baselineLeanAngle (fst r)
         = Some (PostureTracker.poseLeanAngle l)).
Proof.
  cbv zeta. unfold PostureTracker.update. cbv zeta. split.
  - intros E Hv. rewrite E. cbn [JS.orElse].
    assert (Es : PostureTracker.isSlouchedPosture
                   (PostureTracker.poseVertical l)
                   (PostureTracker.poseVertical l) = false).
    { unfold PostureTracker.isSlouchedPosture. cbv zeta. apply lt_false. lra. }
    rewrite Es.
    repeat match goal with
    | |- context [if ?c then _ else _] => destruct c
    | |- context [match ?c with Some _ => _ | None => _ end] => destruct c
    end; repeat split; reflexivity.
  - intro E. rewrite E. cbn [JS.orElse].
    assert (Ea : PostureTracker.isAbnormalLean
                   (PostureTracker.poseLeanAngle l
                    - PostureTracker.poseLeanAngle l) = (false, neutral)).
    { unfold PostureTracker.isAbnormalLean.
      assert (E1 : (PostureTracker.poseLeanAngle l
                    - PostureTracker.poseLeanAngle l >? 15) = false)
        by (apply gt_false; lra).
      assert (E2 : (PostureTracker.poseLeanAngle l
                    - PostureTracker.poseLeanAngle l <? -10) = false)
        by (apply lt_false; lra).
      rewrite E1, E2. reflexivity. }
    rewrite Ea. cbn [fst snd leanAngle isLeaning leanDirection
                     PostureTracker.baselineLeanAngle].
    split; [lra|]. repeat split; reflexivity.
Qed.

Lemma feedPerclos_history (xs : list bool) :
  PERCLOSDetector.eyeStateHistory (feedPerclos xs)
  = lastN PERCLOSDetector.WINDOW_SIZE xs.
Proof.
  induction xs as [|x xs IH] using rev_ind; [reflexivity|].
  unfold feedPerclos in *. rewrite fold_left_app. cbn [fold_left].
  unfold PERCLOSDetector.update at 1. cbv zeta.
  cbn [fst PERCLOSDetector.eyeStateHistory]. rewrite IH.
  apply pushBounded_lastN. unfold PERCLOSDetector.WINDOW_SIZE. lia.
Qed.

Lemma ofNat_le (n m : nat) : (n <= m)%nat -> JS.ofNat n <= JS.ofNat m.
Proof. intro H. unfold JS.ofNat. rewrite <- Zle_Qle. lia. Qed.

(** X12. After any sequence of observations, the window of the PERCLOS
    detector holds the last 1800 observations (fewer at the start); the
    frame counts it reports are the size of the window and the number of
    closed observations in it; the percentage it reports is 100 times
    their ratio and lies in [0, 100]; the window duration is at most 60 s;
    and a percentage that is critically drowsy is also drowsy. *)
Lemma perclos_window (xs : list bool) (x : bool) :
  let w := lastN PERCLOSDetector.WINDOW_SIZE (xs ++ [x]) in
  let r := PERCLOSDetector.update (feedPerclos xs) x in
  PERCLOSDetector.eyeStateHistory (fst r) = w
  /\ PERCLOSDetector.totalFrames (snd r)
     = Nat.min PERCLOSDetector.WINDOW_SIZE (S (List.length xs))
  /\ PERCLOSDetector.closedFrames (snd r) = count_occ bool_dec w true
  /\ (PERCLOSDetector.closedFrames (snd r)
      <= PERCLOSDetector.totalFrames (snd r))%nat
  /\ PERCLOSDetector.perclos (snd r)
     * JS.ofNat (PERCLOSDetector.totalFrames (snd r))
     == 100 * JS.ofNat (PERCLOSDetector.closedFrames (snd r))
  /\ 0 <= PERCLOSDetector.perclos (snd r) <= 100
  /\ PERCLOSDetector.windowDuration (snd r) <= 60
  /\ (PERCLOSDetector.isCriticallyDrowsy (PERCLOSDetector.perclos (snd r))
      = true ->
      PERCLOSDetector.isDrowsy (PERCLOSDetector.perclos (snd r)) = true).
Proof.
  cbv zeta. unfold PERCLOSDetector.update. cbv zeta.
  rewrite feedPerclos_history, pushBounded_lastN
    by (unfold PERCLOSDetector.WINDOW_SIZE; lia).
  set (w := lastN PERCLOSDetector.WINDOW_SIZE (xs ++ [x])).
  cbn [fst snd PERCLOSDetector.eyeStateHistory PERCLOSDetector.totalFrames
       PERCLOSDetector.closedFrames PERCLOSDetector.perclos
       PERCLOSDetector.windowDuration].
  assert (Hlen : List.length w
                 = Nat.min PERCLOSDetector.WINDOW_SIZE (S (List.length xs))).
  { unfold w. rewrite lastN_length, length_app. cbn [List.length].
    f_equal. lia. }
  assert (Hpos : (0 < List.length w)%nat)
    by (rewrite Hlen; unfold PERCLOSDetector.WINDOW_SIZE; lia).
  assert (Hc : (List.length (filter (fun closed : bool => closed) w)
                <= List.length w)%nat) by apply filter_length_le.
  assert (Hcount : List.length (filter (fun closed : bool => closed) w)
                   = count_occ bool_dec w true).
  { clear. induction w as [|[|] w IH]; cbn; [reflexivity| |]; rewrite ?IH;
      reflexivity. }
  rewrite (proj2 (Nat.ltb_lt _ _) Hpos).
  set (c := List.length (filter (fun closed : bool => closed) w)) in *.
  set (n := List.length w) in *.
  pose proof (ofNat_pos n Hpos) as Hn. pose proof (ofNat_le c n Hc) as Hcn.
  assert (Hc0 : 0 <= JS.ofNat c).
  { change 0 with (JS.ofNat 0). apply ofNat_le. lia. }
  assert (Hper : JS.ofNat c / JS.ofNat n * 100 * JS.ofNat n
                 == 100 * JS.ofNat c) by (field; lra).
  assert (Hfrac : 0 <= JS.ofNat c / JS.ofNat n <= 1).
  { split; [apply Qle_shift_div_l; lra|apply Qle_shift_div_r; lra]. }
  split; [reflexivity|]. split; [exact Hlen|]. split; [exact Hcount|].
  split; [exact Hc|]. split; [exact Hper|]. split; [lra|]. split.
  - apply Qle_shift_div_r; [lra|].
    assert (Hw : JS.ofNat n <= JS.ofNat PERCLOSDetector.WINDOW_SIZE)
      by (apply ofNat_le; rewrite Hlen; lia).
    change (JS.ofNat PERCLOSDetector.WINDOW_SIZE) with 1800 in Hw. lra.
  - unfold PERCLOSDetector.isCriticallyDrowsy, PERCLOSDetector.isDrowsy,
      PERCLOSDetector.CRITICAL_THRESHOLD, PERCLOSDetector.DROWSY_THRESHOLD.
    rewrite !ge_true. lra.
Qed.

(** ** Alarm batches and challenges *)

Lemma distinct_NoDup (l : list string) : distinct l = true -> NoDup l.
Proof.
  induction l as [|x r IH]; intro H; [constructor|].
  cbn [distinct] in H. apply andb_true_iff in H as [H1 H2].
  constructor; [|apply IH, H2].
  intro Hin. apply negb_true_iff in H1.
  assert (E : existsb (String.eqb x) r = true).
  { apply existsb_exists. exists x. split; [exact Hin|apply String.eqb_refl]. }
  congruence.
Qed.

Lemma library_ids_distinct (ty : AlarmTier) :
  NoDup (map defId (AlarmLibrary.source ty)).
Proof. destruct ty; apply distinct_NoDup; vm_compute; reflexivity. Qed.

Lemma seq_shift_map {B : Type} (f : nat -> B) (n m : nat) :
  map f (seq n m) = map (fun i => f (n + i)%nat) (seq 0 m).
Proof.
  revert n. induction m as [|m IH]; intro n; [reflexivity|].
  cbn [seq map]. rewrite Nat.add_0_r. f_equal.
  rewrite IH. rewrite <- seq_shift, map_map.
  apply map_ext. intro i. f_equal. lia.
Qed.

Lemma cursorOf_setCursor (c : AlarmCursor) (ty : AlarmTier) (v : nat) :
  cursorOf (setCursor c ty v) ty = v.
Proof. destruct ty; reflexivity. Qed.

Lemma cursorOf_setCursor_other (c : AlarmCursor) (ty ty' : AlarmTier)
    (v : nat) :
  ty' <> ty -> cursorOf (setCursor c ty v) ty' = cursorOf c ty'.
Proof.
  destruct ty, ty'; intro H; try reflexivity; contradiction H; reflexivity.
Qed.

Lemma setCursor_setCursor (c : AlarmCursor) (ty : AlarmTier) (v w : nat) :
  setCursor (setCursor c ty v) ty w = setCursor c ty w.
Proof. destruct ty; reflexivity. Qed.

Lemma getAlarmBatch_compose (c : AlarmCursor) (ty : AlarmTier) (n m : nat)
    (now : Z) :
  let r1 := getAlarmBatch c ty n now in
  let r2 := getAlarmBatch (snd r1) ty m now in
  getAlarmBatch c ty (n + m) now = (fst r1 ++ fst r2, snd r2).
Proof.
  cbv zeta. unfold getAlarmBatch. cbn [fst snd].
  rewrite cursorOf_setCursor, setCursor_setCursor.
  f_equal.
  - rewrite seq_app, map_app. f_equal. cbn [Nat.add].
    rewrite seq_shift_map. apply map_ext. intro i.
    rewrite Nat.Div0.add_mod_idemp_l. rewrite Nat.add_assoc. reflexivity.
  - f_equal. rewrite Nat.Div0.add_mod_idemp_l. f_equal. lia.
Qed.

Lemma getAlarmBatch_cursor (c : AlarmCursor) (ty ty' : AlarmTier) (n : nat)
    (now : Z) :
  let c' := snd (getAlarmBatch c ty n now) in
  (cursorOf c' ty < 40)%nat
  /\ cursorOf c' ty = ((cursorOf c ty + n) mod 40)%nat
  /\ (ty' <> ty -> cursorOf c' ty' = cursorOf c ty').
Proof.
  cbv zeta. unfold getAlarmBatch. cbn [snd]. rewrite cursorOf_setCursor.
  rewrite library_length.
  split; [|split].
  - apply Nat.mod_upper_bound; lia.
  - reflexivity.
  - apply cursorOf_setCursor_other.
Qed.

(** X13. Taking a batch of n + m alarms of a tier is taking n and then m:
    the alarms are the two batches in order and the cursor is the one left
    by the second.  After a batch of n the cursor of the tier is the old
    cursor plus n modulo 40, hence below 40, and the cursor of the other
    tier is unchanged. *)
Theorem alarm_batches_rotate (c : AlarmCursor) (ty ty' : AlarmTier)
    (n m : nat) (now : Z) :
  let r1 := getAlarmBatch c ty n now in
  let r2 := getAlarmBatch (snd r1) ty m now in
  getAlarmBatch c ty (n + m) now = (fst r1 ++ fst r2, snd r2)
  /\ (cursorOf (snd r1) ty < 40)%nat
  /\ cursorOf (snd r1) ty = ((cursorOf c ty + n) mod 40)%nat
  /\ (ty' <> ty -> cursorOf (snd r1) ty' = cursorOf c ty').
Proof.
  cbv zeta. split; [apply getAlarmBatch_compose|].
  apply getAlarmBatch_cursor.
Qed.

Lemma getAlarmBatch_ids (c : AlarmCursor) (ty : AlarmTier) (n : nat)
    (now : Z) :
  map id (fst (getAlarmBatch c ty n now))
  = map (fun i =>
           nth ((cursorOf c ty + i) mod 40) (map defId (AlarmLibrary.source ty))
             ""%string)
      (seq 0 n).
Proof.
  unfold getAlarmBatch. cbn [fst]. rewrite map_map, library_length.
  apply map_ext. intro i. cbn [id].
  change ""%string with (defId (mkAlarmDefinition "" "" warning)).
  rewrite map_nth. reflexivity.
Qed.

(** X14. A batch of at most 40 alarms holds no alarm id twice. *)
Lemma getAlarmBatch_NoDup (c : AlarmCursor) (ty : AlarmTier) (n : nat)
    (now : Z) :
  (n <= 40)%nat -> NoDup (map id (fst (getAlarmBatch c ty n now))).
Proof.
  intro Hn. rewrite getAlarmBatch_ids.
  apply NoDup_map_NoDup_ForallPairs; [|apply seq_NoDup].
  intros i j Hi Hj E. apply in_seq in Hi, Hj.
  pose proof (library_ids_distinct ty) as Hd.
  rewrite (NoDup_nth _ ""%string) in Hd.
  apply Hd in E.
  - assert (Ei : ((cursorOf c ty + i) mod 40
                  = (cursorOf c ty + j) mod 40)%nat) by exact E.
    clear - Ei Hi Hj Hn.
    pose proof (Nat.div_mod_eq (cursorOf c ty + i) 40).
    pose proof (Nat.div_mod_eq (cursorOf c ty + j) 40).
    pose proof (Nat.mod_upper_bound (cursorOf c ty + i) 40).
    pose proof (Nat.mod_upper_bound (cursorOf c ty + j) 40).
    nia.
  - rewrite length_map, library_length. apply Nat.mod_upper_bound. lia.
  - rewrite length_map, library_length. apply Nat.mod_upper_bound. lia.
Qed.

Lemma getAlarmBatch_NoDup_witness :
  (5 <= 40)%nat
  /\ NoDup (map id (fst (getAlarmBatch (mkCursor 38 0) nodding 5 0))).
Proof.
  assert (H : (5 <= 40)%nat) by lia.
  exact (conj H (getAlarmBatch_NoDup (mkCursor 38 0) nodding 5 0 H)).
Defined.

Lemma trimEnd_spaceless (str : string) :
  spaceless str = true -> Str.trimEnd str = str.
Proof.
  induction str as [|c r IH]; intro H; [reflexivity|].
  cbn [spaceless] in H. apply andb_true_iff in H as [Hc Hr].
  apply negb_true_iff in Hc. cbn [Str.trimEnd]. rewrite (IH Hr).
  destruct r; [rewrite Hc|]; reflexivity.
Qed.

Lemma trim_spaceless (str : string) :
  spaceless str = true -> Str.trim str = str.
Proof.
  intro H. unfold Str.trim.
  assert (E : Str.trimStart str = str).
  { destruct str as [|c r]; [reflexivity|]. cbn [spaceless] in H.
    apply andb_true_iff in H as [Hc _]. apply negb_true_iff in Hc.
    cbn [Str.trimStart]. rewrite Hc. reflexivity. }
  rewrite E. apply trimEnd_spaceless, H.
Qed.

Lemma string_of_uint_spaceless (d : Decimal.uint) :
  spaceless (DecimalString.NilEmpty.string_of_uint d) = true.
Proof. induction d; cbn; try assumption; reflexivity. Qed.

Lemma ofZ_spaceless (z : Z) :
  spaceless (Str.ofZ z) = true /\ Str.ofZ z <> ""%string.
Proof.
  unfold Str.ofZ, DecimalString.NilZero.string_of_int,
    DecimalString.NilZero.string_of_uint.
  destruct (Z.to_int z) as [d|d]; destruct d;
    cbn [DecimalString.NilEmpty.string_of_uint spaceless];
    rewrite ?string_of_uint_spaceless; split; try reflexivity; discriminate.
Qed.

Lemma floor_range (r : Q) (lo width : Z) :
  unitDraw r -> (0 < width)%Z ->
  (lo <= Qfloor (inject_Z lo + r * inject_Z width) <= lo + width - 1)%Z.
Proof.
  intros [H0 H1] Hw.
  assert (Hwq : 0 < inject_Z width)
    by (change 0 with (inject_Z 0); rewrite <- Zlt_Qlt; exact Hw).
  split.
  - rewrite <- (Qfloor_Z lo) at 1. apply Qfloor_resp_le.
    assert (0 <= r * inject_Z width) by (apply Qmult_le_0_compat; lra). lra.
  - pose proof (Qfloor_le (inject_Z lo + r * inject_Z width)) as Hf.
    assert (Hlt : inject_Z lo + r * inject_Z width < inject_Z (lo + width)).
    { rewrite inject_Z_plus.
      assert (r * inject_Z width < 1 * inject_Z width)
        by (apply Qmult_lt_compat_r; assumption). lra. }
    assert (Hz : inject_Z (Qfloor (inject_Z lo + r * inject_Z width))
                 < inject_Z (lo + width)) by lra.
    rewrite <- Zlt_Qlt in Hz. lia.
Qed.

(** X15. Given three draws in [0, 1), the math challenge is the prompt
    [Solve: a + b - c = ?] with a and b between 10 and 99 and c between 1
    and 9; its answer is the decimal numeral of a + b - c, which lies
    between 11 and 197; exactly the three draws are consumed. *)
Lemma generateMathChallenge_spec (ra rb rc : Q) (d : list Q) :
  unitDraw ra -> unitDraw rb -> unitDraw rc ->
  exists a b c : Z,
    Challenge.generateMathChallenge (ra :: rb :: rc :: d)
    = Some ((("Solve: " ++ Str.ofZ a ++ " + " ++ Str.ofZ b ++ " - "
              ++ Str.ofZ c ++ " = ?")%string,
             Str.ofZ (a + b - c)), d)
    /\ (10 <= a <= 99)%Z /\ (10 <= b <= 99)%Z /\ (1 <= c <= 9)%Z
    /\ (11 <= a + b - c <= 197)%Z.
Proof.
  intros Ha Hb Hc.
  exists (Qfloor (10 + ra * 90)), (Qfloor (10 + rb * 90)),
         (Qfloor (1 + rc * 9)).
  pose proof (floor_range ra 10 90 Ha eq_refl) as Fa.
  pose proof (floor_range rb 10 90 Hb eq_refl) as Fb.
  pose proof (floor_range rc 1 9 Hc eq_refl) as Fc.
  change (inject_Z 10) with 10 in *. change (inject_Z 90) with 90 in *.
  change (inject_Z 1) with 1 in *. change (inject_Z 9) with 9 in *.
  split; [reflexivity|]. repeat split; lia.
Qed.

Lemma generateMathChallenge_spec_witness :
  unitDraw 0.5
  /\ exists a b c : Z,
       Challenge.generateMathChallenge [0.5; 0.5; 0.5]
       = Some ((("Solve: " ++ Str.ofZ a ++ " + " ++ Str.ofZ b ++ " - "
                 ++ Str.ofZ c ++ " = ?")%string,
                Str.ofZ (a + b - c)), [])
       /\ (11 <= a + b - c <= 197)%Z.
Proof.
  assert (H : unitDraw 0.5) by (unfold unitDraw; lra).
  split; [exact H|].
  destruct (generateMathChallenge_spec 0.5 0.5 0.5 [] H H H)
    as (a & b & c & E & _ & _ & _ & Hr).
  exists a, b, c. split; [exact E|exact Hr].
Defined.

Lemma existsb_eqb_In (i : nat) (l : list nat) :
  existsb (Nat.eqb i) l = true <-> In i l.
Proof.
  rewrite existsb_exists. split.
  - intros (x & Hx & E). apply Nat.eqb_eq in E. subst. exact Hx.
  - intro H. exists i. split; [exact H|apply Nat.eqb_refl].
Qed.

Lemma pickWords_spec (draws : list Q) :
  forall (words : list string) (used : list nat) (ws : list string)
         (rest : list Q),
    pickedFrom used words ->
    Challenge.pickWords words used draws = Some (ws, rest) ->
    exists used',
      pickedFrom used' ws
      /\ ((List.length words <= 4)%nat -> List.length ws = 4%nat)
      /\ exists consumed, draws = consumed ++ rest.
Proof.
  induction draws as [|r draws IH]; intros words used ws rest Hp H.
  - cbn [Challenge.pickWords] in H.
    destruct (Nat.ltb_spec (List.length words) 4) as [Hl|Hl]; [discriminate|].
    inversion H; subst. exists used. split; [exact Hp|].
    split; [lia|exists []; reflexivity].
  - cbn [Challenge.pickWords] in H.
    destruct (Nat.ltb_spec (List.length words) 4) as [Hl|Hl].
    + set (idx := floorIndex (r * JS.ofNat (List.length Challenge.WORD_BANK)))
        in *.
      destruct (existsb (Nat.eqb idx) used) eqn:Eu.
      * destruct (IH _ _ _ _ Hp H) as (used' & Hp' & Hlen & consumed & Ec).
        exists used'. split; [exact Hp'|]. split; [exact Hlen|].
        exists (r :: consumed). rewrite Ec. reflexivity.
      * destruct (nth_error Challenge.WORD_BANK idx) as [w|] eqn:Ew;
          [|discriminate].
        assert (Hp2 : pickedFrom (idx :: used)
                        (words ++ [Str.toUpperCase w])).
        { destruct Hp as (Ew' & Hnd & Hall). split; [|split].
          - cbn [rev]. rewrite map_app, <- Ew'. cbn [map]. unfold bankWord.
            rewrite (nth_error_nth _ _ _ Ew). reflexivity.
          - constructor; [|exact Hnd]. intro Hin.
            apply existsb_eqb_In in Hin. congruence.
          - constructor; [|exact Hall].
            apply nth_error_Some. congruence. }
        destruct (IH _ _ _ _ Hp2 H) as (used' & Hp' & Hlen & consumed & Ec).
        exists used'. split; [exact Hp'|]. split.
        -- intros _. apply Hlen. rewrite length_app. cbn [List.length]. lia.
        -- exists (r :: consumed). rewrite Ec. reflexivity.
    + inversion H; subst. exists used. split; [exact Hp|].
      split; [lia|exists []; reflexivity].
Qed.

Lemma append_nonempty (a b : string) :
  b <> EmptyString -> (a ++ b)%string <> EmptyString.
Proof.
  intros Hb E. destruct a; cbn in E; [contradiction|discriminate].
Qed.

(** [generateAlarmPhrase]: four bank words at distinct positions and a
    three-digit number. *)
Lemma generateAlarmPhrase_spec (draws : list Q) (p : string) (rest : list Q) :
  Challenge.generateAlarmPhrase draws = Some (p, rest) ->
  exists (indices : list nat) (r : Q),
    List.length indices = 4%nat
    /\ NoDup indices
    /\ Forall (fun i => (i < List.length Challenge.WORD_BANK)%nat) indices
    /\ p = (Str.join "-" (map bankWord indices) ++ "-"
            ++ Str.ofZ (Qfloor (100 + r * 900)))%string
    /\ (exists consumed, draws = consumed ++ r :: rest)
    /\ (unitDraw r -> (100 <= Qfloor (100 + r * 900) <= 999)%Z)
    /\ p <> ""%string.
Proof.
  unfold Challenge.generateAlarmPhrase. intro H.
  apply bind_Some in H as (ws & d1 & Hw & H).
  apply bind_Some in H as (r & d2 & Hr & H).
  apply ret_Some in H as [-> ->].
  unfold random in Hr. destruct d1 as [|r' d1]; [discriminate|].
  inversion Hr; subst.
  assert (Hp0 : pickedFrom [] []) by (split; [reflexivity|split; constructor]).
  destruct (pickWords_spec _ _ _ _ _ Hp0 Hw)
    as (used & (Ews & Hnd & Hall) & Hlen & consumed & Ec).
  exists (rev used), r. split; [|split; [|split; [|split; [|split; [|split]]]]].
  - rewrite length_rev. rewrite Ews, length_map, length_rev in Hlen.
    apply Hlen. cbn. lia.
  - apply NoDup_rev, Hnd.
  - apply Forall_rev, Hall.
  - rewrite Ews. reflexivity.
  - exists consumed. exact Ec.
  - intro Hu. pose proof (floor_range r 100 900 Hu eq_refl) as F.
    change (inject_Z 100) with 100 in F. change (inject_Z 900) with 900 in F.
    lia.
  - apply append_nonempty. discriminate.
Qed.

(** X16. A generated alarm phrase is four words of the word bank in upper
    case, taken at four pairwise distinct positions of the bank, joined by
    hyphens and followed by a hyphen and the numeral of the floor of
    100 + 900 r for the last draw r consumed, which lies between 100 and
    999 when r is in [0, 1); the phrase is never empty. *)
Theorem alarm_phrase_shape (draws : list Q) (p : string) (rest : list Q) :
  Challenge.generateAlarmPhrase draws = Some (p, rest) ->
  exists (indices : list nat) (r : Q),
    List.length indices = 4%nat
    /\ NoDup indices
    /\ Forall (fun i => (i < List.length Challenge.WORD_BANK)%nat) indices
    /\ p = (Str.join "-" (map bankWord indices) ++ "-"
            ++ Str.ofZ (Qfloor (100 + r * 900)))%string
    /\ (exists consumed, draws = consumed ++ r :: rest)
    /\ (unitDraw r -> (100 <= Qfloor (100 + r * 900) <= 999)%Z)
    /\ p <> ""%string.
Proof. exact (generateAlarmPhrase_spec draws p rest). Qed.

Lemma alarm_phrase_shape_witness :
  exists p rest,
    Challenge.generateAlarmPhrase [0.1; 0.1; 0.3; 0.6; 0.9; 0.5]
    = Some (p, rest)
    /\ p <> ""%string.
Proof.
  destruct (rand_outcome Challenge.generateAlarmPhrase
              [0.1; 0.1; 0.3; 0.6; 0.9; 0.5]) as (p & rest & E);
    [vm_compute; reflexivity|].
  exists p, rest. split; [exact E|].
  destruct (alarm_phrase_shape _ p rest E)
    as (ix & r & _ & _ & _ & _ & _ & _ & Hne).
  exact Hne.
Defined.

Lemma answerable_ext (a a' : Alarms) :
  challengeType a' = challengeType a -> alarmPhrase a' = alarmPhrase a ->
  challengeAnswer a' = challengeAnswer a -> answerable a -> answerable a'.
Proof.
  intros E1 E2 E3 (input & He & Hm). exists input.
  unfold expectedInput, Ack.matchesTrimmed in *. rewrite E1, E2, E3.
  split; assumption.
Qed.

Lemma trivia_answers_accepted :
  Forall (fun qa =>
            snd qa <> ""%string
            /\ Str.toUpperCase (Str.trim (snd qa)) = Str.toUpperCase (snd qa))
    Challenge.TRIVIA_BANK.
Proof. repeat constructor; discriminate. Qed.

Lemma createChallenge_spec (preferred : option ChallengeType) (draws : list Q)
    (c : Challenge.t) (rest : list Q) :
  Challenge.createChallenge preferred draws = Some (c, rest) ->
  (forall ty, preferred = Some ty -> Challenge.type c = ty)
  /\ match Challenge.type c with
     | phrase =>
         exists p, Challenge.phraseOf c = Some p /\ p <> ""%string
     | math =>
         Challenge.phraseOf c = None
         /\ exists z, Challenge.answer c = Some (Str.ofZ z)
     | trivia =>
         Challenge.phraseOf c = None
         /\ exists qa, In qa Challenge.TRIVIA_BANK
                       /\ Challenge.prompt c = Some (fst qa)
                       /\ Challenge.answer c = Some (snd qa)
     end.
Proof.
  unfold Challenge.createChallenge. intro H.
  apply bind_Some in H as (chosen & d1 & Hc & H).
  assert (Hpref : forall ty, preferred = Some ty -> chosen = Some ty).
  { intros ty E. subst. apply ret_Some in Hc as [-> _]. reflexivity. }
  clear Hc.
  assert (Hcases :
    (chosen = Some math /\
     exists m, Challenge.generateMathChallenge d1 = Some (m, rest)
               /\ c = Challenge.mk math None (Some (fst m)) (Some (snd m)))
    \/ (chosen = Some trivia /\
        exists tr, Challenge.generateTriviaChallenge d1 = Some (tr, rest)
                   /\ c = Challenge.mk trivia None (Some (fst tr))
                            (Some (snd tr)))
    \/ (chosen <> Some math /\ chosen <> Some trivia /\
        exists p, Challenge.generateAlarmPhrase d1 = Some (p, rest)
                  /\ c = Challenge.mk phrase (Some p) None None)).
  { destruct chosen as [[| |]|].
    - right. right. apply bind_Some in H as (p & d2 & Hp & H).
      apply ret_Some in H as [-> ->].
      split; [discriminate|]. split; [discriminate|]. exists p. auto.
    - left. apply bind_Some in H as (m & d2 & Hm & H).
      apply ret_Some in H as [-> ->]. split; [reflexivity|]. exists m. auto.
    - right. left. apply bind_Some in H as (m & d2 & Hm & H).
      apply ret_Some in H as [-> ->]. split; [reflexivity|]. exists m. auto.
    - right. right. apply bind_Some in H as (p & d2 & Hp & H).
      apply ret_Some in H as [-> ->].
      split; [discriminate|]. split; [discriminate|]. exists p. auto. }
  clear H.
  destruct Hcases as [(Ech & m & Hm & ->)|[(Ech & tr & Ht & ->)
                                        |(N1 & N2 & p & Hp & ->)]];
    cbn [Challenge.type Challenge.phraseOf Challenge.answer Challenge.prompt].
  - split; [intros ty E; apply Hpref in E; congruence|].
    split; [reflexivity|].
    unfold Challenge.generateMathChallenge in Hm.
    apply bind_Some in Hm as (ra & d2 & _ & Hm).
    apply bind_Some in Hm as (rb & d3 & _ & Hm).
    apply bind_Some in Hm as (rc & d4 & _ & Hm).
    apply ret_Some in Hm as [-> _]. cbn [snd]. eexists. reflexivity.
  - split; [intros ty E; apply Hpref in E; congruence|].
    split; [reflexivity|].
    unfold Challenge.generateTriviaChallenge in Ht.
    apply bind_Some in Ht as (r & d2 & _ & Ht).
    unfold defined in Ht.
    destruct (nth_error Challenge.TRIVIA_BANK
                (floorIndex (r * JS.ofNat (List.length Challenge.TRIVIA_BANK))))
      as [qa|] eqn:E; [|discriminate].
    inversion Ht; subst. exists tr. split; [|split; reflexivity].
    eapply nth_error_In, E.
  - split.
    + intros ty E. apply Hpref in E. destruct ty; [reflexivity|..]; congruence.
    + exists p. split; [reflexivity|].
      apply generateAlarmPhrase_spec in Hp
        as (_ & _ & _ & _ & _ & _ & _ & _ & Hne). exact Hne.
Qed.

Lemma truthy_true (v : string) : v <> ""%string -> Str.truthy (Some v) = true.
Proof. intro H. apply truthy_Some. exists v. split; [reflexivity|exact H]. Qed.

(** What [assignNewChallenge] leaves in the alarm state. *)
Lemma assignNewChallenge_spec (preferred : option ChallengeType) (s : Session)
    (draws : list Q) (r : ChallengeType * Session) (rest : list Q) :
  assignNewChallenge preferred s draws = Some (r, rest) ->
  (forall ty, preferred = Some ty -> fst r = ty)
  /\ challengeType (alarms (snd r)) = fst r
  /\ answerable (alarms (snd r))
  /\ exists ph pr an,
       snd r = updateChallenge (fst r) pr an (updateAlarmPhrase ph s).
Proof.
  unfold assignNewChallenge. intro H.
  apply bind_Some in H as (c & d1 & Hc & H).
  apply createChallenge_spec in Hc as (Hpref & Hc).
  destruct (Challenge.type c) eqn:Ety.
  - destruct Hc as (p & Ep & Hne). rewrite Ep, (truthy_true p Hne) in H.
    apply ret_Some in H as [-> _]. cbn [fst snd].
    split; [exact Hpref|]. split; [reflexivity|]. split.
    + exists p. split; [reflexivity|]. exists p. repeat split; assumption.
    + do 3 eexists. reflexivity.
  - destruct Hc as (Ep & z & Ea). apply ret_Some in H as [-> _].
    cbn [fst snd]. split; [exact Hpref|]. split; [reflexivity|]. split.
    + exists (Str.ofZ z). rewrite Ea. split; [reflexivity|].
      exists (Str.ofZ z). destruct (ofZ_spaceless z) as [Hs Hne].
      split; [reflexivity|]. split; [exact Hne|apply trim_spaceless, Hs].
    + do 3 eexists. reflexivity.
  - destruct Hc as (Ep & qa & Hin & Epr & Ea). apply ret_Some in H as [-> _].
    cbn [fst snd]. split; [exact Hpref|]. split; [reflexivity|]. split.
    + pose proof trivia_answers_accepted as Hall.
      rewrite Forall_forall in Hall. destruct (Hall qa Hin) as [Hne Hup].
      exists (snd qa). rewrite Ea. split; [reflexivity|].
      exists (snd qa). split; [reflexivity|]. split; [exact Hne|exact Hup].
    + do 3 eexists. reflexivity.
Qed.

Lemma silenceAlarm_expected (s : Session) (input : string) :
  requireAck (alarms s) = true -> latestState s = awake ->
  Ack.matchesTrimmed (alarms s) input ->
  silenceAlarm input s = (true, resetAlarmState s).
Proof.
  intros Hr Hl Hm. unfold silenceAlarm. cbv zeta. rewrite Hr, Hl.
  cbn [negb AttentionState_eqb]. apply accepted_iff in Hm. rewrite Hm.
  reflexivity.
Qed.

(** X17. Whatever challenge [assignNewChallenge] assigns, the alarm state
    holds an expected input (the phrase shown, or the answer of the math or
    trivia prompt), and in any state with that alarm state in which the
    acknowledgment is required and the latest classification is awake,
    [silenceAlarm] accepts that input and resets the alarm state. *)
Lemma challenge_round_trip_gen (preferred : option ChallengeType)
    (s : Session) (draws : list Q) (r : ChallengeType * Session)
    (rest : list Q) :
  assignNewChallenge preferred s draws = Some (r, rest) ->
  exists input,
    expectedInput (alarms (snd r)) = Some input
    /\ forall s',
         alarms s' = alarms (updateRequireAck true (snd r)) ->
         latestState s' = awake ->
         silenceAlarm input s' = (true, resetAlarmState s').
Proof.
  intro H.
  apply assignNewChallenge_spec in H as (_ & _ & (input & He & Hm) & _).
  exists input. split; [exact He|]. intros s' Ea Hl.
  apply silenceAlarm_expected; [rewrite Ea; reflexivity|exact Hl|].
  unfold Ack.matchesTrimmed in *. rewrite Ea. exact Hm.
Qed.

Lemma challenge_round_trip_gen_witness :
  exists r rest input,
    assignNewChallenge (Some math) mounted [0.5; 0.5; 0.5] = Some (r, rest)
    /\ expectedInput (alarms (snd r)) = Some input
    /\ silenceAlarm input (updateRequireAck true (snd r))
       = (true, resetAlarmState (updateRequireAck true (snd r))).
Proof.
  destruct (rand_outcome (assignNewChallenge (Some math) mounted)
              [0.5; 0.5; 0.5]) as (r & rest & E); [vm_compute; reflexivity|].
  destruct (challenge_round_trip_gen (Some math) mounted _ r rest E)
    as (input & He & Hs).
  exists r, rest, input. split; [exact E|]. split; [exact He|].
  apply Hs; [reflexivity|].
  apply assignNewChallenge_spec in E as (_ & _ & _ & ph & pr & an & ->).
  reflexivity.
Defined.

(** ** Outstanding acknowledgments *)

Lemma batch_nonempty (c : AlarmCursor) (ty : AlarmTier) (n : nat) (now : Z) :
  (0 < n)%nat -> fst (getAlarmBatch c ty n now) <> [].
Proof.
  intros Hn E. pose proof (getAlarmBatch_length c ty n now) as Hl.
  rewrite E in Hl. cbn in Hl. lia.
Qed.

Lemma raise_nonempty (ty : AlarmTier) (n : nat) (now : Z) (s : Session) :
  (0 < n)%nat -> activeAlarms (alarms (raiseAlarmBatch ty n now s)) <> [].
Proof. intro Hn. apply batch_nonempty, Hn. Qed.

Lemma batchSize_pos (b : bool) : (0 < batchSize b)%nat.
Proof. destruct b; cbn; lia. Qed.

Ltac count_pos := first [apply batchSize_pos | cbn; lia].

Ltac rand_spec :=
  repeat match goal with
  | H : bind _ _ _ = Some _ |- _ => apply bind_Some in H as (? & ? & ? & ?)
  | H : ret _ _ = Some _ |- _ => apply ret_Some in H as [? ?]; subst
  | H : (if ?c then _ else _) _ = Some _ |- _ => destruct c eqn:?
  | H : assignNewChallenge _ _ _ = Some _ |- _ =>
      apply assignNewChallenge_spec in H as (_ & _ & ? & (? & ? & ? & ?))
  | H : mathOrTrivia _ = Some _ |- _ => clear H
  end.

(** An acknowledgment newly required after a batch was raised and a
    challenge assigned. *)
Ltac ack_raised :=
  match goal with
  | Ha : answerable (alarms (snd ?x)),
    Hs : snd ?x = updateChallenge _ _ _ (updateAlarmPhrase _ _) |- _ =>
      intros _; split;
      [ rewrite Hs; cbn -[getAlarmBatch]; apply batch_nonempty; count_pos
      | eapply answerable_ext; [..|exact Ha]; reflexivity ]
  end.

Ltac ack_kept :=
  match goal with
  | Hi : ackInvariant ?s |- _ =>
      let Hreq := fresh in
      intro Hreq; cbn -[getAlarmBatch] in Hreq;
      first
        [ discriminate Hreq
        | congruence
        | assert (Hold : requireAck (alarms s) = true)
            by first [exact Hreq | assumption | congruence];
          split;
          [ first [ apply raise_nonempty; count_pos
                  | cbn -[getAlarmBatch]; apply batch_nonempty; count_pos
                  | exact (proj1 (Hi Hold)) ]
          | eapply answerable_ext; [..|exact (proj2 (Hi Hold))]; reflexivity ] ]
  end.

Ltac ack_prep :=
  repeat match goal with
  | |- context [if ?c then _ else _] => destruct c eqn:?
  end;
  repeat match goal with
  | H : _ = true |- _ => progress cbn -[getAlarmBatch] in H
  | H : _ = false |- _ => progress cbn -[getAlarmBatch] in H
  end;
  rewrite ?negb_false_iff, ?negb_true_iff, ?orb_false_iff, ?andb_true_iff
    in *.

Ltac ack_done :=
  ack_prep; unfold ackInvariant at 1; first [ack_raised | ack_kept].

Lemma resetAlarmState_ack (s : Session) : ackInvariant (resetAlarmState s).
Proof. intro H. discriminate H. Qed.

Lemma missingFace_ack (now : Z) (sec : Q) (s : Session) (d : list Q)
    (s' : Session) (d' : list Q) :
  ackInvariant s -> missingFace now sec s d = Some (s', d') -> ackInvariant s'.
Proof.
  intro Hi. unfold missingFace. cbv zeta. intro H.
  destruct (sec >=? EYES_CLOSED_SLEEP_SEC);
    [|destruct (negb true && (sec >=? EYES_CLOSED_NOD_SEC))].
  all: rand_spec.
  all: ack_done.
Qed.

Lemma escalateAlarmed_ack (now : Z) (best : AttentionState) (s : Session)
    (d : list Q) (s' : Session) (d' : list Q) :
  ackInvariant s -> escalateAlarmed now best s d = Some (s', d') ->
  ackInvariant s'.
Proof.
  intro Hi. unfold escalateAlarmed. cbv zeta. intro H.
  rand_spec; ack_done.
Qed.

Lemma warnThenAlarm_ack (now : Z) (best : AttentionState) (msg : string)
    (pr : Priority) (s : Session) (d : list Q) (s' : Session) (d' : list Q) :
  ackInvariant s -> warnThenAlarm now best msg pr s d = Some (s', d') ->
  ackInvariant s'.
Proof.
  intro Hi. unfold warnThenAlarm. cbv zeta. intro H.
  rand_spec; ack_done.
Qed.

Lemma escalateRisk_ack (now : Z) (best : AttentionState)
    (w : option (string * Priority)) (s : Session) (d : list Q)
    (s' : Session) (d' : list Q) :
  ackInvariant s -> escalateRisk now best w s d = Some (s', d') ->
  ackInvariant s'.
Proof.
  intro Hi. unfold escalateRisk. intro H. destruct w as [[msg pr]|].
  - destruct (negb (requireAck (alarms s))).
    + eapply warnThenAlarm_ack; eassumption.
    + eapply escalateAlarmed_ack; eassumption.
  - destruct (requireAck (alarms s)).
    + eapply escalateAlarmed_ack; eassumption.
    + apply ret_Some in H as [-> _]. exact Hi.
Qed.

Lemma settleAwake_alarms (s : Session) :
  requireAck (alarms (settleAwake s)) = requireAck (alarms s)
  /\ (requireAck (alarms s) = true -> alarms (settleAwake s) = alarms s).
Proof.
  unfold settleAwake. cbv zeta.
  set (s1 := if Str.truthy (seenActiveWarning (closure s))
             then setWarningStartTime None
                    (setActiveWarning None (emit CancelVoiceWarning s))
             else s).
  assert (E1 : alarms s1 = alarms s)
    by (unfold s1; destruct (Str.truthy (seenActiveWarning (closure s)));
        reflexivity).
  clearbody s1. rewrite <- E1. clear E1.
  destruct (requireAck (alarms s1)) eqn:Er; cbn [negb andb].
  - rewrite Er. cbn [negb andb]. rewrite Er. split; [exact Er|reflexivity].
  - split; [|discriminate].
    repeat match goal with
    | |- context [if ?c then _ else _] => destruct c
    end; cbn; rewrite ?Er; reflexivity.
Qed.

Lemma settleAwake_ack (s : Session) :
  ackInvariant s -> ackInvariant (settleAwake s).
Proof.
  intros Hi Hreq. destruct (settleAwake_alarms s) as [E1 E2].
  rewrite E1 in Hreq. rewrite (E2 Hreq). exact (Hi Hreq).
Qed.

Lemma ack_same_alarms (s s' : Session) :
  alarms s' = alarms s -> ackInvariant s -> ackInvariant s'.
Proof. unfold ackInvariant. intros E Hi. rewrite E. exact Hi. Qed.

Lemma fuseFrame_ack (now : Z) (f : FaceLandmarks) (b : CalibrationBaselines)
    (s : Session) (d : list Q) (s' : Session) (d' : list Q) :
  ackInvariant s -> fuseFrame now f b s d = Some (s', d') -> ackInvariant s'.
Proof.
  intro Hi. unfold fuseFrame. cbv zeta. intro H.
  assert (Ht : alarms (snd (updateTrackers now f b s)) = alarms s)
    by reflexivity.
  destruct (updateTrackers now f b s) as [signals s1]. cbn [snd] in Ht.
  match type of H with
  | context [classify ?x] => destruct (classify x) as [best conf]
  end.
  apply bind_Some in H as (s2 & d2 & H2 & H). apply ret_Some in H as [-> _].
  assert (Hi2 : ackInvariant s2).
  { match type of H2 with
    | (if ?c then _ else _) _ = _ => destruct c
    end.
    - eapply escalateRisk_ack; [|exact H2].
      eapply ack_same_alarms; [|exact Hi].
      match goal with
      | |- context [if ?c then _ else _] => destruct c
      end; exact Ht.
    - apply ret_Some in H2 as [-> _]. apply settleAwake_ack.
      eapply ack_same_alarms; [|exact Hi].
      match goal with
      | |- context [if ?c then _ else _] => destruct c
      end; exact Ht. }
  eapply ack_same_alarms; [|exact Hi2].
  match goal with
  | |- context [if ?c then _ else _] => destruct c
  end; reflexivity.
Qed.

Lemma absenceAlarm_ack (now : Z) (s : Session) (d : list Q)
    (r : Outcome * Session) (d' : list Q) :
  absenceAlarm now s d = Some (r, d') -> ackInvariant (snd r).
Proof.
  unfold absenceAlarm. cbv zeta. intro H. rand_spec. cbn [snd].
  unfold ackInvariant. ack_raised.
Qed.

Lemma calibrationLost_ack (s : Session) :
  ackInvariant s -> ackInvariant (calibrationLost s).
Proof.
  intro Hi. unfold calibrationLost. cbv zeta.
  cbn [alarms setConfidence setState setCalibration].
  destruct (requireAck (alarms s)) eqn:Er; cbn [negb].
  - eapply ack_same_alarms; [|exact Hi]. reflexivity.
  - intro H. cbn in H. discriminate H.
Qed.

Lemma handleNoFace_ack (now : Z) (s : Session) (d : list Q)
    (r : Outcome * Session) (d' : list Q) :
  ackInvariant s -> handleNoFace now s d = Some (r, d') -> ackInvariant (snd r).
Proof.
  intro Hi. unfold handleNoFace. cbv zeta. intro H.
  set (s0 := setMissingFaceFrames (S (missingFaceFrames (absence s))) s) in *.
  assert (Hi0 : ackInvariant s0)
    by (eapply ack_same_alarms; [|exact Hi]; reflexivity).
  assert (Hrest : forall s1 r1 d1 d1',
            ackInvariant s1 ->
            (if collecting (calibration s1)
             then ret (CalibrationLost, calibrationLost s1)
             else s2 <- missingFace now
                          (JS.ofNat (missingFaceFrames (absence s0)) / FPS)
                          s1 ;;
                  ret (FaceMissing, s2)) d1 = Some (r1, d1') ->
            ackInvariant (snd r1)).
  { intros s1 r1 d1 d1' Hi1 H1. destruct (collecting (calibration s1)).
    - apply ret_Some in H1 as [-> _]. apply calibrationLost_ack, Hi1.
    - apply bind_Some in H1 as (s2 & d2 & Hm & H1).
      apply ret_Some in H1 as [-> _]. eapply missingFace_ack; eassumption. }
  destruct (isAbsenceAlarmArmed (absence s0)).
  - match type of H with
    | (if ?c then _ else _) _ = _ => destruct c
    end.
    + eapply absenceAlarm_ack, H.
    + eapply Hrest; [|exact H].
      eapply ack_same_alarms; [|exact Hi0]. reflexivity.
  - eapply Hrest; [|exact H]. exact Hi0.
Qed.

Lemma collectCalibration_ack (now : Z) (f : FaceLandmarks) (s : Session) :
  ackInvariant s -> ackInvariant (snd (collectCalibration now f s)).
Proof.
  intro Hi. unfold collectCalibration. cbv zeta.
  match goal with
  | |- context [if ?c then _ else _] => destruct c
  end; cbn [snd].
  - eapply ack_same_alarms; [|exact Hi].
    destruct (latestPostureState (trackers s)) as [p|];
      [destruct (seenPoseLandmarks (closure s));
       [destruct (isPresent p)|]|]; reflexivity.
  - cbn [alarms setConfidence setState setCalibration].
    destruct (requireAck (alarms s)) eqn:Er; cbn [negb].
    + eapply ack_same_alarms; [|exact Hi]. reflexivity.
    + intro H. cbn in H. congruence.
Qed.

Lemma detectorEffect_ack (s : Session) :
  ackInvariant s -> ackInvariant (detectorEffect s).
Proof.
  intro Hi. unfold detectorEffect. destruct (negb (isActive s)).
  - apply resetAlarmState_ack.
  - eapply ack_same_alarms; [|exact Hi]. reflexivity.
Qed.

Lemma handleFace_ack (now : Z) (f : FaceLandmarks) (s : Session)
    (d : list Q) (r : Outcome * Session) (d' : list Q) :
  ackInvariant s -> handleFace now f s d = Some (r, d') -> ackInvariant (snd r).
Proof.
  intro Hi. unfold handleFace. cbv zeta. intro H.
  set (s0 := setAbsentCountdown None
               (setAbsentStartTime None (setMissingFaceFrames 0 s))) in *.
  assert (Hi0 : ackInvariant s0)
    by (eapply ack_same_alarms; [|exact Hi]; reflexivity).
  assert (Hi1 : ackInvariant
                  (snd (if collecting (calibration s0)
                        then collectCalibration now f s0 else (true, s0)))).
  { destruct (collecting (calibration s0)); [|exact Hi0].
    apply collectCalibration_ack, Hi0. }
  destruct (if collecting (calibration s0)
            then collectCalibration now f s0 else (true, s0)) as [proceed s1].
  cbn [snd] in Hi1. destruct proceed; cbn [negb] in H.
  - match type of H with
    | match ?x with _ => _ end _ = _ => destruct x as [ab|]
    end.
    + apply bind_Some in H as (s2 & d2 & Hf & H).
      apply ret_Some in H as [-> _]. eapply fuseFrame_ack; eassumption.
    + apply ret_Some in H as [-> _].
      eapply ack_same_alarms; [|exact Hi1]. reflexivity.
  - apply ret_Some in H as [-> _]. exact Hi1.
Qed.

Lemma handleLandmarks_ack (now : Z) (lm : option FaceLandmarks)
    (s : Session) (d : list Q) (r : Outcome * Session) (d' : list Q) :
  ackInvariant s -> handleLandmarks now lm s d = Some (r, d') ->
  ackInvariant (snd r).
Proof.
  intro Hi. unfold handleLandmarks. cbv zeta. intro H. destruct lm as [f|].
  - apply bind_Some in H as (r1 & d1 & Hf & H).
    apply ret_Some in H as [-> _]. cbn [snd].
    assert (Hi1 : ackInvariant (snd r1)).
    { eapply handleFace_ack; [|exact Hf].
      eapply ack_same_alarms; [|exact Hi]. reflexivity. }
    match goal with
    | |- context [if ?c then _ else _] => destruct c
    end; [apply detectorEffect_ack|]; exact Hi1.
  - eapply handleNoFace_ack; [|exact H].
    eapply ack_same_alarms; [|exact Hi]. reflexivity.
Qed.

Lemma triggerDebugAlarm_ack (p : option ChallengeType) (now : Z)
    (s : Session) (d : list Q) (s' : Session) (d' : list Q) :
  triggerDebugAlarm p now s d = Some (s', d') -> ackInvariant s'.
Proof.
  unfold triggerDebugAlarm. cbv zeta. intro H. rand_spec.
  unfold ackInvariant. ack_raised.
Qed.

Lemma silenceAlarm_ack (input : string) (s : Session) :
  ackInvariant s -> ackInvariant (snd (silenceAlarm input s)).
Proof.
  intro Hi. unfold silenceAlarm. cbv zeta.
  repeat match goal with
  | |- context [if ?c then _ else _] => destruct c
  end; cbn [snd]; first [exact Hi | apply resetAlarmState_ack].
Qed.

Lemma activationEffect_ack (a : bool) (s : Session) :
  ackInvariant (activationEffect a s).
Proof.
  unfold activationEffect. cbv zeta. apply detectorEffect_ack.
  destruct a; intro H; cbn in H; discriminate H.
Qed.

Lemma disarmAbsenceAlarm_ack (s : Session) :
  ackInvariant s -> ackInvariant (disarmAbsenceAlarm s).
Proof.
  intro Hi. unfold disarmAbsenceAlarm. cbv zeta.
  destruct (isAbsenceAlarmArmed (absence s)); [apply detectorEffect_ack|];
    (eapply ack_same_alarms; [|exact Hi]; reflexivity).
Qed.

Lemma step_ack (s : Session) (e : Event) (o : option Outcome) (s' : Session) :
  ackInvariant s -> step s e = Some (o, s') -> ackInvariant s'.
Proof.
  intros Hi H. destruct e; cbn [step] in H.
  - inversion H; subst. apply activationEffect_ack.
  - destruct (Bool.eqb active (isActive s)); inversion H; subst;
      [exact Hi|apply activationEffect_ack].
  - destruct (isActive s); [|inversion H; subst; exact Hi].
    destruct (handleLandmarks now detectedLandmarks s draws)
      as [[r rest]|] eqn:E;
      [|discriminate].
    inversion H; subst. eapply handleLandmarks_ack; eassumption.
  - destruct (isActive s); inversion H; subst; [|exact Hi].
    eapply ack_same_alarms; [|exact Hi]. reflexivity.
  - inversion H; subst. apply silenceAlarm_ack, Hi.
  - inversion H; subst. apply disarmAbsenceAlarm_ack, Hi.
  - destruct (triggerDebugAlarm preferred now s draws) as [[s1 rest]|] eqn:E;
      [|discriminate].
    inversion H; subst. eapply triggerDebugAlarm_ack, E.
Qed.

Lemma run_ack (events : list Event) :
  forall (s : Session) (os : list Outcome) (s' : Session),
    ackInvariant s -> run s events = Some (os, s') -> ackInvariant s'.
Proof.
  induction events as [|e events IH]; intros s os s' Hi H.
  - inversion H; subst. exact Hi.
  - cbn [run] in H. destruct (step s e) as [[o s1]|] eqn:E; [|discriminate].
    destruct (run s1 events) as [[os1 s2]|] eqn:Er; [|discriminate].
    inversion H; subst. eapply IH; [|exact Er]. eapply step_ack; eassumption.
Qed.

(** X18. Starting from a state in which no acknowledgment is required,
    after any sequence of events: whenever an acknowledgment is required,
    at least one alarm is displayed, the challenge has an expected input,
    and [silenceAlarm] accepts that input as soon as the latest
    classification is awake. *)
Theorem outstanding_challenge_is_answerable (s : Session)
    (events : list Event) (os : list Outcome) (s' : Session) :
  requireAck (alarms s) = false ->
  run s events = Some (os, s') ->
  requireAck (alarms s') = true ->
  activeAlarms (alarms s') <> []
  /\ exists input,
       expectedInput (alarms s') = Some input
       /\ (latestState s' = awake ->
           silenceAlarm input s' = (true, resetAlarmState s')).
Proof.
  intros H0 Hrun Hreq.
  assert (Hi : ackInvariant s) by (intro H; congruence).
  destruct (run_ack events s os s' Hi Hrun Hreq) as (Hne & input & He & Hm).
  split; [exact Hne|]. exists input. split; [exact He|].
  intro Hl. apply silenceAlarm_expected; assumption.
Qed.

Lemma outstanding_challenge_is_answerable_witness :
  requireAck (alarms mounted) = false
  /\ exists os s',
       run mounted Traces.debugAlarm = Some (os, s')
       /\ requireAck (alarms s') = true
       /\ activeAlarms (alarms s') <> [].
Proof.
  assert (H0 : requireAck (alarms mounted) = false) by reflexivity.
  split; [exact H0|].
  destruct (run_outcome mounted Traces.debugAlarm) as (os & s' & E);
    [vm_compute; reflexivity|].
  assert (Hreq : requireAck (alarms s') = true).
  { assert (En : option_map (fun r => requireAck (alarms (snd r)))
                   (run mounted Traces.debugAlarm) = Some true)
      by (vm_compute; reflexivity).
    rewrite E in En. cbn in En. congruence. }
  exists os, s'. split; [exact E|]. split; [exact Hreq|].
  exact (proj1 (outstanding_challenge_is_answerable mounted Traces.debugAlarm
                  os s' H0 E Hreq)).
Defined.

(** ** Frames of a session *)

Ltac det_done :=
  repeat match goal with
  | H : snd ?x = _ |- _ => rewrite H; clear H
  end;
  repeat match goal with
  | |- context [if ?c then _ else _] => destruct c
  end;
  repeat split; reflexivity.

Lemma sameDetection_refl (s : Session) : sameDetection s s.
Proof. repeat split; reflexivity. Qed.

Lemma sameDetection_trans (s1 s2 s3 : Session) :
  sameDetection s1 s2 -> sameDetection s2 s3 -> sameDetection s1 s3.
Proof.
  unfold sameDetection. intros H1 H2.
  destruct H1 as (?&?&?&?&?&?&?&?&?&?&?&?).
  destruct H2 as (?&?&?&?&?&?&?&?&?&?&?&?).
  repeat split; congruence.
Qed.

Lemma escalateAlarmed_detection (now : Z) (best : AttentionState)
    (s : Session) (d : list Q) (s' : Session) (d' : list Q) :
  escalateAlarmed now best s d = Some (s', d') -> sameDetection s s'.
Proof.
  unfold escalateAlarmed. cbv zeta. intro H. rand_spec; det_done.
Qed.

Lemma warnThenAlarm_detection (now : Z) (best : AttentionState) (msg : string)
    (pr : Priority) (s : Session) (d : list Q) (s' : Session) (d' : list Q) :
  warnThenAlarm now best msg pr s d = Some (s', d') -> sameDetection s s'.
Proof.
  unfold warnThenAlarm. cbv zeta. intro H. rand_spec; det_done.
Qed.

Lemma escalateRisk_detection (now : Z) (best : AttentionState)
    (w : option (string * Priority)) (s : Session) (d : list Q)
    (s' : Session) (d' : list Q) :
  escalateRisk now best w s d = Some (s', d') -> sameDetection s s'.
Proof.
  unfold escalateRisk. intro H. destruct w as [[msg pr]|].
  - destruct (negb (requireAck (alarms s))).
    + eapply warnThenAlarm_detection, H.
    + eapply escalateAlarmed_detection, H.
  - destruct (requireAck (alarms s)).
    + eapply escalateAlarmed_detection, H.
    + apply ret_Some in H as [-> _]. apply sameDetection_refl.
Qed.

Lemma settleAwake_detection (s : Session) : sameDetection s (settleAwake s).
Proof. unfold settleAwake. cbv zeta. det_done. Qed.

(** What a fused frame reports. *)
Lemma fuseFrame_report (now : Z) (f : FaceLandmarks)
    (b : CalibrationBaselines) (s : Session) (d : list Q) (s' : Session)
    (d' : list Q) :
  fuseFrame now f b s d = Some (s', d') ->
  let signals := fst (updateTrackers now f b s) in
  let n := closedFramesAfter f b s in
  let c := classify (normalize (fuseEvidence n signals)) in
  closedFrames s' = n /\ latestState s' = fst c /\ state s' = fst c
  /\ confidence s' = snd c
  /\ isActive s' = isActive s /\ calibration s' = calibration s
  /\ absence s' = absence s /\ closure s' = closure s
  /\ trackers s' = trackers (snd (updateTrackers now f b s)).
Proof.
  unfold fuseFrame, closedFramesAfter. cbv zeta. intro H.
  destruct (updateTrackers now f b s) as [signals s1] eqn:Eu.
  assert (Es1 : isActive s1 = isActive s /\ calibration s1 = calibration s
                /\ absence s1 = absence s /\ closure s1 = closure s
                /\ closedFrames s1 = closedFrames s).
  { unfold updateTrackers in Eu. cbv zeta in Eu. inversion Eu; subst.
    repeat split; reflexivity. }
  destruct Es1 as (A1 & A2 & A3 & A4 & A5).
  cbn [fst snd].
  set (thr := Qmax (ear b * 0.75) (BASE_EAR_THRESHOLD * 0.75)) in *.
  set (s2 := if currentEar f <? thr
             then setClosedFrames (S (closedFrames s1)) s1
             else setClosedFrames 0 s1) in *.
  assert (E2 : closedFrames s2
               = (if currentEar f <? thr then S (closedFrames s) else 0%nat)
               /\ isActive s2 = isActive s /\ calibration s2 = calibration s
               /\ absence s2 = absence s /\ closure s2 = closure s
               /\ trackers s2 = trackers s1).
  { unfold s2. destruct (currentEar f <? thr); cbn; rewrite ?A5;
      repeat split; assumption. }
  destruct E2 as (B1 & B2 & B3 & B4 & B5 & B6).
  rewrite <- B1.
  destruct (classify (normalize (fuseEvidence (closedFrames s2) signals)))
    as [best conf].
  apply bind_Some in H as (s3 & d3 & H3 & H). apply ret_Some in H as [-> _].
  assert (H23 : sameDetection (setLatestState best s2) s3).
  { match type of H3 with
    | (if ?c then _ else _) _ = _ => destruct c
    end.
    - eapply escalateRisk_detection, H3.
    - apply ret_Some in H3 as [-> _]. apply settleAwake_detection. }
  destruct H23 as (C1&C2&C3&C4&C5&C6&C7&C8&C9&C10&C11&C12).
  cbn in C1, C4, C5, C9, C10, C11, C12.
  match goal with
  | |- context [if ?c then _ else _] => destruct c
  end; cbn; repeat split; congruence.
Qed.

(** A frame with a face that ends in the fusion ran [fuseFrame]. *)
Lemma handleFace_fused (now : Z) (f : FaceLandmarks) (s : Session)
    (d : list Q) (s' : Session) (d' : list Q) :
  handleFace now f s d = Some ((Fused, s'), d') ->
  exists b s1,
    fuseFrame now f b s1 d = Some (s', d')
    /\ isActive s1 = isActive s
    /\ alarms s1 = alarms s
    /\ voice s1 = voice s
    /\ effects s1 = effects s.
Proof.
  unfold handleFace. cbv zeta. intro H.
  set (s0 := setAbsentCountdown None
               (setAbsentStartTime None (setMissingFaceFrames 0 s))) in *.
  assert (Hc : forall r, r = (if collecting (calibration s0)
                              then collectCalibration now f s0
                              else (true, s0)) ->
               fst r = true ->
               isActive (snd r) = isActive s /\ alarms (snd r) = alarms s
               /\ voice (snd r) = voice s /\ effects (snd r) = effects s).
  { intros r -> Hr. destruct (collecting (calibration s0));
      [|repeat split; reflexivity].
    unfold collectCalibration in *. cbv zeta in *.
    match goal with
    | |- context [if ?c then _ else _] => destruct c
    end; [|discriminate Hr]. cbn [snd].
    destruct (latestPostureState (trackers s0)) as [p|];
      [destruct (seenPoseLandmarks (closure s0));
       [destruct (isPresent p)|]|]; repeat split; reflexivity. }
  specialize (Hc _ eq_refl).
  destruct (if collecting (calibration s0)
            then collectCalibration now f s0 else (true, s0)) as [proceed s1].
  cbn [fst snd] in Hc. destruct proceed; cbn [negb] in H.
  - specialize (Hc eq_refl).
    match type of H with
    | match ?x with _ => _ end _ = _ => destruct x as [ab|]
    end.
    + apply bind_Some in H as (s2 & d2 & Hf & H).
      apply ret_Some in H as [E ->]. inversion E; subst.
      exists ab, s1. split; [exact Hf|exact Hc].
    + apply ret_Some in H as [E _]. discriminate E.
  - apply ret_Some in H as [E _]. discriminate E.
Qed.

Lemma silenceAlarm_blocked (input : string) (s : Session) :
  requireAck (alarms s) = true -> latestState s <> awake ->
  silenceAlarm input s = (false, s).
Proof.
  intros Hr Hl. unfold silenceAlarm. cbv zeta. rewrite Hr. cbn [negb].
  destruct (latestState s); [congruence|reflexivity|reflexivity].
Qed.

(** X19. After a fused frame that leaves the closed-frame counter at 75 or
    more, neither the state shown nor the latest classification is awake,
    and while an acknowledgment is required [silenceAlarm] rejects every
    input and changes nothing. *)
Lemma closed_eyes_block (now : Z) (f : FaceLandmarks) (s : Session)
    (d : list Q) (s' : Session) (d' : list Q) :
  isActive s = true ->
  handleLandmarks now (Some f) s d = Some ((Fused, s'), d') ->
  (75 <= closedFrames s')%nat ->
  state s' <> awake /\ latestState s' <> awake
  /\ (requireAck (alarms s') = true ->
      forall input, silenceAlarm input s' = (false, s')).
Proof.
  intros Ha H Hn. unfold handleLandmarks in H. cbv zeta in H.
  apply bind_Some in H as ([o s1] & d1 & Hf & H).
  apply ret_Some in H as [E ->]. cbn [fst snd] in E.
  injection E as Eo Es'. subst o.
  apply handleFace_fused in Hf as (b & s0 & Hfuse & Hact & _).
  apply fuseFrame_report in Hfuse
    as (Ec & El & Es & _ & Eact & _). cbv zeta in Ec, El, Es.
  assert (Hact1 : isActive s1 = true) by (rewrite Eact, Hact; exact Ha).
  assert (Hs' : closedFrames s' = closedFrames s1
                /\ state s' = state s1 /\ latestState s' = latestState s1).
  { rewrite Es'.
    match goal with
    | |- context [if ?c then _ else _] => destruct c
    end; [|repeat split; reflexivity].
    unfold detectorEffect. rewrite Hact1. repeat split; reflexivity. }
  clear Es'. destruct Hs' as (E1 & E2 & E3).
  assert (Hne : fst (classify (normalize
                  (fuseEvidence (closedFramesAfter f b s0)
                     (fst (updateTrackers now f b s0))))) <> awake).
  { apply closed_eyes_not_awake. rewrite <- Ec, <- E1. exact Hn. }
  split; [rewrite E2, Es; exact Hne|].
  split; [rewrite E3, El; exact Hne|].
  intros Hr input. apply silenceAlarm_blocked; [exact Hr|].
  rewrite E3, El. exact Hne.
Qed.

Lemma closed_eyes_block_witness :
  isActive Traces.eyesLongClosed = true
  /\ exists s' rest,
       handleLandmarks 7000 (Some Traces.closedEyes) Traces.eyesLongClosed []
       = Some ((Fused, s'), rest)
       /\ (75 <= closedFrames s')%nat
       /\ state s' <> awake.
Proof.
  assert (H0 : isActive Traces.eyesLongClosed = true)
    by (vm_compute; reflexivity).
  split; [exact H0|].
  destruct (rand_outcome
              (handleLandmarks 7000 (Some Traces.closedEyes)
                 Traces.eyesLongClosed) [])
    as ([o s'] & rest & E); [vm_compute; reflexivity|].
  assert (Eo : o = Fused).
  { assert (En : option_map (fun r => fst (fst r))
                   (handleLandmarks 7000 (Some Traces.closedEyes)
                      Traces.eyesLongClosed []) = Some Fused)
      by (vm_compute; reflexivity).
    rewrite E in En. cbn in En. congruence. }
  assert (Hn : (75 <= closedFrames s')%nat).
  { assert (En : option_map (fun r => closedFrames (snd (fst r)))
                   (handleLandmarks 7000 (Some Traces.closedEyes)
                      Traces.eyesLongClosed []) = Some 101%nat)
      by (vm_compute; reflexivity).
    rewrite E in En. cbn in En. injection En as En. lia. }
  subst o. exists s', rest. split; [exact E|]. split; [exact Hn|].
  exact (proj1 (closed_eyes_block 7000 Traces.closedEyes
                  Traces.eyesLongClosed [] s' rest H0 E Hn)).
Defined.

Lemma conf_same (s s' : Session) :
  confidence s' = confidence s -> confidenceOk s -> confidenceOk s'.
Proof. unfold confidenceOk. intros ->. exact (fun H => H). Qed.

Lemma conf_const (s : Session) (c : Q) :
  confidence s = c -> 0 <= c <= 0.99 -> confidenceOk s.
Proof. unfold confidenceOk. intros ->. exact (fun H => H). Qed.

Lemma missingFace_conf (now : Z) (sec : Q) (s : Session) (d : list Q)
    (s' : Session) (d' : list Q) :
  missingFace now sec s d = Some (s', d') ->
  confidence s' = 0.98 \/ confidence s' = 0.94 \/ confidence s' = 0.25.
Proof.
  unfold missingFace. cbv zeta. intro H.
  destruct (sec >=? EYES_CLOSED_SLEEP_SEC);
    [|destruct (negb false && (sec >=? EYES_CLOSED_NOD_SEC))].
  - apply bind_Some in H as (s1 & d1 & _ & H).
    apply ret_Some in H as [-> _]. left. reflexivity.
  - apply bind_Some in H as (s1 & d1 & _ & H).
    apply ret_Some in H as [-> _]. right. left. reflexivity.
  - apply ret_Some in H as [-> _]. right. right.
    match goal with
    | |- context [if ?c then _ else _] => destruct c
    end; reflexivity.
Qed.

Lemma absenceAlarm_conf (now : Z) (s : Session) (d : list Q)
    (r : Outcome * Session) (d' : list Q) :
  absenceAlarm now s d = Some (r, d') -> confidence (snd r) = 0.99.
Proof.
  unfold absenceAlarm. cbv zeta. intro H.
  apply bind_Some in H as (p & d1 & _ & H).
  apply bind_Some in H as (r1 & d2 & _ & H).
  apply ret_Some in H as [-> _]. reflexivity.
Qed.

Lemma calibrationLost_conf (s : Session) :
  confidence (calibrationLost s) = 0.2.
Proof.
  unfold calibrationLost. cbv zeta.
  match goal with
  | |- context [if ?c then _ else _] => destruct c
  end; reflexivity.
Qed.

Lemma handleNoFace_conf (now : Z) (s : Session) (d : list Q)
    (r : Outcome * Session) (d' : list Q) :
  handleNoFace now s d = Some (r, d') -> confidenceOk (snd r).
Proof.
  unfold handleNoFace. cbv zeta. intro H.
  assert (Hrest : forall s1 sec r1 d1 d1',
            (if collecting (calibration s1)
             then ret (CalibrationLost, calibrationLost s1)
             else s2 <- missingFace now sec s1 ;; ret (FaceMissing, s2)) d1
            = Some (r1, d1') ->
            confidenceOk (snd r1)).
  { intros s1 sec r1 d1 d1' H1. destruct (collecting (calibration s1)).
    - apply ret_Some in H1 as [-> _]. cbn [snd].
      eapply conf_const; [apply calibrationLost_conf|lra].
    - apply bind_Some in H1 as (s2 & d2 & Hm & H1).
      apply ret_Some in H1 as [-> _]. cbn [snd].
      apply missingFace_conf in Hm as [E|[E|E]];
        (eapply conf_const; [exact E|lra]). }
  match type of H with
  | (if ?c then _ else _) _ = _ => destruct c
  end.
  - match type of H with
    | (if ?c then _ else _) _ = _ => destruct c
    end.
    + eapply conf_const; [eapply absenceAlarm_conf, H|lra].
    + eapply Hrest, H.
  - eapply Hrest, H.
Qed.

Lemma handleFace_conf (now : Z) (f : FaceLandmarks) (s : Session)
    (d : list Q) (r : Outcome * Session) (d' : list Q) :
  handleFace now f s d = Some (r, d') -> confidenceOk (snd r).
Proof.
  unfold handleFace. cbv zeta. intro H.
  set (s0 := setAbsentCountdown None
               (setAbsentStartTime None (setMissingFaceFrames 0 s))) in *.
  destruct (if collecting (calibration s0)
            then collectCalibration now f s0 else (true, s0))
    as [proceed s1] eqn:Ec.
  destruct proceed; cbn [negb] in H.
  - match type of H with
    | match ?x with _ => _ end _ = _ => destruct x as [ab|]
    end.
    + apply bind_Some in H as (s2 & d2 & Hf & H).
      apply ret_Some in H as [-> _]. cbn [snd].
      apply fuseFrame_report in Hf as (_ & _ & _ & Hc & _). cbv zeta in Hc.
      unfold confidenceOk. rewrite Hc.
      match goal with
      | |- context [classify ?p] =>
          pose proof (classify_best p) as (_ & _ & _ & Hb & _)
      end.
      lra.
    + apply ret_Some in H as [-> _]. cbn [snd].
      unfold confidenceOk; cbn; lra.
  - apply ret_Some in H as [-> _]. cbn [snd].
    destruct (collecting (calibration s0)); [|discriminate Ec].
    pose proof (collectCalibration_spec now f s0) as (_ & _ & Hfalse).
    cbv zeta in Hfalse. rewrite Ec in Hfalse. cbn [fst snd] in Hfalse.
    destruct (Hfalse eq_refl) as (_ & _ & _ & Hconf).
    eapply conf_const; [exact Hconf|lra].
Qed.

Lemma detectorEffect_conf (s : Session) :
  confidenceOk s -> confidenceOk (detectorEffect s).
Proof.
  intro H. unfold detectorEffect. destruct (negb (isActive s)).
  - unfold confidenceOk; cbn; lra.
  - eapply conf_same; [|exact H]. reflexivity.
Qed.

Lemma handleLandmarks_conf (now : Z) (lm : option FaceLandmarks)
    (s : Session) (d : list Q) (r : Outcome * Session) (d' : list Q) :
  handleLandmarks now lm s d = Some (r, d') -> confidenceOk (snd r).
Proof.
  unfold handleLandmarks. cbv zeta. intro H. destruct lm as [f|].
  - apply bind_Some in H as (r1 & d1 & Hf & H).
    apply ret_Some in H as [-> _]. cbn [snd].
    apply handleFace_conf in Hf.
    match goal with
    | |- context [if ?c then _ else _] => destruct c
    end; [apply detectorEffect_conf|]; exact Hf.
  - eapply handleNoFace_conf, H.
Qed.

Lemma resetAlarmState_confidence (s : Session) :
  confidence (resetAlarmState s) = confidence s.
Proof. reflexivity. Qed.

Lemma triggerDebugAlarm_conf (p : option ChallengeType) (now : Z)
    (s : Session) (d : list Q) (s' : Session) (d' : list Q) :
  triggerDebugAlarm p now s d = Some (s', d') ->
  confidence s' = 0.99 \/ confidence s' = 0.95.
Proof.
  unfold triggerDebugAlarm. cbv zeta. intro H.
  apply bind_Some in H as (r & d1 & _ & H). apply ret_Some in H as [-> _].
  destruct (fst r); [right|left|left]; reflexivity.
Qed.

Lemma silenceAlarm_confidence (input : string) (s : Session) :
  confidence (snd (silenceAlarm input s)) = confidence s.
Proof.
  unfold silenceAlarm. cbv zeta.
  repeat match goal with
  | |- context [if ?c then _ else _] => destruct c
  end; reflexivity.
Qed.

Lemma activationEffect_conf (a : bool) (s : Session) :
  confidenceOk s -> confidenceOk (activationEffect a s).
Proof.
  intro H. unfold activationEffect. cbv zeta. apply detectorEffect_conf.
  eapply conf_same; [|exact H]. destruct a; reflexivity.
Qed.

Lemma disarmAbsenceAlarm_conf (s : Session) :
  confidenceOk s -> confidenceOk (disarmAbsenceAlarm s).
Proof.
  intro H. unfold disarmAbsenceAlarm. cbv zeta.
  destruct (isAbsenceAlarmArmed (absence s)); [apply detectorEffect_conf|];
    (eapply conf_same; [|exact H]; reflexivity).
Qed.

Lemma step_conf (s : Session) (e : Event) (o : option Outcome) (s' : Session) :
  confidenceOk s -> step s e = Some (o, s') -> confidenceOk s'.
Proof.
  intros Hi H. destruct e; cbn [step] in H.
  - inversion H; subst. apply activationEffect_conf, Hi.
  - destruct (Bool.eqb active (isActive s)); inversion H; subst;
      [exact Hi|apply activationEffect_conf, Hi].
  - destruct (isActive s); [|inversion H; subst; exact Hi].
    destruct (handleLandmarks now detectedLandmarks s draws)
      as [[r rest]|] eqn:E;
      [|discriminate].
    inversion H; subst. eapply handleLandmarks_conf, E.
  - destruct (isActive s); inversion H; subst; [|exact Hi].
    eapply conf_same; [|exact Hi]. reflexivity.
  - inversion H; subst.
    eapply conf_same; [apply silenceAlarm_confidence|exact Hi].
  - inversion H; subst. apply disarmAbsenceAlarm_conf, Hi.
  - destruct (triggerDebugAlarm preferred now s draws) as [[s1 rest]|] eqn:E;
      [|discriminate].
    inversion H; subst.
    apply triggerDebugAlarm_conf in E as [E|E];
      (eapply conf_const; [exact E|lra]).
Qed.

Lemma run_conf (events : list Event) :
  forall (s : Session) (os : list Outcome) (s' : Session),
    confidenceOk s -> run s events = Some (os, s') -> confidenceOk s'.
Proof.
  induction events as [|e events IH]; intros s os s' Hi H.
  - inversion H; subst. exact Hi.
  - cbn [run] in H. destruct (step s e) as [[o s1]|] eqn:E; [|discriminate].
    destruct (run s1 events) as [[os1 s2]|] eqn:Er; [|discriminate].
    inversion H; subst. eapply IH; [|exact Er]. eapply step_conf; eassumption.
Qed.

(** X20. The confidence shown stays within [0, 0.99] over every sequence
    of events. *)
Theorem confidence_stays_in_range (s : Session) (events : list Event)
    (os : list Outcome) (s' : Session) :
  0 <= confidence s <= 0.99 ->
  run s events = Some (os, s') ->
  0 <= confidence s' <= 0.99.
Proof. intros H Hrun. exact (run_conf events s os s' H Hrun). Qed.

Lemma confidence_stays_in_range_witness :
  0 <= confidence mounted <= 0.99
  /\ exists os s',
       run mounted Traces.debugAlarm = Some (os, s')
       /\ 0 <= confidence s' <= 0.99.
Proof.
  assert (H0 : 0 <= confidence mounted <= 0.99) by (cbn; lra).
  split; [exact H0|].
  destruct (run_outcome mounted Traces.debugAlarm) as (os & s' & E);
    [vm_compute; reflexivity|].
  exists os, s'. split; [exact E|].
  exact (confidence_stays_in_range mounted Traces.debugAlarm os s' H0 E).
Defined.

Lemma truthyZ_Some (x : option Z) :
  JS.truthy x = true <-> exists v, x = Some v /\ v <> 0%Z.
Proof.
  unfold JS.truthy. destruct x as [v|].
  - rewrite negb_true_iff, Z.eqb_neq. split.
    + intro H. exists v. split; [reflexivity|exact H].
    + intros (w & E & H). inversion E; subst. exact H.
  - split; [discriminate|intros (v & E & _); discriminate E].
Qed.

Lemma warnThenAlarm_grace (now : Z) (best : AttentionState) (msg : string)
    (pr : Priority) (s : Session) (d : list Q) (s' : Session) (d' : list Q) :
  warnThenAlarm now best msg pr s d = Some (s', d') ->
  requireAck (alarms s) = false -> requireAck (alarms s') = true ->
  exists t0,
    warningStartTime (voice s) = Some t0 /\ t0 <> 0%Z
    /\ (VOICE_GRACE_PERIOD_MS <= now - t0)%Z.
Proof.
  unfold warnThenAlarm. cbv zeta. intros H Hr Hr'.
  set (isNew := negb (JS.truthy (warningStartTime (voice s)))
                || match seenActiveWarning (closure s) with
                   | Some active =>
                       Str.truthy (seenActiveWarning (closure s))
                       && negb (Str.includes msg (Str.firstWord active))
                       && negb (Str.includes active (Str.firstWord msg))
                   | None => false
                   end) in *.
  destruct isNew eqn:En.
  - (* a new warning starts its timer on this frame *)
    cbn [voice setWarningStartTime setActiveWarning setVoice emit
         warningStartTime JS.truthy JS.orElse] in H.
    destruct (negb (now =? 0)%Z); cbn [andb] in H.
    + rewrite Z.sub_diag in H. cbn in H.
      apply ret_Some in H as [-> _]. cbn in Hr'. congruence.
    + apply ret_Some in H as [-> _]. cbn in Hr'. congruence.
  - (* the timer is the one the state already holds *)
    assert (Ev : forall s1, s1 = (if differs msg (seenActiveWarning (closure s))
                                  then setActiveWarning (Some msg)
                                         (emit (SpeakWarning msg pr) s)
                                  else s) ->
                 warningStartTime (voice s1) = warningStartTime (voice s)
                 /\ requireAck (alarms s1) = requireAck (alarms s)).
    { intros s1 ->. destruct (differs msg (seenActiveWarning (closure s)));
        split; reflexivity. }
    specialize (Ev _ eq_refl). destruct Ev as [Ev Ea].
    set (s1 := if differs msg (seenActiveWarning (closure s))
               then setActiveWarning (Some msg) (emit (SpeakWarning msg pr) s)
               else s) in *.
    rewrite Ev in H.
    destruct (JS.truthy (warningStartTime (voice s))) eqn:Et; cbn [andb] in H.
    + apply truthyZ_Some in Et as (t0 & E0 & Hne). rewrite E0 in H.
      cbn [JS.orElse] in H.
      destruct (Z.leb_spec VOICE_GRACE_PERIOD_MS (now - t0)) as [Hg|Hg].
      * exists t0. repeat split; assumption.
      * apply ret_Some in H as [-> _]. congruence.
    + apply ret_Some in H as [-> _]. congruence.
Qed.

Lemma escalateRisk_grace (now : Z) (best : AttentionState)
    (w : option (string * Priority)) (s : Session) (d : list Q)
    (s' : Session) (d' : list Q) :
  escalateRisk now best w s d = Some (s', d') ->
  requireAck (alarms s) = false -> requireAck (alarms s') = true ->
  exists t0,
    warningStartTime (voice s) = Some t0 /\ t0 <> 0%Z
    /\ (VOICE_GRACE_PERIOD_MS <= now - t0)%Z.
Proof.
  unfold escalateRisk. intros H Hr Hr'. rewrite Hr in H. cbn [negb] in H.
  destruct w as [[msg pr]|].
  - eapply warnThenAlarm_grace; eassumption.
  - apply ret_Some in H as [-> _]. congruence.
Qed.

Lemma fuseFrame_grace (now : Z) (f : FaceLandmarks)
    (b : CalibrationBaselines) (s : Session) (d : list Q) (s' : Session)
    (d' : list Q) :
  fuseFrame now f b s d = Some (s', d') ->
  requireAck (alarms s) = false -> requireAck (alarms s') = true ->
  exists t0,
    warningStartTime (voice s) = Some t0 /\ t0 <> 0%Z
    /\ (VOICE_GRACE_PERIOD_MS <= now - t0)%Z.
Proof.
  unfold fuseFrame. cbv zeta. intros H Hr Hr'.
  assert (Ht : alarms (snd (updateTrackers now f b s)) = alarms s
               /\ voice (snd (updateTrackers now f b s)) = voice s)
    by (split; reflexivity).
  destruct (updateTrackers now f b s) as [signals s1]. cbn [snd] in Ht.
  destruct Ht as [Ha Hv].
  match type of H with
  | context [classify ?x] => destruct (classify x) as [best conf]
  end.
  apply bind_Some in H as (s2 & d2 & H2 & H). apply ret_Some in H as [-> _].
  assert (Hr2 : requireAck (alarms s2) = true).
  { revert Hr'.
    match goal with
    | |- context [if ?c then _ else _] => destruct c
    end; exact (fun H => H). }
  clear Hr'.
  match type of H2 with
  | (if ?c then _ else _) _ = _ => destruct c
  end.
  - match type of H2 with
    | escalateRisk _ _ _ ?x _ = _ =>
        assert (Hx : requireAck (alarms x) = false
                     /\ warningStartTime (voice x) = warningStartTime (voice s))
    end.
    { match goal with
      | |- context [if ?c then _ else _] => destruct c
      end; cbn; rewrite Ha, Hv, Hr; split; reflexivity. }
    destruct Hx as [Hx1 Hx2].
    destruct (escalateRisk_grace _ _ _ _ _ _ _ H2 Hx1 Hr2) as (t0 & E & R).
    exists t0. rewrite <- Hx2. split; [exact E|exact R].
  - apply ret_Some in H2 as [-> _].
    match type of Hr2 with
    | requireAck (alarms (settleAwake ?x)) = _ =>
        destruct (settleAwake_alarms x) as [E _];
        assert (Hx : requireAck (alarms x) = false)
    end.
    { match goal with
      | |- context [if ?c then _ else _] => destruct c
      end; cbn; rewrite Ha, Hr; reflexivity. }
    congruence.
Qed.

(** X21. A fused frame makes an acknowledgment required (none was before
    it) only when a voice warning had been started before the frame, at a
    non-zero time at least 5000 ms before it. *)
Lemma fused_alarm_after_grace (now : Z) (f : FaceLandmarks) (s : Session)
    (d : list Q) (s' : Session) (d' : list Q) :
  handleLandmarks now (Some f) s d = Some ((Fused, s'), d') ->
  requireAck (alarms s) = false -> requireAck (alarms s') = true ->
  exists t0,
    warningStartTime (voice s) = Some t0 /\ t0 <> 0%Z
    /\ (VOICE_GRACE_PERIOD_MS <= now - t0)%Z.
Proof.
  intros H Hr Hr'. unfold handleLandmarks in H. cbv zeta in H.
  apply bind_Some in H as ([o s1] & d1 & Hf & H).
  apply ret_Some in H as [E ->]. cbn [fst snd] in E.
  injection E as Eo Es'. subst o.
  apply handleFace_fused in Hf as (b & s0 & Hfuse & _ & Ha & Hv & _).
  assert (Hr1 : requireAck (alarms s1) = true).
  { rewrite Es' in Hr'. revert Hr'.
    match goal with
    | |- context [if ?c then _ else _] => destruct c
    end; [|exact (fun H => H)].
    unfold detectorEffect. destruct (negb (isActive s1)); cbn;
      [discriminate|exact (fun H => H)]. }
  assert (Hr0 : requireAck (alarms s0) = false) by (rewrite Ha; exact Hr).
  destruct (fuseFrame_grace _ _ _ _ _ _ _ Hfuse Hr0 Hr1) as (t0 & E & R).
  exists t0. rewrite Hv in E. split; [exact E|exact R].
Qed.

Lemma fused_alarm_after_grace_witness :
  requireAck (alarms Traces.warned) = false
  /\ exists s' rest,
       handleLandmarks 7000 (Some Traces.closedEyes) Traces.warned
         Samples.fourDraws
       = Some ((Fused, s'), rest)
       /\ requireAck (alarms s') = true
       /\ exists t0,
            warningStartTime (voice Traces.warned) = Some t0
            /\ (VOICE_GRACE_PERIOD_MS <= 7000 - t0)%Z.
Proof.
  assert (H0 : requireAck (alarms Traces.warned) = false)
    by (vm_compute; reflexivity).
  split; [exact H0|].
  destruct (rand_outcome
              (handleLandmarks 7000 (Some Traces.closedEyes) Traces.warned)
              Samples.fourDraws) as ([o s'] & rest & E);
    [vm_compute; reflexivity|].
  assert (Eo : o = Fused).
  { assert (En : option_map (fun r => fst (fst r))
                   (handleLandmarks 7000 (Some Traces.closedEyes)
                      Traces.warned Samples.fourDraws) = Some Fused)
      by (vm_compute; reflexivity).
    rewrite E in En. cbn in En. congruence. }
  assert (Hreq : requireAck (alarms s') = true).
  { assert (En : option_map (fun r => requireAck (alarms (snd (fst r))))
                   (handleLandmarks 7000 (Some Traces.closedEyes)
                      Traces.warned Samples.fourDraws) = Some true)
      by (vm_compute; reflexivity).
    rewrite E in En. cbn in En. congruence. }
  subst o. exists s', rest. split; [exact E|]. split; [exact Hreq|].
  destruct (fused_alarm_after_grace 7000 Traces.closedEyes Traces.warned
              Samples.fourDraws s' rest E H0 Hreq) as (t0 & Ht & _ & Hg).
  exists t0. split; [exact Ht|exact Hg].
Defined.

(** X22. While calibration is collecting and no absence timer runs, a frame
    ends as still calibrating, calibration lost or fused.  Unless it is
    fused it consumes no random draw, leaves calibration collecting and the
    absence timer stopped, shows state awake, calls no effector and leaves
    the acknowledgment requirement as it was; it clears the displayed
    alarms when no acknowledgment is required and leaves the alarm state
    untouched when one is. *)
Lemma calibrating_frame_quiet (now : Z) (lm : option FaceLandmarks)
    (s : Session) (d : list Q) (o : Outcome) (s' : Session) (d' : list Q) :
  collecting (calibration s) = true ->
  absentStartTime (absence s) = None ->
  handleLandmarks now lm s d = Some ((o, s'), d') ->
  (o = StillCalibrating \/ o = CalibrationLost \/ o = Fused)
  /\ (o <> Fused ->
      d' = d
      /\ collecting (calibration s') = true
      /\ absentStartTime (absence s') = None
      /\ state s' = awake
      /\ requireAck (alarms s') = requireAck (alarms s)
      /\ (requireAck (alarms s) = false -> activeAlarms (alarms s') = [])
      /\ (requireAck (alarms s) = true -> alarms s' = alarms s)
      /\ effects s' = effects s).
Proof.
  intros Hc Hs H. destruct lm as [f|].
  - unfold handleLandmarks in H. cbv zeta in H.
    apply bind_Some in H as ([o1 s1] & d1 & Hf & H).
    apply ret_Some in H as [E ->]. cbn [fst snd] in E.
    injection E as Eo Es'. subst o1.
    apply handleFace_calibrating in Hf; [|exact Hc]. cbv zeta in Hf.
    destruct Hf as [(Hcc & Er & Ed)|(Hcc & Er & _)].
    + injection Er as Eo Es1. subst o d1 s1.
      split; [left; reflexivity|]. intros _.
      set (s0 := setAbsentCountdown None
                   (setAbsentStartTime None
                      (setMissingFaceFrames 0 (setLandmarks true s)))) in *.
      pose proof (collectCalibration_spec now f s0) as (_ & _ & Hfalse).
      cbv zeta in Hfalse. destruct (Hfalse Hcc) as (Hcol & _ & Hst & _).
      pose proof (collectCalibration_absence now f s0) as Habs.
      assert (Hs1 : s' = snd (collectCalibration now f s0)).
      { rewrite Es', Hcol, andb_false_r. reflexivity. }
      rewrite !Hs1. clear Hs1.
      split; [reflexivity|]. split; [exact Hcol|].
      split; [rewrite Habs; reflexivity|].
      split; [exact Hst|].
      clear Hfalse Hcol Hst Habs.
      unfold collectCalibration in *. cbv zeta in *.
      match goal with
      | |- context [if ?c then _ else _] => destruct c
      end; [discriminate Hcc|]. cbn [snd].
      cbn [alarms setConfidence setState setCalibration].
      change (alarms s0) with (alarms s).
      destruct (requireAck (alarms s)) eqn:Er; cbn [negb].
      * repeat split; try reflexivity; try congruence. exact Er.
      * repeat split; try reflexivity; try congruence. cbn. exact Er.
    + cbn [fst] in Er. subst o. split; [right; right; reflexivity|].
      intro Hn. contradiction Hn. reflexivity.
  - unfold handleLandmarks, handleNoFace in H. cbv zeta in H.
    cbn [absence setMissingFaceFrames setLandmarks setAbsence
         isAbsenceAlarmArmed absentStartTime calibration collecting
         setAbsentStartTime setAbsentCountdown alarms requireAck] in H.
    rewrite Hs, Hc in H. cbn [JS.orElse] in H.
    assert (Hz : (JS.ofZ (now - now) / 1000 >=? 5) = false).
    { rewrite Z.sub_diag. reflexivity. }
    rewrite Hz in H. cbn [andb] in H.
    assert (Hres : forall s0,
              collecting (calibration s0) = true ->
              alarms s0 = alarms s -> effects s0 = effects s ->
              ret (CalibrationLost, calibrationLost s0) d
              = Some ((o, s'), d') ->
              (o = StillCalibrating \/ o = CalibrationLost \/ o = Fused)
              /\ (o <> Fused ->
                  d' = d /\ collecting (calibration s') = true
                  /\ absentStartTime (absence s') = None
                  /\ state s' = awake
                  /\ requireAck (alarms s') = requireAck (alarms s)
                  /\ (requireAck (alarms s) = false ->
                      activeAlarms (alarms s') = [])
                  /\ (requireAck (alarms s) = true -> alarms s' = alarms s)
                  /\ effects s' = effects s)).
    { intros s0 Hc0 Ha0 He0 H0. apply ret_Some in H0 as [E ->].
      injection E as Eo Es'. subst o s'.
      split; [right; left; reflexivity|]. intros _.
      unfold calibrationLost. cbv zeta.
      cbn [alarms setConfidence setState setCalibration].
      rewrite Ha0.
      destruct (requireAck (alarms s)) eqn:Er; cbn [negb]; cbn;
        rewrite ?Hc0, ?Ha0, ?He0, ?Er; repeat split; try reflexivity;
        congruence. }
    destruct (isAbsenceAlarmArmed (absence s)).
    + eapply Hres; [| | |exact H]; first [exact Hc|reflexivity].
    + eapply Hres; [| | |exact H]; first [exact Hc|reflexivity].
Qed.

Lemma calibrating_frame_quiet_witness :
  collecting (calibration Samples.calibrating) = true
  /\ absentStartTime (absence Samples.calibrating) = None
  /\ exists s' rest,
       handleLandmarks 1000 (Some Samples.face) Samples.calibrating []
       = Some ((StillCalibrating, s'), rest)
       /\ state s' = awake /\ effects s' = effects Samples.calibrating.
Proof.
  assert (H1 : collecting (calibration Samples.calibrating) = true)
    by reflexivity.
  assert (H2 : absentStartTime (absence Samples.calibrating) = None)
    by reflexivity.
  split; [exact H1|]. split; [exact H2|].
  destruct (rand_outcome
              (handleLandmarks 1000 (Some Samples.face) Samples.calibrating)
              []) as ([o s'] & rest & E); [vm_compute; reflexivity|].
  assert (Eo : o = StillCalibrating).
  { assert (En : option_map (fun r => fst (fst r))
                   (handleLandmarks 1000 (Some Samples.face)
                      Samples.calibrating []) = Some StillCalibrating)
      by (vm_compute; reflexivity).
    rewrite E in En. cbn in En. congruence. }
  subst o. exists s', rest. split; [exact E|].
  destruct (calibrating_frame_quiet 1000 (Some Samples.face)
              Samples.calibrating [] StillCalibrating s' rest H1 H2 E)
    as (_ & Hq).
  destruct Hq as (_ & _ & _ & Hst & _ & _ & _ & Heff); [discriminate|].
  split; [exact Hst|exact Heff].
Defined.

Lemma sleep_frames (n : nat) :
  (JS.ofNat n / FPS >=? EYES_CLOSED_SLEEP_SEC) = true <-> (150 <= n)%nat.
Proof.
  rewrite ge_true. unfold JS.ofNat, FPS, EYES_CLOSED_SLEEP_SEC.
  assert (E : inject_Z (Z.of_nat n) / 30 * 30 == inject_Z (Z.of_nat n))
    by field.
  rewrite Nat2Z.inj_le, Zle_Qle. change (inject_Z (Z.of_nat 150)) with 150.
  split; intro H; lra.
Qed.

Lemma nod_frames (n : nat) :
  (JS.ofNat n / FPS >=? EYES_CLOSED_NOD_SEC) = true <-> (105 <= n)%nat.
Proof.
  rewrite ge_true. unfold JS.ofNat, FPS, EYES_CLOSED_NOD_SEC.
  assert (E : inject_Z (Z.of_nat n) / 30 * 30 == inject_Z (Z.of_nat n))
    by field.
  rewrite Nat2Z.inj_le, Zle_Qle. change (inject_Z (Z.of_nat 105)) with 105.
  split; intro H; lra.
Qed.

Lemma missingFace_spec (now : Z) (n : nat) (s : Session) (d : list Q)
    (s' : Session) (d' : list Q) :
  missingFace now (JS.ofNat n / FPS) s d = Some (s', d') ->
  ((n < 105)%nat ->
   state s' = awake /\ latestState s' = awake /\ confidence s' = 0.25
   /\ d' = d
   /\ (requireAck (alarms s) = true -> alarms s' = alarms s)
   /\ (requireAck (alarms s) = false -> Ack.quiet (alarms s')))
  /\ ((105 <= n < 150)%nat ->
      state s' = noddingOff /\ latestState s' = noddingOff
      /\ confidence s' = 0.94 /\ requireAck (alarms s') = true
      /\ lastAlarmState (alarms s') = noddingOff)
  /\ ((150 <= n)%nat ->
      state s' = sleeping /\ latestState s' = sleeping
      /\ confidence s' = 0.98 /\ requireAck (alarms s') = true
      /\ lastAlarmState (alarms s') = sleeping).
Proof.
  unfold missingFace. cbv zeta. intro H.
  destruct (JS.ofNat n / FPS >=? EYES_CLOSED_SLEEP_SEC) eqn:Es.
  - apply sleep_frames in Es.
    split; [intro; lia|]. split; [intro; lia|]. intros _.
    rand_spec;
      repeat match goal with
      | Hs : snd ?x = _ |- _ => rewrite Hs; clear Hs
      end;
      repeat match goal with
      | Hb : _ = true |- _ => progress cbn in Hb
      | Hb : _ = false |- _ => progress cbn in Hb
      end;
      rewrite ?orb_false_iff, ?negb_false_iff, ?andb_true_iff in *;
      cbn; repeat split; try reflexivity; try tauto;
      try (apply AttentionState_eqb_eq; tauto).
  - assert (Hn : (n < 150)%nat).
    { destruct (Nat.lt_ge_cases n 150) as [Hlt|Hge]; [exact Hlt|].
      apply sleep_frames in Hge. congruence. }
    cbn [negb andb] in H.
    destruct (JS.ofNat n / FPS >=? EYES_CLOSED_NOD_SEC) eqn:En.
    + apply nod_frames in En.
      split; [intro; lia|]. split; [|intro; lia]. intros _.
      rand_spec;
        repeat match goal with
        | Hs : snd ?x = _ |- _ => rewrite Hs; clear Hs
        end;
        repeat match goal with
        | Hb : _ = true |- _ => progress cbn in Hb
        | Hb : _ = false |- _ => progress cbn in Hb
        end;
        rewrite ?orb_false_iff, ?negb_false_iff, ?andb_true_iff in *;
        cbn; repeat split; try reflexivity; try tauto;
        try (apply AttentionState_eqb_eq; tauto).
    + assert (Hn' : (n < 105)%nat).
      { destruct (Nat.lt_ge_cases n 105) as [Hlt|Hge]; [exact Hlt|].
        apply nod_frames in Hge. congruence. }
      split; [|split; intro; lia]. intros _.
      apply ret_Some in H as [-> ->].
      cbn [alarms setConfidence setState setLatestState].
      destruct (requireAck (alarms s)) eqn:Er; cbn [negb].
      * repeat split; try reflexivity; congruence.
      * split; [reflexivity|]. split; [reflexivity|]. split; [reflexivity|].
        split; [reflexivity|]. split; [discriminate|].
        intros _. apply resetAlarmState_quiet.
Qed.

(** X23. A frame without a face that applies the missing-frame thresholds
    does so after calibration and counts one more missing frame.  Below 105
    missing frames the state is awake with confidence 0.25, no draw is
    consumed, and the alarm state is untouched under an outstanding
    acknowledgment and quiet otherwise.  From 105 to 149 frames the state
    is noddingOff with confidence 0.94, from 150 frames sleeping with
    confidence 0.98, and in both cases an acknowledgment is required. *)
Lemma missing_face_frames (now : Z) (s : Session) (d : list Q)
    (s' : Session) (d' : list Q) :
  handleLandmarks now None s d = Some ((FaceMissing, s'), d') ->
  let n := S (missingFaceFrames (absence s)) in
  missingFaceFrames (absence s') = n
  /\ collecting (calibration s) = false
  /\ ((n < 105)%nat ->
      state s' = awake /\ latestState s' = awake /\ confidence s' = 0.25
      /\ d' = d
      /\ (requireAck (alarms s) = true -> alarms s' = alarms s)
      /\ (requireAck (alarms s) = false -> Ack.quiet (alarms s')))
  /\ ((105 <= n < 150)%nat ->
      state s' = noddingOff /\ latestState s' = noddingOff
      /\ confidence s' = 0.94 /\ requireAck (alarms s') = true
      /\ lastAlarmState (alarms s') = noddingOff)
  /\ ((150 <= n)%nat ->
      state s' = sleeping /\ latestState s' = sleeping
      /\ confidence s' = 0.98 /\ requireAck (alarms s') = true
      /\ lastAlarmState (alarms s') = sleeping).
Proof.
  cbv zeta. unfold handleLandmarks, handleNoFace. cbv zeta. intro H.
  set (s0 := setMissingFaceFrames
               (S (missingFaceFrames (absence (setLandmarks false s))))
               (setLandmarks false s)) in *.
  change (missingFaceFrames (absence s0))
    with (S (missingFaceFrames (absence s))) in H.
  assert (Hrest : forall s1,
            alarms s1 = alarms s -> calibration s1 = calibration s ->
            missingFaceFrames (absence s1)
            = S (missingFaceFrames (absence s)) ->
            (if collecting (calibration s1)
             then ret (CalibrationLost, calibrationLost s1)
             else s2 <- missingFace now
                          (JS.ofNat (S (missingFaceFrames (absence s))) / FPS)
                          s1 ;;
                  ret (FaceMissing, s2)) d = Some ((FaceMissing, s'), d') ->
            collecting (calibration s) = false
            /\ missingFaceFrames (absence s')
               = S (missingFaceFrames (absence s))
            /\ missingFace now
                 (JS.ofNat (S (missingFaceFrames (absence s))) / FPS) s1 d
               = Some (s', d')).
  { intros s1 Ha Hc Hm H1. rewrite Hc in H1.
    destruct (collecting (calibration s)).
    - apply ret_Some in H1 as [E _]. discriminate E.
    - apply bind_Some in H1 as (s2 & d2 & Hmf & H1).
      apply ret_Some in H1 as [E ->]. injection E as E. subst s2.
      split; [reflexivity|]. split; [|exact Hmf].
      apply missingFace_setup in Hmf as [Eabs _]. rewrite Eabs. exact Hm. }
  assert (Hfin : forall s1,
            alarms s1 = alarms s ->
            collecting (calibration s) = false
            /\ missingFaceFrames (absence s')
               = S (missingFaceFrames (absence s))
            /\ missingFace now
                 (JS.ofNat (S (missingFaceFrames (absence s))) / FPS) s1 d
               = Some (s', d') ->
            missingFaceFrames (absence s') = S (missingFaceFrames (absence s))
            /\ collecting (calibration s) = false
            /\ ((S (missingFaceFrames (absence s)) < 105)%nat ->
                state s' = awake /\ latestState s' = awake
                /\ confidence s' = 0.25 /\ d' = d
                /\ (requireAck (alarms s) = true -> alarms s' = alarms s)
                /\ (requireAck (alarms s) = false -> Ack.quiet (alarms s')))
            /\ ((105 <= S (missingFaceFrames (absence s)) < 150)%nat ->
                state s' = noddingOff /\ latestState s' = noddingOff
                /\ confidence s' = 0.94 /\ requireAck (alarms s') = true
                /\ lastAlarmState (alarms s') = noddingOff)
            /\ ((150 <= S (missingFaceFrames (absence s)))%nat ->
                state s' = sleeping /\ latestState s' = sleeping
                /\ confidence s' = 0.98 /\ requireAck (alarms s') = true
                /\ lastAlarmState (alarms s') = sleeping)).
  { intros s1 Ha (Hc & Hm & Hmf).
    apply missingFace_spec in Hmf. rewrite Ha in Hmf.
    split; [exact Hm|]. split; [exact Hc|]. exact Hmf. }
  match type of H with
  | (if ?c then _ else _) _ = _ => destruct c
  end.
  - match type of H with
    | (if ?c then _ else _) _ = _ => destruct c
    end.
    + apply absenceAlarm_setup in H as [E _]. discriminate E.
    + eapply Hfin; [|eapply Hrest; [| | |exact H]]; reflexivity.
  - eapply Hfin; [|eapply Hrest; [| | |exact H]]; reflexivity.
Qed.

Lemma missing_face_frames_witness :
  exists s' rest,
    handleLandmarks 100000 None Samples.calibrated []
    = Some ((FaceMissing, s'), rest)
    /\ missingFaceFrames (absence s') = 1%nat
    /\ state s' = awake /\ confidence s' = 0.25.
Proof.
  destruct (rand_outcome (handleLandmarks 100000 None Samples.calibrated) [])
    as ([o s'] & rest & E); [vm_compute; reflexivity|].
  assert (Eo : o = FaceMissing).
  { assert (En : option_map (fun r => fst (fst r))
                   (handleLandmarks 100000 None Samples.calibrated [])
                 = Some FaceMissing) by (vm_compute; reflexivity).
    rewrite E in En. cbn in En. congruence. }
  subst o. exists s', rest. split; [exact E|].
  destruct (missing_face_frames 100000 Samples.calibrated [] s' rest E)
    as (Hn & _ & Hlt & _).
  split; [exact Hn|].
  destruct Hlt as (Hst & _ & Hc & _); [vm_compute; lia|].
  split; [exact Hst|exact Hc].
Defined.

(** X24. A debug alarm requires an acknowledgment with a challenge of the
    preferred type when one is given, whose expected input would be
    accepted.  With a phrase challenge it forces state noddingOff with
    confidence 0.95 and a batch of 4 nodding alarms, otherwise state
    sleeping with confidence 0.99 and a batch of 5 sleeping alarms.  The
    latest classification and the last alarm state are the forced state, so
    in that state [silenceAlarm] rejects every input. *)
Lemma triggerDebugAlarm_spec (p : option ChallengeType) (now : Z)
    (s : Session) (d : list Q) (s' : Session) (d' : list Q) :
  triggerDebugAlarm p now s d = Some (s', d') ->
  requireAck (alarms s') = true
  /\ (forall ty, p = Some ty -> challengeType (alarms s') = ty)
  /\ answerable (alarms s')
  /\ (challengeType (alarms s') = phrase ->
      state s' = noddingOff /\ confidence s' = 0.95
      /\ activeAlarms (alarms s')
         = fst (getAlarmBatch (alarmCursor (alarms s)) nodding 4 now))
  /\ (challengeType (alarms s') <> phrase ->
      state s' = sleeping /\ confidence s' = 0.99
      /\ activeAlarms (alarms s')
         = fst (getAlarmBatch (alarmCursor (alarms s)) sleepingTier 5 now))
  /\ latestState s' = state s'
  /\ lastAlarmState (alarms s') = state s'
  /\ forall input, silenceAlarm input s' = (false, s').
Proof.
  unfold triggerDebugAlarm. cbv zeta. intro H.
  apply bind_Some in H as (r & d1 & Ha & H). apply ret_Some in H as [-> _].
  apply assignNewChallenge_spec in Ha as (Hp & Hty & Hans & ph & pr & an & Hs).
  assert (Ect : challengeType
                  (alarms
                     (setConfidence (if match fst r with
                                         | phrase => false | _ => true end
                                     then 0.99 else 0.95)
                        (setState (if match fst r with
                                       | phrase => false | _ => true end
                                   then sleeping else noddingOff)
                           (setLastAlarmState
                              (if match fst r with
                                  | phrase => false | _ => true end
                               then sleeping else noddingOff)
                              (setLatestState
                                 (if match fst r with
                                     | phrase => false | _ => true end
                                  then sleeping else noddingOff)
                                 (updateRequireAck true
                                    (raiseAlarmBatch
                                       (if match fst r with
                                           | phrase => false | _ => true end
                                        then sleepingTier else nodding)
                                       (if match fst r with
                                           | phrase => false | _ => true end
                                        then 5 else 4)%nat now (snd r))))))))
                = fst r) by exact Hty.
  split; [reflexivity|]. split; [intros ty E; rewrite Ect; apply Hp, E|].
  split; [eapply answerable_ext; [..|exact Hans]; reflexivity|].
  rewrite Ect.
  assert (Ecur : alarmCursor (alarms (snd r)) = alarmCursor (alarms s))
    by (rewrite Hs; reflexivity).
  split; [|split; [|split; [|split]]].
  - intro E. rewrite E. cbn. rewrite Ecur. repeat split; reflexivity.
  - intro E. destruct (fst r); [congruence| |]; cbn; rewrite Ecur;
      repeat split; reflexivity.
  - destruct (fst r); reflexivity.
  - destruct (fst r); reflexivity.
  - intro input. apply silenceAlarm_blocked; [reflexivity|].
    destruct (fst r); discriminate.
Qed.

Lemma triggerDebugAlarm_spec_witness :
  exists s' rest,
    triggerDebugAlarm (Some trivia) 1000 mounted [0.5] = Some (s', rest)
    /\ requireAck (alarms s') = true
    /\ challengeType (alarms s') = trivia
    /\ forall input, silenceAlarm input s' = (false, s').
Proof.
  destruct (rand_outcome (triggerDebugAlarm (Some trivia) 1000 mounted) [0.5])
    as (s' & rest & E); [vm_compute; reflexivity|].
  destruct (triggerDebugAlarm_spec (Some trivia) 1000 mounted [0.5] s' rest E)
    as (H1 & H2 & _ & _ & _ & _ & _ & H3).
  exists s', rest. split; [exact E|]. split; [exact H1|].
  split; [apply H2; reflexivity|exact H3].
Defined.

Lemma samePosture_keeps (s s' : Session) :
  samePosture s s' -> noPoseForBaseline s -> noPoseForBaseline s'.
Proof.
  intros (Et & Ec & Ek) [H1 H2]. unfold noPoseForBaseline.
  rewrite Et, Ec, Ek. split; assumption.
Qed.

Lemma missingFace_posture (now : Z) (sec : Q) (s : Session) (d : list Q)
    (s' : Session) (d' : list Q) :
  missingFace now sec s d = Some (s', d') -> samePosture s s'.
Proof.
  unfold missingFace. cbv zeta. intro H.
  destruct (sec >=? EYES_CLOSED_SLEEP_SEC);
    [|destruct (negb false && (sec >=? EYES_CLOSED_NOD_SEC))].
  all: rand_spec; det_done.
Qed.

Lemma absenceAlarm_posture (now : Z) (s : Session) (d : list Q)
    (r : Outcome * Session) (d' : list Q) :
  absenceAlarm now s d = Some (r, d') -> samePosture s (snd r).
Proof.
  unfold absenceAlarm. cbv zeta. intro H. rand_spec. cbn [snd]. det_done.
Qed.

Lemma handleNoFace_posture (now : Z) (s : Session) (d : list Q)
    (r : Outcome * Session) (d' : list Q) :
  handleNoFace now s d = Some (r, d') ->
  trackers (snd r) = trackers s /\ closure (snd r) = closure s
  /\ collecting (calibration (snd r)) = collecting (calibration s).
Proof.
  unfold handleNoFace. cbv zeta. intro H.
  assert (Hrest : forall s1 sec r1 d1 d1',
            (if collecting (calibration s1)
             then ret (CalibrationLost, calibrationLost s1)
             else s2 <- missingFace now sec s1 ;; ret (FaceMissing, s2)) d1
            = Some (r1, d1') ->
            trackers (snd r1) = trackers s1 /\ closure (snd r1) = closure s1
            /\ collecting (calibration (snd r1)) = collecting (calibration s1)).
  { intros s1 sec r1 d1 d1' H1. destruct (collecting (calibration s1)) eqn:Ec.
    - apply ret_Some in H1 as [-> _]. cbn [snd].
      unfold calibrationLost. cbv zeta.
      match goal with
      | |- context [if ?c then _ else _] => destruct c
      end; cbn; rewrite Ec; repeat split; reflexivity.
    - apply bind_Some in H1 as (s2 & d2 & Hm & H1).
      apply ret_Some in H1 as [-> _]. cbn [snd].
      apply missingFace_posture in Hm as (E1 & E2 & E3).
      rewrite E1, E2, E3, Ec. repeat split; reflexivity. }
  match type of H with
  | (if ?c then _ else _) _ = _ => destruct c
  end.
  - match type of H with
    | (if ?c then _ else _) _ = _ => destruct c
    end.
    + apply absenceAlarm_posture in H as (E1 & E2 & E3).
      rewrite E1, E2, E3. repeat split; reflexivity.
    + apply Hrest in H. exact H.
  - apply Hrest in H. exact H.
Qed.

Lemma posture_update_baseline (d : PostureTracker.t)
    (lm : option PostureTracker.PoseLandmarks) (ts : Z) :
  PostureTracker.baselineVertical (fst (PostureTracker.update d lm ts))
  = PostureTracker.baselineVertical d.
Proof.
  unfold PostureTracker.update. destruct lm as [l|]; [|reflexivity].
  cbv zeta.
  repeat match goal with
  | |- context [if ?c then _ else _] => destruct c
  | |- context [match ?c with Some _ => _ | None => _ end] => destruct c
  end; reflexivity.
Qed.

Lemma collectCalibration_posture (now : Z) (f : FaceLandmarks) (s : Session) :
  noPoseForBaseline s -> collecting (calibration s) = true ->
  noPoseForBaseline (snd (collectCalibration now f s))
  /\ closure (snd (collectCalibration now f s)) = closure s.
Proof.
  intros [H1 H2] Hc. specialize (H2 Hc).
  unfold collectCalibration, noPoseForBaseline. cbv zeta. rewrite H2.
  match goal with
  | |- context [if ?c then _ else _] => destruct c
  end; cbn [snd].
  - destruct (latestPostureState (trackers s)); cbn; rewrite H1;
      repeat split; try reflexivity; discriminate.
  - match goal with
    | |- context [if ?c then _ else _] => destruct c
    end; cbn; rewrite H1, H2; repeat split; reflexivity.
Qed.

Lemma handleFace_posture (now : Z) (f : FaceLandmarks) (s : Session)
    (d : list Q) (r : Outcome * Session) (d' : list Q) :
  noPoseForBaseline s -> handleFace now f s d = Some (r, d') ->
  PostureTracker.baselineVertical (postureTracker (trackers (snd r))) = None
  /\ closure (snd r) = closure s
  /\ (collecting (calibration (snd r)) = true ->
      collecting (calibration s) = true).
Proof.
  intros Hi. unfold handleFace. cbv zeta. intro H.
  set (s0 := setAbsentCountdown None
               (setAbsentStartTime None (setMissingFaceFrames 0 s))) in *.
  assert (Hi0 : noPoseForBaseline s0) by exact Hi.
  assert (H1 : forall r1,
            r1 = (if collecting (calibration s0)
                  then collectCalibration now f s0 else (true, s0)) ->
            noPoseForBaseline (snd r1) /\ closure (snd r1) = closure s
            /\ (collecting (calibration (snd r1)) = true ->
                collecting (calibration s) = true)).
  { intros r1 ->. destruct (collecting (calibration s0)) eqn:Ec.
    - destruct (collectCalibration_posture now f s0 Hi0 Ec) as [A B].
      split; [exact A|]. split; [exact B|]. intros _. exact Ec.
    - split; [exact Hi0|]. split; [reflexivity|]. cbn [snd]. intro E.
      congruence. }
  specialize (H1 _ eq_refl).
  destruct (if collecting (calibration s0)
            then collectCalibration now f s0 else (true, s0)) as [proceed s1].
  cbn [snd] in H1. destruct H1 as ([B1 B2] & Hcl & Hcol).
  destruct proceed; cbn [negb] in H.
  - match type of H with
    | match ?x with _ => _ end _ = _ => destruct x as [ab|]
    end.
    + apply bind_Some in H as (s2 & d2 & Hf & H).
      apply ret_Some in H as [-> _]. cbn [snd].
      apply fuseFrame_report in Hf as (_ & _ & _ & _ & _ & Ec & _ & Ecl & Et).
      rewrite Et, Ecl, Ec. split; [exact B1|]. split; [exact Hcl|exact Hcol].
    + apply ret_Some in H as [-> _]. cbn [snd].
      split; [exact B1|]. split; [exact Hcl|exact Hcol].
  - apply ret_Some in H as [-> _]. cbn [snd].
    split; [exact B1|]. split; [exact Hcl|exact Hcol].
Qed.

Lemma handleLandmarks_posture (now : Z) (lm : option FaceLandmarks)
    (s : Session) (d : list Q) (r : Outcome * Session) (d' : list Q) :
  noPoseForBaseline s -> handleLandmarks now lm s d = Some (r, d') ->
  noPoseForBaseline (snd r).
Proof.
  intros Hi. unfold handleLandmarks. cbv zeta. intro H. destruct lm as [f|].
  - apply bind_Some in H as (r1 & d1 & Hf & H).
    apply ret_Some in H as [-> _]. cbn [snd].
    apply handleFace_posture in Hf as (A & B & C); [|exact Hi].
    destruct Hi as [_ Hcl].
    change (calibration (setLandmarks true s)) with (calibration s) in *.
    change (closure (setLandmarks true s)) with (closure s) in *.
    destruct (collecting (calibration s)) eqn:Ec; cbn [andb].
    + destruct (collecting (calibration (snd r1))) eqn:Ec1; cbn [negb].
      * split; [exact A|]. intros _. rewrite B. apply Hcl. reflexivity.
      * unfold detectorEffect, noPoseForBaseline.
        destruct (negb (isActive (snd r1))); cbn; rewrite ?A, ?Ec1;
          (split; [reflexivity|discriminate]).
    + split; [exact A|]. intro E. specialize (C E). discriminate C.
  - apply handleNoFace_posture in H as (E1 & E2 & E3).
    destruct Hi as [A B]. unfold noPoseForBaseline.
    rewrite E1, E2, E3. split; [exact A|exact B].
Qed.

Lemma triggerDebugAlarm_posture (p : option ChallengeType) (now : Z)
    (s : Session) (d : list Q) (s' : Session) (d' : list Q) :
  triggerDebugAlarm p now s d = Some (s', d') -> samePosture s s'.
Proof.
  unfold triggerDebugAlarm. cbv zeta. intro H. rand_spec. det_done.
Qed.

Lemma silenceAlarm_posture (input : string) (s : Session) :
  samePosture s (snd (silenceAlarm input s)).
Proof.
  unfold silenceAlarm. cbv zeta.
  repeat match goal with
  | |- context [if ?c then _ else _] => destruct c
  end; repeat split; reflexivity.
Qed.

Lemma step_posture (s : Session) (e : Event) (o : option Outcome)
    (s' : Session) :
  frameEvent e = true -> noPoseForBaseline s -> step s e = Some (o, s') ->
  noPoseForBaseline s'.
Proof.
  intros He Hi H. destruct e; try discriminate He; cbn [step] in H.
  - destruct (isActive s); [|inversion H; subst; exact Hi].
    destruct (handleLandmarks now detectedLandmarks s draws)
      as [[r rest]|] eqn:E;
      [|discriminate].
    inversion H; subst. eapply handleLandmarks_posture; eassumption.
  - destruct (isActive s); inversion H; subst; [|exact Hi].
    destruct Hi as [A B]. unfold noPoseForBaseline, handlePose. cbv zeta.
    cbn. rewrite posture_update_baseline. split; [exact A|exact B].
  - inversion H; subst.
    eapply samePosture_keeps; [apply silenceAlarm_posture|exact Hi].
  - destruct (triggerDebugAlarm preferred now s draws) as [[s1 rest]|] eqn:E;
      [|discriminate].
    inversion H; subst.
    eapply samePosture_keeps; [eapply triggerDebugAlarm_posture, E|exact Hi].
Qed.

Lemma run_posture (events : list Event) :
  forall (s : Session) (os : list Outcome) (s' : Session),
    forallb frameEvent events = true -> noPoseForBaseline s ->
    run s events = Some (os, s') -> noPoseForBaseline s'.
Proof.
  induction events as [|e events IH]; intros s os s' He Hi H.
  - inversion H; subst. exact Hi.
  - cbn [forallb] in He. apply andb_true_iff in He as [He1 He2].
    cbn [run] in H. destruct (step s e) as [[o s1]|] eqn:E; [|discriminate].
    destruct (run s1 events) as [[os1 s2]|] eqn:Er; [|discriminate].
    inversion H; subst. eapply IH; [exact He2| |exact Er].
    eapply step_posture; eassumption.
Qed.

Lemma run_started (s : Session) (events : list Event) :
  isActive s = false ->
  run s (Mount :: SetActive true :: events)
  = run (activationEffect true (activationEffect false s)) events.
Proof.
  intro H.
  assert (S1 : step s Mount = Some (None, activationEffect false s))
    by (cbn [step]; rewrite H; reflexivity).
  assert (S2 : step (activationEffect false s) (SetActive true)
               = Some (None,
                       activationEffect true (activationEffect false s)))
    by (apply step_SetActive; reflexivity).
  destruct (run (activationEffect true (activationEffect false s)) events)
    as [[os s']|] eqn:E.
  - exact (run_cons _ _ _ _ _ _ _ S1 (run_cons _ _ _ _ _ _ _ S2 E)).
  - cbn [run]. rewrite S1. cbn [run]. rewrite S2, E. reflexivity.
Qed.

Lemma started_noPose (s : Session) :
  poseLandmarks s = None -> noPoseForBaseline (activationEffect true s).
Proof.
  intro H. split; [reflexivity|]. intros _. exact H.
Qed.

(** X25. In the first activation after mounting, whatever frames, pose
    frames, acknowledgment attempts and debug alarms follow, the posture
    tracker never receives a vertical baseline: the frame handler that
    completes calibration still holds the null pose landmarks it captured
    when the detector effect ran. *)
Theorem first_session_sets_no_posture_baseline (events : list Event)
    (os : list Outcome) (s' : Session) :
  forallb frameEvent events = true ->
  run mounted (Mount :: SetActive true :: events) = Some (os, s') ->
  PostureTracker.baselineVertical (postureTracker (trackers s')) = None.
Proof.
  intros Hall Hrun.
  rewrite (run_started mounted events eq_refl) in Hrun.
  pose proof (started_noPose (activationEffect false mounted) eq_refl) as H0.
  exact (proj1 (run_posture events _ os s' Hall H0 Hrun)).
Qed.

Lemma first_session_sets_no_posture_baseline_witness :
  forallb frameEvent Traces.firstSession = true
  /\ exists os s',
       run mounted (Mount :: SetActive true :: Traces.firstSession)
       = Some (os, s')
       /\ PostureTracker.baselineVertical (postureTracker (trackers s'))
          = None.
Proof.
  assert (H0 : forallb frameEvent Traces.firstSession = true)
    by reflexivity.
  split; [exact H0|].
  destruct (run_outcome mounted
              (Mount :: SetActive true :: Traces.firstSession))
    as (os & s' & E); [vm_compute; reflexivity|].
  exists os, s'. split; [exact E|].
  exact (first_session_sets_no_posture_baseline Traces.firstSession os s'
           H0 E).
Defined.

(** ** Voice warnings, calibration ranges and pushed snapshots *)

Lemma getWarningForState_none (m : VoiceWarnings.Metrics) :
  VoiceWarnings.getWarningForState m = None <-> cueFree m.
Proof.
  unfold VoiceWarnings.getWarningForState, cueFree.
  destruct (VoiceWarnings.landmarksNull m
            && VoiceWarnings.isFalse (VoiceWarnings.isPresent m));
    [split; [discriminate|intros (H & _); discriminate H]|].
  destruct (VoiceWarnings.eyesClosedSec m >? 2) eqn:E2.
  { apply gt_true in E2. split; [discriminate|]. intros (_ & H & _). lra. }
  destruct (VoiceWarnings.eyesClosedSec m >? 1) eqn:E1.
  { apply gt_true in E1. split; [discriminate|]. intros (_ & H & _). lra. }
  apply gt_false in E1.
  destruct (VoiceWarnings.isHeadNodding m);
    [split; [discriminate|intros (_ & _ & H & _); discriminate H]|].
  destruct (VoiceWarnings.isTrue (VoiceWarnings.isSlouched m)).
  { split; [|intros (_ & _ & _ & H & _); discriminate H].
    destruct (VoiceWarnings.leans _ forward); discriminate. }
  destruct (VoiceWarnings.isTrue (VoiceWarnings.isLeaning m)); cbn [andb].
  - destruct (VoiceWarnings.leans _ forward);
      [split; [discriminate|intros (_ & _ & _ & _ & H & _); discriminate H]|].
    destruct (VoiceWarnings.leans _ backward);
      [split; [discriminate|intros (_ & _ & _ & _ & H & _); discriminate H]|].
    cbn [orb].
    destruct (VoiceWarnings.isHeadTiltingBack m);
      [split; [discriminate|intros (_&_&_&_&_& H & _); discriminate H]|].
    destruct (VoiceWarnings.isHeadTilted m);
      [split; [discriminate|intros (_&_&_&_&_&_& H & _); discriminate H]|].
    destruct (3 <=? VoiceWarnings.yawnCount m)%nat eqn:Ey.
    { apply Nat.leb_le in Ey. split; [discriminate|].
      intros (_&_&_&_&_&_&_& H & _). lia. }
    apply Nat.leb_gt in Ey.
    destruct (VoiceWarnings.isYawning m);
      [split; [discriminate|intros (_&_&_&_&_&_&_&_& H & _); discriminate H]|].
    destruct (VoiceWarnings.isLookingAway m);
      [split; [discriminate|intros (_&_&_&_&_&_&_&_&_& H); discriminate H]|].
    split; [intros _|reflexivity]. repeat split; try reflexivity; assumption.
  - destruct (VoiceWarnings.isHeadTiltingBack m);
      [split; [discriminate|intros (_&_&_&_&_& H & _); discriminate H]|].
    destruct (VoiceWarnings.isHeadTilted m);
      [split; [discriminate|intros (_&_&_&_&_&_& H & _); discriminate H]|].
    destruct (3 <=? VoiceWarnings.yawnCount m)%nat eqn:Ey.
    { apply Nat.leb_le in Ey. split; [discriminate|].
      intros (_&_&_&_&_&_&_& H & _). lia. }
    apply Nat.leb_gt in Ey.
    destruct (VoiceWarnings.isYawning m);
      [split; [discriminate|intros (_&_&_&_&_&_&_&_& H & _); discriminate H]|].
    destruct (VoiceWarnings.isLookingAway m);
      [split; [discriminate|intros (_&_&_&_&_&_&_&_&_& H); discriminate H]|].
    split; [intros _|reflexivity]. repeat split; try reflexivity; assumption.
Qed.

Lemma getWarningForState_high (m : VoiceWarnings.Metrics) :
  (exists msg, VoiceWarnings.getWarningForState m = Some (msg, high))
  <-> (VoiceWarnings.landmarksNull m
       && VoiceWarnings.isFalse (VoiceWarnings.isPresent m) = true
       \/ 2 < VoiceWarnings.eyesClosedSec m
       \/ (VoiceWarnings.eyesClosedSec m <= 1
           /\ VoiceWarnings.isHeadNodding m = true)).
Proof.
  unfold VoiceWarnings.getWarningForState.
  destruct (VoiceWarnings.landmarksNull m
            && VoiceWarnings.isFalse (VoiceWarnings.isPresent m)).
  { split; [intros _; left; reflexivity|intros _; eexists; reflexivity]. }
  destruct (VoiceWarnings.eyesClosedSec m >? 2) eqn:E2.
  { apply gt_true in E2.
    split; [intros _; right; left; exact E2|intros _; eexists; reflexivity]. }
  apply gt_false in E2.
  destruct (VoiceWarnings.eyesClosedSec m >? 1) eqn:E1.
  { apply gt_true in E1. split.
    - intros (msg & H). discriminate H.
    - intros [H|[H|[H _]]]; [discriminate H|lra|lra]. }
  apply gt_false in E1.
  destruct (VoiceWarnings.isHeadNodding m).
  { split; [intros _; right; right; split; [exact E1|reflexivity]
           |intros _; eexists; reflexivity]. }
  split.
  - intros (msg & H). exfalso.
    repeat match type of H with
    | (if ?c then _ else _) = _ => destruct c
    end; discriminate H.
  - intros [H|[H|[_ H]]]; [discriminate H|lra|discriminate H].
Qed.

(** X26. On the metrics as the hook passes them (closed-eye duration and
    yawn count defined), [getWarningForState] returns no warning exactly
    when no cue is present ([cueFree]); it returns a warning of high
    priority exactly when no face is detected with the body reported
    absent, or the eyes have been closed for more than 2 s, or the head is
    nodding while the eyes have been closed for at most 1 s. *)
Theorem warning_selection (m : VoiceWarnings.Metrics) :
  (VoiceWarnings.getWarningForState m = None <-> cueFree m)
  /\ ((exists msg, VoiceWarnings.getWarningForState m = Some (msg, high))
      <-> (VoiceWarnings.landmarksNull m
           && VoiceWarnings.isFalse (VoiceWarnings.isPresent m) = true
           \/ 2 < VoiceWarnings.eyesClosedSec m
           \/ (VoiceWarnings.eyesClosedSec m <= 1
               /\ VoiceWarnings.isHeadNodding m = true))).
Proof.
  split; [apply getWarningForState_none|apply getWarningForState_high].
Qed.








Lemma pushTimes_app (a b : list Effect) :
  pushTimes (a ++ b) = pushTimes a ++ pushTimes b.
Proof. apply flat_map_app. Qed.

Lemma quietStep_refl (s : Session) : quietStep s s.
Proof. split; reflexivity. Qed.

Lemma quietStep_trans (s1 s2 s3 : Session) :
  quietStep s1 s2 -> quietStep s2 s3 -> quietStep s1 s3.
Proof. intros [A1 A2] [B1 B2]. split; congruence. Qed.

Ltac quiet_done :=
  repeat match goal with
  | H : snd ?x = _ |- _ => rewrite H; clear H
  end;
  repeat match goal with
  | |- context [if ?c then _ else _] => destruct c
  end;
  (split;
   [ reflexivity
   | cbn -[getAlarmBatch]; rewrite ?pushTimes_app;
     cbn [pushTimes flat_map app]; rewrite ?app_nil_r; reflexivity ]).

Lemma escalateAlarmed_quiet (now : Z) (best : AttentionState)
    (s : Session) (d : list Q) (s' : Session) (d' : list Q) :
  escalateAlarmed now best s d = Some (s', d') -> quietStep s s'.
Proof.
  unfold escalateAlarmed. cbv zeta. intro H. rand_spec; quiet_done.
Qed.

Lemma warnThenAlarm_quiet (now : Z) (best : AttentionState) (msg : string)
    (pr : Priority) (s : Session) (d : list Q) (s' : Session) (d' : list Q) :
  warnThenAlarm now best msg pr s d = Some (s', d') -> quietStep s s'.
Proof.
  unfold warnThenAlarm. cbv zeta. intro H. rand_spec; quiet_done.
Qed.

Lemma escalateRisk_quiet (now : Z) (best : AttentionState)
    (w : option (string * Priority)) (s : Session) (d : list Q)
    (s' : Session) (d' : list Q) :
  escalateRisk now best w s d = Some (s', d') -> quietStep s s'.
Proof.
  unfold escalateRisk. intro H. destruct w as [[msg pr]|].
  - destruct (negb (requireAck (alarms s))).
    + eapply warnThenAlarm_quiet, H.
    + eapply escalateAlarmed_quiet, H.
  - destruct (requireAck (alarms s)).
    + eapply escalateAlarmed_quiet, H.
    + apply ret_Some in H as [-> _]. apply quietStep_refl.
Qed.

Lemma settleAwake_quiet (s : Session) : quietStep s (settleAwake s).
Proof. unfold settleAwake. cbv zeta. quiet_done. Qed.

Lemma fuseFrame_push (now : Z) (f : FaceLandmarks)
    (b : CalibrationBaselines) (s : Session) (d : list Q) (s' : Session)
    (d' : list Q) :
  fuseFrame now f b s d = Some (s', d') ->
  (quietStep s s' /\ (now - lastEmitTime s < EMIT_INTERVAL_MS)%Z)
  \/ ((lastEmitTime s + EMIT_INTERVAL_MS <= now)%Z
      /\ lastEmitTime s' = now
      /\ pushTimes (effects s') = pushTimes (effects s) ++ [now]).
Proof.
  unfold fuseFrame. cbv zeta. intro H.
  destruct (updateTrackers now f b s) as [signals s1] eqn:Eu.
  assert (Q1 : quietStep s s1).
  { unfold updateTrackers in Eu. cbv zeta in Eu. inversion Eu; subst.
    split; reflexivity. }
  set (thr := Qmax (ear b * 0.75) (BASE_EAR_THRESHOLD * 0.75)) in *.
  set (s2 := if currentEar f <? thr
             then setClosedFrames (S (closedFrames s1)) s1
             else setClosedFrames 0 s1) in *.
  assert (Q2 : quietStep s1 s2).
  { unfold s2. destruct (currentEar f <? thr); split; reflexivity. }
  destruct (classify (normalize (fuseEvidence (closedFrames s2) signals)))
    as [best conf].
  apply bind_Some in H as (s3 & d3 & H3 & H). apply ret_Some in H as [-> _].
  assert (Q3 : quietStep (setLatestState best s2) s3).
  { match type of H3 with
    | (if ?c then _ else _) _ = _ => destruct c
    end.
    - eapply escalateRisk_quiet, H3.
    - apply ret_Some in H3 as [-> _]. apply settleAwake_quiet. }
  assert (Q : quietStep s s3).
  { eapply quietStep_trans; [exact Q1|].
    eapply quietStep_trans; [exact Q2|].
    eapply quietStep_trans; [|exact Q3]. split; reflexivity. }
  destruct Q as [L P].
  cbn [lastEmitTime setConfidence setState].
  destruct (EMIT_INTERVAL_MS <=? now - lastEmitTime s3)%Z eqn:E.
  - apply Z.leb_le in E. right. rewrite L in E.
    split; [lia|]. split; [reflexivity|].
    cbn [effects emit setConfidence setState setLastEmitTime].
    rewrite pushTimes_app, P. reflexivity.
  - apply Z.leb_gt in E. rewrite L in E. left.
    split; [|exact E]. split; [exact L|exact P].
Qed.

Lemma missingFace_quiet (now : Z) (sec : Q) (s : Session) (d : list Q)
    (s' : Session) (d' : list Q) :
  missingFace now sec s d = Some (s', d') -> quietStep s s'.
Proof.
  unfold missingFace. cbv zeta. intro H. rand_spec; quiet_done.
Qed.

Lemma absenceAlarm_quiet (now : Z) (s : Session) (d : list Q)
    (r : Outcome * Session) (d' : list Q) :
  absenceAlarm now s d = Some (r, d') -> quietStep s (snd r).
Proof.
  unfold absenceAlarm. cbv zeta. intro H. rand_spec. cbn [snd]. quiet_done.
Qed.

Lemma calibrationLost_quiet (s : Session) : quietStep s (calibrationLost s).
Proof. unfold calibrationLost. cbv zeta. quiet_done. Qed.

Lemma handleNoFace_quiet (now : Z) (s : Session) (d : list Q)
    (r : Outcome * Session) (d' : list Q) :
  handleNoFace now s d = Some (r, d') -> quietStep s (snd r).
Proof.
  unfold handleNoFace. cbv zeta. intro H.
  assert (Hrest : forall s1 sec r1 d1 d1',
            (if collecting (calibration s1)
             then ret (CalibrationLost, calibrationLost s1)
             else s2 <- missingFace now sec s1 ;; ret (FaceMissing, s2)) d1
            = Some (r1, d1') ->
            quietStep s1 (snd r1)).
  { intros s1 sec r1 d1 d1' H1. destruct (collecting (calibration s1)).
    - apply ret_Some in H1 as [-> _]. apply calibrationLost_quiet.
    - apply bind_Some in H1 as (s2 & d2 & Hm & H1).
      apply ret_Some in H1 as [-> _]. eapply missingFace_quiet, Hm. }
  match type of H with
  | (if ?c then _ else _) _ = _ => destruct c
  end.
  - match type of H with
    | (if ?c then _ else _) _ = _ => destruct c
    end.
    + eapply quietStep_trans; [|eapply absenceAlarm_quiet, H].
      split; reflexivity.
    + eapply quietStep_trans; [|eapply Hrest, H]. split; reflexivity.
  - eapply quietStep_trans; [|eapply Hrest, H]. split; reflexivity.
Qed.

Lemma collectCalibration_quiet (now : Z) (f : FaceLandmarks) (s : Session) :
  quietStep s (snd (collectCalibration now f s)).
Proof.
  unfold collectCalibration. cbv zeta.
  match goal with
  | |- context [if ?c then _ else _] => destruct c
  end; cbn [snd].
  - destruct (latestPostureState (trackers s)) as [ps|];
      [destruct (seenPoseLandmarks (closure s)); [destruct (isPresent ps)|]|];
      split; reflexivity.
  - quiet_done.
Qed.

Lemma detectorEffect_quiet (s : Session) : quietStep s (detectorEffect s).
Proof. unfold detectorEffect. cbv zeta. quiet_done. Qed.

Lemma handleFace_push (now : Z) (f : FaceLandmarks) (s : Session)
    (d : list Q) (r : Outcome * Session) (d' : list Q) :
  handleFace now f s d = Some (r, d') -> pushStep s (snd r).
Proof.
  unfold handleFace. cbv zeta. intro H.
  set (s0 := setAbsentCountdown None
               (setAbsentStartTime None (setMissingFaceFrames 0 s))) in *.
  assert (Q0 : quietStep s s0) by (split; reflexivity).
  destruct (if collecting (calibration s0)
            then collectCalibration now f s0 else (true, s0))
    as [proceed s1] eqn:Ec.
  assert (Q1 : quietStep s s1).
  { eapply quietStep_trans; [exact Q0|].
    destruct (collecting (calibration s0)).
    - pose proof (collectCalibration_quiet now f s0) as Hq.
      rewrite Ec in Hq. exact Hq.
    - inversion Ec; subst. apply quietStep_refl. }
  destruct proceed; cbn [negb] in H.
  - match type of H with
    | match ?x with _ => _ end _ = _ => destruct x as [ab|]
    end.
    + apply bind_Some in H as (s2 & d2 & Hf & H).
      apply ret_Some in H as [-> _]. cbn [snd].
      destruct Q1 as [L P].
      apply fuseFrame_push in Hf as [[[L2 P2] _]|(Hn & L2 & P2)].
      * left. split; congruence.
      * right. exists now. rewrite <- L. split; [exact Hn|].
        split; [exact L2|]. rewrite P2, P. reflexivity.
    + apply ret_Some in H as [-> _]. cbn [snd]. left.
      eapply quietStep_trans; [exact Q1|]. split; reflexivity.
  - apply ret_Some in H as [-> _]. cbn [snd]. left. exact Q1.
Qed.

Lemma pushStep_quiet (s1 s2 s3 : Session) :
  pushStep s1 s2 -> quietStep s2 s3 -> pushStep s1 s3.
Proof.
  intros [Hq|(now & Hn & L & P)] [L3 P3].
  - left. eapply quietStep_trans; [exact Hq|]. split; assumption.
  - right. exists now. split; [exact Hn|]. split; congruence.
Qed.

Lemma handleLandmarks_push (now : Z) (lm : option FaceLandmarks)
    (s : Session) (d : list Q) (r : Outcome * Session) (d' : list Q) :
  handleLandmarks now lm s d = Some (r, d') -> pushStep s (snd r).
Proof.
  unfold handleLandmarks. cbv zeta. intro H. destruct lm as [f|].
  - apply bind_Some in H as (r1 & d1 & Hf & H).
    apply ret_Some in H as [-> _]. cbn [snd].
    apply handleFace_push in Hf.
    assert (Hf' : pushStep s (snd r1)).
    { destruct Hf as [[L P]|(n & Hn & L & P)].
      - left. split; assumption.
      - right. exists n. repeat split; assumption. }
    match goal with
    | |- context [if ?c then _ else _] => destruct c
    end; [|exact Hf'].
    eapply pushStep_quiet; [exact Hf'|apply detectorEffect_quiet].
  - left. eapply quietStep_trans; [|eapply handleNoFace_quiet, H].
    split; reflexivity.
Qed.

Lemma triggerDebugAlarm_quiet (p : option ChallengeType) (now : Z)
    (s : Session) (d : list Q) (s' : Session) (d' : list Q) :
  triggerDebugAlarm p now s d = Some (s', d') -> quietStep s s'.
Proof.
  unfold triggerDebugAlarm. cbv zeta. intro H. rand_spec. quiet_done.
Qed.

Lemma silenceAlarm_quiet (input : string) (s : Session) :
  quietStep s (snd (silenceAlarm input s)).
Proof. unfold silenceAlarm. cbv zeta. quiet_done. Qed.

Lemma disarmAbsenceAlarm_quiet (s : Session) :
  quietStep s (disarmAbsenceAlarm s).
Proof.
  unfold disarmAbsenceAlarm. cbv zeta.
  destruct (isAbsenceAlarmArmed (absence s)).
  - eapply quietStep_trans; [|apply detectorEffect_quiet]. split; reflexivity.
  - split; reflexivity.
Qed.

Lemma step_push (s : Session) (e : Event) (o : option Outcome)
    (s' : Session) :
  withinSession e = true -> step s e = Some (o, s') -> pushStep s s'.
Proof.
  intros He H. destruct e; try discriminate He; cbn [step] in H.
  - destruct (isActive s).
    + destruct (handleLandmarks now detectedLandmarks s draws)
        as [[r rest]|] eqn:E; [|discriminate H].
      inversion H; subst. eapply handleLandmarks_push, E.
    + inversion H; subst. left. apply quietStep_refl.
  - destruct (isActive s); inversion H; subst; left; split; reflexivity.
  - inversion H; subst. left. apply silenceAlarm_quiet.
  - inversion H; subst. left. apply disarmAbsenceAlarm_quiet.
  - destruct (triggerDebugAlarm preferred now s draws) as [[s1 rest]|] eqn:E;
      [|discriminate H].
    inversion H; subst. left. eapply triggerDebugAlarm_quiet, E.
Qed.

(** X28. Within one activation (no mount and no change of [isActive] among
    the events), the snapshots pushed to the attention bridge during the
    events are stamped at least 300 ms apart, the first of them at least
    300 ms after the last emission time of the initial state, and the last
    emission time never decreases. *)
Lemma pushed_snapshots_spaced (events : list Event) :
  forall (s : Session) (os : list Outcome) (s' : Session),
  forallb withinSession events = true ->
  run s events = Some (os, s') ->
  exists new,
    pushTimes (effects s') = pushTimes (effects s) ++ new
    /\ spaced new
    /\ Forall (fun t => (lastEmitTime s + EMIT_INTERVAL_MS <= t)%Z) new
    /\ (lastEmitTime s <= lastEmitTime s')%Z.
Proof.
  induction events as [|e events IH]; intros s os s' Hall H.
  - cbn in H. inversion H; subst. exists []. rewrite app_nil_r.
    split; [reflexivity|]. split; [constructor|].
    split; [constructor|lia].
  - cbn [forallb] in Hall. apply andb_true_iff in Hall as [He Hall].
    cbn [run] in H.
    destruct (step s e) as [[o s1]|] eqn:Es; [|discriminate H].
    destruct (run s1 events) as [[os1 s2]|] eqn:Er; [|discriminate H].
    inversion H; subst. clear H.
    destruct (IH s1 os1 s' Hall Er) as (new & P & Hsp & Hlo & Hmono).
    apply step_push in Es; [|exact He].
    destruct Es as [[L1 P1]|(now & Hn & L1 & P1)].
    + exists new. rewrite P, P1. split; [reflexivity|].
      split; [exact Hsp|]. rewrite L1 in Hlo, Hmono.
      split; assumption.
    + exists (now :: new). rewrite P, P1, <- app_assoc.
      split; [reflexivity|]. rewrite L1 in Hlo, Hmono.
      unfold EMIT_INTERVAL_MS in *.
      split; [constructor; [exact Hsp|exact Hlo]|].
      split; [|lia].
      constructor; [exact Hn|].
      eapply Forall_impl; [|exact Hlo]. cbv beta. intros t Ht. lia.
Qed.

Lemma pushed_snapshots_spaced_witness :
  forallb withinSession Traces.threeFrames = true
  /\ exists os s' new,
       run Samples.calibrated Traces.threeFrames = Some (os, s')
       /\ pushTimes (effects s')
          = pushTimes (effects Samples.calibrated) ++ new
       /\ spaced new.
Proof.
  assert (H0 : forallb withinSession Traces.threeFrames = true)
    by reflexivity.
  split; [exact H0|].
  destruct (run_outcome Samples.calibrated Traces.threeFrames)
    as (os & s' & E); [vm_compute; reflexivity|].
  destruct (pushed_snapshots_spaced Traces.threeFrames Samples.calibrated os
              s' H0 E)
    as (new & Hp & Hs & _).
  exists os, s', new. split; [exact E|]. split; [exact Hp|exact Hs].
Defined.

Example three_frames_push_two_snapshots :
  option_map (fun r => pushTimes (effects (snd r)))
    (run Samples.calibrated Traces.threeFrames)
  = Some [100000%Z; 100400%Z].
Proof. vm_compute. reflexivity. Qed.

(** ** Stopping and restarting *)

Lemma absence_alarm_step (s : Session) (t0 now : Z) (draws : list Q) :
  isActive s = true ->
  armed s = true ->
  requireAck (alarms s) = false ->
  absentStartTime (absence s) = Some t0 ->
  (5000 <= now - t0)%Z ->
  Forall unitDraw draws -> (4 <= List.length draws)%nat ->
  exists s',
    step s (FaceFrame now None draws) = Some (Some AbsenceAlarm, s')
    /\ state s' = sleeping /\ confidence s' = 0.99
    /\ requireAck (alarms s') = true
    /\ calibration s' = calibration s.
Proof.
  intros Ha Harm Hack Hstart Hdur Hu Hl.
  destruct (absence_alarm_fires now t0 s draws Harm Hack Hstart Hdur Hu Hl)
    as (ty & pr & an & rest & _ & Hrun).
  pose proof (step_FaceFrame s now None draws _ rest Ha Hrun) as S3.
  cbn [fst snd] in S3.
  eexists. split; [exact S3|]. repeat split; reflexivity.
Qed.

(** X29. Stopping the hook resets state, confidence, alarms and baselines
    but not the absence state, and restarting it starts a new calibration
    with the old absence timer.  So when the hook is stopped while the
    absence timer runs and is restarted, a first frame without a face at
    least 5000 ms after the timer started raises the absence alarm at once,
    while calibration is collecting. *)
Theorem restart_keeps_absence_timer (s : Session) (t0 now : Z)
    (draws : list Q) :
  isActive s = true ->
  armed s = true ->
  absentStartTime (absence s) = Some t0 ->
  (5000 <= now - t0)%Z ->
  Forall unitDraw draws -> (4 <= List.length draws)%nat ->
  let stopped := activationEffect false s in
  let restarted := activationEffect true stopped in
  (isActive stopped = false /\ state stopped = awake
   /\ confidence stopped = 0 /\ Ack.quiet (alarms stopped)
   /\ baselines (calibration stopped) = None
   /\ absence stopped = absence s)
  /\ absence restarted = absence s
  /\ collecting (calibration restarted) = true
  /\ exists s',
       run s [SetActive false; SetActive true; FaceFrame now None draws]
       = Some ([AbsenceAlarm], s')
       /\ state s' = sleeping /\ confidence s' = 0.99
       /\ requireAck (alarms s') = true
       /\ collecting (calibration s') = true.
Proof.
  intros Ha Harm Hstart Hdur Hu Hl. cbv zeta.
  split; [repeat split; reflexivity|].
  split; [reflexivity|]. split; [reflexivity|].
  destruct (absence_alarm_step
              (activationEffect true (activationEffect false s)) t0 now draws
              eq_refl Harm eq_refl Hstart Hdur Hu Hl)
    as (s' & S3 & Hst & Hc & Hr & Hcal).
  exists s'. split.
  - exact (run_cons _ _ _ _ _ _ _ (step_SetActive s false Ha)
             (run_cons _ _ _ _ _ _ _
                (step_SetActive (activationEffect false s) true eq_refl)
                (run_cons _ _ [] _ _ [] _ S3 eq_refl))).
  - split; [exact Hst|]. split; [exact Hc|]. split; [exact Hr|].
    rewrite Hcal. reflexivity.
Qed.

Lemma restart_keeps_absence_timer_witness :
  isActive Samples.faceJustLost = true
  /\ absentStartTime (absence Samples.faceJustLost) = Some 10000%Z
  /\ exists s',
       run Samples.faceJustLost
         [SetActive false; SetActive true;
          FaceFrame 20000 None Samples.fourDraws]
       = Some ([AbsenceAlarm], s')
       /\ collecting (calibration s') = true.
Proof.
  assert (H0 : isActive Samples.faceJustLost = true)
    by (vm_compute; reflexivity).
  assert (H1 : armed Samples.faceJustLost = true)
    by (vm_compute; reflexivity).
  assert (H3 : absentStartTime (absence Samples.faceJustLost)
               = Some 10000%Z) by (vm_compute; reflexivity).
  assert (H4 : (5000 <= 20000 - 10000)%Z) by lia.
  assert (H5 : Forall unitDraw Samples.fourDraws)
    by (repeat constructor; unfold unitDraw; lra).
  assert (H6 : (4 <= List.length Samples.fourDraws)%nat) by (cbn; lia).
  destruct (restart_keeps_absence_timer Samples.faceJustLost 10000 20000
              Samples.fourDraws H0 H1 H3 H4 H5 H6)
    as (_ & _ & _ & s' & Hrun & _ & _ & _ & Hc).
  split; [exact H0|]. split; [exact H3|].
  exists s'. split; [exact Hrun|exact Hc].
Defined.
